(** * Piezoelectric window simulator: the simulation core, embedded and verified

    A shallow embedding of the three simulation classes of the repository,

      - [EnergyStorage]      (energy_storage.py),
      - [VibrationGenerator] (generator.py),
      - [PhysicsModel]       (physics_model.py),

    with the properties its specification states about them, and of the
    code around them: the sliders, buttons, event handlers and display
    computations of visualizer.py and the loop of main.py, with properties
    read off the code.

    Numbers.  The program computes with Python floats.  The embedding uses
    exact rationals [Q] in their place: every arithmetic operation, comparison
    and branch is the one of the source, and rounding is idealised away.  A
    division by zero, which Python answers with [ZeroDivisionError] and numpy
    with [inf] or [nan], shows in the result of the function that divides.
    Equality of computed numbers is [Qeq] (written [==]); where the code
    stores a literal or leaves a field untouched, the stronger Leibniz
    equality [=] is stated.

    Objects.  A Python object is a record, a method is a function from the
    object (and its arguments) to the object after the call, paired with the
    way the call ended when the method can raise. *)

From Stdlib Require Import String.
From Stdlib Require Import QArith Qabs Qminmax Lqa List Bool Lia ZArith.
Import ListNotations.

Open Scope Q_scope.

(** ** The fragment of Python the three classes use *)

Module Py.

(** The only exception the arithmetic of the classes can raise. *)
Inductive exn : Set := ZeroDivisionError.

(** How a call ends: it returns a value, or it raises. *)
Inductive outcome (A : Type) : Type :=
| Returned (a : A)
| Raised (e : exn).
Arguments Returned {A} a.
Arguments Raised {A} e.

(** [x < y] and [x > y] on numbers. *)
Definition lt (x y : Q) : bool := negb (Qle_bool y x).
Definition gt (x y : Q) : bool := lt y x.

(** [max(a, b)]: the builtin keeps its first argument unless a later one
    is strictly greater. *)
Definition max (a b : Q) : Q := if gt b a then b else a.

(** [min(a, b)]: the builtin keeps its first argument unless a later one
    is strictly smaller. *)
Definition min (a b : Q) : Q := if lt b a then b else a.

(** [a / b] on Python numbers: raises [ZeroDivisionError] when [b] is zero.
    (When an operand is a numpy scalar the quotient is [inf] or [nan] and a
    warning instead; [Raised] stands for the division by zero in both
    cases.) *)
Definition truediv (a b : Q) : outcome Q :=
  if Qeq_bool b 0 then Raised ZeroDivisionError else Returned (a / b).

(** [sum(xs)]: starts from 0 and adds from the left. *)
Definition sum (xs : list Q) : Q := fold_left Qplus xs 0.

(** [len(xs)] as a number. *)
Definition len (xs : list Q) : Q := inject_Z (Z.of_nat (length xs)).

End Py.

Import Py.

(** ** energy_storage.py *)

Module EnergyStorage.

Record t : Type := mk {
  capacity : Q;
  stored_energy : Q;
  state_of_charge : Q;
  discharge_rate : Q
}.

Definition set_stored_energy (self : t) (x : Q) : t :=
  mk (capacity self) x (state_of_charge self) (discharge_rate self).

Definition set_state_of_charge (self : t) (x : Q) : t :=
  mk (capacity self) (stored_energy self) x (discharge_rate self).

(** [EnergyStorage(capacity_joules, discharge_rate_watts)]: the arguments
    are stored as they come. *)
Definition __init__ (capacity_joules discharge_rate_watts : Q) : t :=
  {| capacity := capacity_joules;
     stored_energy := 0;
     state_of_charge := 0;
     discharge_rate := discharge_rate_watts |}.

(** The defaults of the signature. *)
Definition default_capacity_joules : Q := 50000.
Definition default_discharge_rate_watts : Q := 5.

(** [update_state_of_charge]: a zero capacity raises before the assignment,
    the object keeps its former percentage. *)
Definition update_state_of_charge (self : t) : t * outcome unit :=
  match Py.truediv (stored_energy self) (capacity self) with
  | Returned q => (set_state_of_charge self (q * 100), Returned tt)
  | Raised e => (self, Raised e)
  end.

Definition update (self : t) (dt joules_to_add : Q) : t * outcome unit :=
  (* First, apply the discharge *)
  let joules_to_discharge := discharge_rate self * dt in
  let self := set_stored_energy self (stored_energy self - joules_to_discharge) in
  (* Then, store the generated energy *)
  let self := set_stored_energy self (stored_energy self + joules_to_add) in
  (* Neither below zero nor above capacity *)
  let self := set_stored_energy self (Py.max 0 (stored_energy self)) in
  let self := set_stored_energy self (Py.min (stored_energy self) (capacity self)) in
  update_state_of_charge self.

(** A run of [update] calls, each with its [(dt, joules_to_add)]; an
    exception ends the run where it is raised. *)
Fixpoint updates (self : t) (calls : list (Q * Q)) : t * outcome unit :=
  match calls with
  | [] => (self, Returned tt)
  | (dt, joules_to_add) :: rest =>
      match update self dt joules_to_add with
      | (self', Returned _) => updates self' rest
      | (self', Raised e) => (self', Raised e)
      end
  end.

(** The specification's [clamp(x, lo, hi)], by cases. *)
Definition clamp (x lo hi : Q) : Q :=
  if Py.lt x lo then lo else if Py.lt hi x then hi else x.

(** The range invariant of the store. *)
Definition in_range (self : t) : Prop :=
  0 <= stored_energy self <= capacity self /\
  0 <= state_of_charge self <= 100.

End EnergyStorage.

(** ** generator.py *)

Module VibrationGenerator.

Record t : Type := mk {
  piezo_const : Q;
  resistance : Q;
  max_voltage : Q;
  power_output : Q;
  efficiency : Q
}.

Definition set_power_output (self : t) (x : Q) : t :=
  mk (piezo_const self) (resistance self) (max_voltage self) x (efficiency self).

(** [VibrationGenerator(piezo_const, resistance, max_voltage, efficiency)]:
    the arguments are stored as they come. *)
Definition __init__ (piezo_const resistance max_voltage efficiency : Q) : t :=
  {| piezo_const := piezo_const;
     resistance := resistance;
     max_voltage := max_voltage;
     power_output := 0.0;
     efficiency := efficiency |}.

(** The defaults of the signature. *)
Definition default_piezo_const : Q := 15.0.
Definition default_resistance : Q := 100.0.
Definition default_max_voltage : Q := 100.0.
Definition default_efficiency : Q := 0.4.

(** [calculate_power]: a zero resistance raises at the division, before
    [power_output] is assigned.  That is the division of Python floats, the
    one the method meets on the velocity 0.0 that [PhysicsModel.update]
    assigns without wind and after a failure; a velocity taken from an
    integrated state is a numpy scalar, whose division by zero gives [inf] or
    [nan] instead of raising.  With a resistance other than zero the two
    agree. *)
Definition calculate_power (self : t) (displacement velocity : Q)
  : t * outcome Q :=
  (* Limit the voltage *)
  let voltage := Py.min (piezo_const self * Qabs velocity) (max_voltage self) in
  (* Apply a power limit *)
  match Py.truediv (voltage ^ 2) (resistance self) with
  | Returned power_unlimited =>
      let self :=
        set_power_output self (Py.min power_unlimited 10 * efficiency self) in
      (self, Returned (power_output self))
  | Raised e => (self, Raised e)
  end.

Definition calculate_energy_this_cycle (self : t) (dt : Q) : t * outcome Q :=
  (self, Returned (power_output self * dt)).

(** The formula of the power in the specification's words, with the
    mathematical minimum. *)
Definition power_formula (self : t) (velocity : Q) : Q :=
  Qmin
    (Qmin (piezo_const self * Qabs velocity) (max_voltage self) ^ 2
     / resistance self)
    10
  * efficiency self.

End VibrationGenerator.

(** ** collections.deque with a [maxlen] *)

Module Deque.

Record t : Type := mk { items : list Q; maxlen : nat }.

(** [deque(maxlen=n)] *)
Definition new (n : nat) : t := {| items := []; maxlen := n |}.

(** [d.append(x)]: [x] goes to the right end, and a deque that is then longer
    than [maxlen] drops its leftmost item. *)
Definition append (d : t) (x : Q) : t :=
  let xs := items d ++ [x] in
  {| items := if (maxlen d <? length xs)%nat then tl xs else xs;
     maxlen := maxlen d |}.

End Deque.

(** ** What physics_model.py takes from numpy and scipy

    The square root, pi and the sine have no rational values, the random
    generator is global state, and [odeint] is a library integrator: the model
    takes them as an interface.  [rng] is the state of numpy's global
    generator, threaded through every function that draws from it.

    numpy's division does not raise: dividing by zero gives [inf] or [nan],
    which is [None] here. *)

Module Np.

Definition sign (x : Q) : Q :=
  if Py.lt x 0 then -1 else if Py.gt x 0 then 1 else 0.

Definition divide (a b : Q) : option Q :=
  if Qeq_bool b 0 then None else Some (a / b).

(** What a derivative function hands to the integrator: [[dy_dt, dv_dt]],
    the second of which may be non-finite. *)
Definition derivative : Type := Q * option Q.

Class Lib : Type := {
  rng : Type;
  sqrt : Q -> Q;
  pi : Q;
  sin : Q -> Q;
  (** [np.random.rand()] *)
  random_rand : rng -> Q * rng;
  (** [odeint(func, y0, [t0, t1])[-1]]: the state at [t1]. *)
  odeint_last :
    (Q * Q -> Q -> rng -> derivative * rng) -> Q * Q -> Q * Q -> rng ->
    (Q * Q) * rng
}.

End Np.

(** ** physics_model.py *)

Module PhysicsModel.

Record t : Type := mk {
  m : Q;                       (* Panel mass (kg) *)
  c1 : Q;                      (* Linear damping coefficient *)
  c2 : Q;                      (* Quadratic damping coefficient *)
  max_c_elec : Q;              (* Maximum electrical damping coefficient *)
  c_elec : Q;                  (* Dynamic electrical damping *)
  k : Q;                       (* Stiffness constant *)
  A : Q;                       (* Window area *)
  state : Q * Q;               (* [displacement, velocity] *)
  time : Q;
  wind_speed : Q;
  displacement : Q;
  velocity : Q;
  max_displacement : Q;        (* fail-safe limit *)
  failed : bool;
  damping_ratio : Q;
  resonant_frequency : Q;
  power_history : Deque.t;
  avg_power_window : Deque.t;
  average_power : Q
}.

Definition set_c_elec (self : t) (x : Q) : t :=
  {| m := m self;
     c1 := c1 self;
     c2 := c2 self;
     max_c_elec := max_c_elec self;
     c_elec := x;
     k := k self;
     A := A self;
     state := state self;
     time := time self;
     wind_speed := wind_speed self;
     displacement := displacement self;
     velocity := velocity self;
     max_displacement := max_displacement self;
     failed := failed self;
     damping_ratio := damping_ratio self;
     resonant_frequency := resonant_frequency self;
     power_history := power_history self;
     avg_power_window := avg_power_window self;
     average_power := average_power self |}.

Definition set_state (self : t) (x : Q * Q) : t :=
  {| m := m self;
     c1 := c1 self;
     c2 := c2 self;
     max_c_elec := max_c_elec self;
     c_elec := c_elec self;
     k := k self;
     A := A self;
     state := x;
     time := time self;
     wind_speed := wind_speed self;
     displacement := displacement self;
     velocity := velocity self;
     max_displacement := max_displacement self;
     failed := failed self;
     damping_ratio := damping_ratio self;
     resonant_frequency := resonant_frequency self;
     power_history := power_history self;
     avg_power_window := avg_power_window self;
     average_power := average_power self |}.

Definition set_time (self : t) (x : Q) : t :=
  {| m := m self;
     c1 := c1 self;
     c2 := c2 self;
     max_c_elec := max_c_elec self;
     c_elec := c_elec self;
     k := k self;
     A := A self;
     state := state self;
     time := x;
     wind_speed := wind_speed self;
     displacement := displacement self;
     velocity := velocity self;
     max_displacement := max_displacement self;
     failed := failed self;
     damping_ratio := damping_ratio self;
     resonant_frequency := resonant_frequency self;
     power_history := power_history self;
     avg_power_window := avg_power_window self;
     average_power := average_power self |}.

Definition set_wind_speed (self : t) (x : Q) : t :=
  {| m := m self;
     c1 := c1 self;
     c2 := c2 self;
     max_c_elec := max_c_elec self;
     c_elec := c_elec self;
     k := k self;
     A := A self;
     state := state self;
     time := time self;
     wind_speed := x;
     displacement := displacement self;
     velocity := velocity self;
     max_displacement := max_displacement self;
     failed := failed self;
     damping_ratio := damping_ratio self;
     resonant_frequency := resonant_frequency self;
     power_history := power_history self;
     avg_power_window := avg_power_window self;
     average_power := average_power self |}.

Definition set_displacement (self : t) (x : Q) : t :=
  {| m := m self;
     c1 := c1 self;
     c2 := c2 self;
     max_c_elec := max_c_elec self;
     c_elec := c_elec self;
     k := k self;
     A := A self;
     state := state self;
     time := time self;
     wind_speed := wind_speed self;
     displacement := x;
     velocity := velocity self;
     max_displacement := max_displacement self;
     failed := failed self;
     damping_ratio := damping_ratio self;
     resonant_frequency := resonant_frequency self;
     power_history := power_history self;
     avg_power_window := avg_power_window self;
     average_power := average_power self |}.

Definition set_velocity (self : t) (x : Q) : t :=
  {| m := m self;
     c1 := c1 self;
     c2 := c2 self;
     max_c_elec := max_c_elec self;
     c_elec := c_elec self;
     k := k self;
     A := A self;
     state := state self;
     time := time self;
     wind_speed := wind_speed self;
     displacement := displacement self;
     velocity := x;
     max_displacement := max_displacement self;
     failed := failed self;
     damping_ratio := damping_ratio self;
     resonant_frequency := resonant_frequency self;
     power_history := power_history self;
     avg_power_window := avg_power_window self;
     average_power := average_power self |}.

Definition set_failed (self : t) (x : bool) : t :=
  {| m := m self;
     c1 := c1 self;
     c2 := c2 self;
     max_c_elec := max_c_elec self;
     c_elec := c_elec self;
     k := k self;
     A := A self;
     state := state self;
     time := time self;
     wind_speed := wind_speed self;
     displacement := displacement self;
     velocity := velocity self;
     max_displacement := max_displacement self;
     failed := x;
     damping_ratio := damping_ratio self;
     resonant_frequency := resonant_frequency self;
     power_history := power_history self;
     avg_power_window := avg_power_window self;
     average_power := average_power self |}.

Definition set_damping_ratio (self : t) (x : Q) : t :=
  {| m := m self;
     c1 := c1 self;
     c2 := c2 self;
     max_c_elec := max_c_elec self;
     c_elec := c_elec self;
     k := k self;
     A := A self;
     state := state self;
     time := time self;
     wind_speed := wind_speed self;
     displacement := displacement self;
     velocity := velocity self;
     max_displacement := max_displacement self;
     failed := failed self;
     damping_ratio := x;
     resonant_frequency := resonant_frequency self;
     power_history := power_history self;
     avg_power_window := avg_power_window self;
     average_power := average_power self |}.

Definition set_resonant_frequency (self : t) (x : Q) : t :=
  {| m := m self;
     c1 := c1 self;
     c2 := c2 self;
     max_c_elec := max_c_elec self;
     c_elec := c_elec self;
     k := k self;
     A := A self;
     state := state self;
     time := time self;
     wind_speed := wind_speed self;
     displacement := displacement self;
     velocity := velocity self;
     max_displacement := max_displacement self;
     failed := failed self;
     damping_ratio := damping_ratio self;
     resonant_frequency := x;
     power_history := power_history self;
     avg_power_window := avg_power_window self;
     average_power := average_power self |}.

Definition set_power_history (self : t) (x : Deque.t) : t :=
  {| m := m self;
     c1 := c1 self;
     c2 := c2 self;
     max_c_elec := max_c_elec self;
     c_elec := c_elec self;
     k := k self;
     A := A self;
     state := state self;
     time := time self;
     wind_speed := wind_speed self;
     displacement := displacement self;
     velocity := velocity self;
     max_displacement := max_displacement self;
     failed := failed self;
     damping_ratio := damping_ratio self;
     resonant_frequency := resonant_frequency self;
     power_history := x;
     avg_power_window := avg_power_window self;
     average_power := average_power self |}.

Definition set_avg_power_window (self : t) (x : Deque.t) : t :=
  {| m := m self;
     c1 := c1 self;
     c2 := c2 self;
     max_c_elec := max_c_elec self;
     c_elec := c_elec self;
     k := k self;
     A := A self;
     state := state self;
     time := time self;
     wind_speed := wind_speed self;
     displacement := displacement self;
     velocity := velocity self;
     max_displacement := max_displacement self;
     failed := failed self;
     damping_ratio := damping_ratio self;
     resonant_frequency := resonant_frequency self;
     power_history := power_history self;
     avg_power_window := x;
     average_power := average_power self |}.

Definition set_average_power (self : t) (x : Q) : t :=
  {| m := m self;
     c1 := c1 self;
     c2 := c2 self;
     max_c_elec := max_c_elec self;
     c_elec := c_elec self;
     k := k self;
     A := A self;
     state := state self;
     time := time self;
     wind_speed := wind_speed self;
     displacement := displacement self;
     velocity := velocity self;
     max_displacement := max_displacement self;
     failed := failed self;
     damping_ratio := damping_ratio self;
     resonant_frequency := resonant_frequency self;
     power_history := power_history self;
     avg_power_window := avg_power_window self;
     average_power := x |}.

Section Methods.

Context {np : Np.Lib}.

(** The divisor [2 * sqrt(k * m)] is only reached with [k > 0] and
    [m > 0]. *)
Definition _calculate_damping_ratio (self : t) : Q :=
  if Py.gt (k self) 0 && Py.gt (m self) 0 then
    c1 self / (2 * Np.sqrt (k self * m self))
  else 0.0.

Definition _calculate_resonant_frequency (self : t) : Q :=
  let damping_ratio := _calculate_damping_ratio self in
  if Qle_bool 1 damping_ratio then
    0.0 (* Overdamped system, no resonance *)
  else if Py.gt (m self) 0 && Py.gt (k self) 0 then
    let omega_n := Np.sqrt (k self / m self) in
    let omega_d := omega_n * Np.sqrt (1 - damping_ratio ^ 2) in
    omega_d / (2 * Np.pi)
  else 0.0.

Definition _vibration_equation (self : t) (state : Q * Q) (t : Q)
  (g : Np.rng) : Np.derivative * Np.rng :=
  let '(y, v) := state in
  if failed self then ((0, Some 0), g)
  else if Qle_bool (wind_speed self) 0 then ((0, Some 0), g)
  else
    (* Wind force model with random fluctuations *)
    let force_amplitude := 0.5 * 1.225 * wind_speed self ^ 2 * A self * 0.1 in
    let wind_excitation_frequency :=
      wind_speed self * 0.3 + resonant_frequency self * 0.1 in
    let '(r, g) := Np.random_rand g in
    let noise := (r - 0.5) * force_amplitude * 0.2 in
    let F_external :=
      force_amplitude
      * Np.sin (2 * Np.pi * wind_excitation_frequency * time self)
      + noise in
    (* linear + quadratic damping *)
    let F_damping := c1 self * v + c2 self * v ^ 2 * Np.sign v in
    (* electrical damping *)
    let F_elec := c_elec self * v in
    let F_stiffness := k self * y in
    let dy_dt := v in
    let dv_dt :=
      Np.divide (F_external - F_damping - F_elec - F_stiffness) (m self) in
    ((dy_dt, dv_dt), g).

(** [update(wind_speed, dt, energy_storage)]; [energy_storage] is an
    [EnergyStorage] object or [None], and an object is always true. *)
Definition update (self : t) (wind_speed_arg dt : Q)
  (energy_storage : option EnergyStorage.t) (g : Np.rng) : t * Np.rng :=
  if failed self then
    let self := set_wind_speed self 0.0 in
    let self := set_displacement self 0.0 in
    let self := set_velocity self 0.0 in
    (self, g)
  else
    let self := set_wind_speed self wind_speed_arg in
    (* electrical damping from the battery charge *)
    let self :=
      match energy_storage with
      | Some es =>
          let charge_level := EnergyStorage.state_of_charge es in
          let min_c_elec := 0.5 in
          set_c_elec self
            (max_c_elec self * (1 - charge_level / 100.0) + min_c_elec)
      | None => self
      end in
    let self := set_damping_ratio self (_calculate_damping_ratio self) in
    let self :=
      set_resonant_frequency self (_calculate_resonant_frequency self) in
    let '(self, g) :=
      if Py.gt (wind_speed self) 0 then
        let time_span := (0, dt) in
        let '(last, g) :=
          Np.odeint_last (_vibration_equation self) (state self) time_span g in
        (set_state self last, g)
      else (set_state self (0.0, 0.0), g) in
    let self := set_time self (time self + dt) in
    let self := set_displacement self (fst (state self)) in
    let self := set_velocity self (snd (state self)) in
    (* physical failure *)
    let self :=
      if Py.gt (Qabs (displacement self)) (max_displacement self)
      then set_failed self true else self in
    (self, g).

End Methods.

(** [PhysicsModel(mass, damping, stiffness, area, max_elec_damping)]: the
    arguments are stored as they come.  The attributes assigned after the
    two derived quantities hold a placeholder until their assignment. *)
Definition __init__ (mass damping stiffness area max_elec_damping : Q)
  {np : Np.Lib} : t :=
  let self :=
    {| m := mass;
       c1 := damping;
       c2 := 0.5;
       max_c_elec := max_elec_damping;
       c_elec := 0.0;
       k := stiffness;
       A := area;
       state := (0.0, 0.0);
       time := 0.0;
       wind_speed := 0.0;
       displacement := 0.0;
       velocity := 0.0;
       max_displacement := 0.01;
       failed := false;
       damping_ratio := 0;
       resonant_frequency := 0;
       power_history := Deque.new 0;
       avg_power_window := Deque.new 0;
       average_power := 0 |} in
  let self := set_damping_ratio self (_calculate_damping_ratio self) in
  let self :=
    set_resonant_frequency self (_calculate_resonant_frequency self) in
  let self := set_power_history self (Deque.new 200) in
  let self := set_avg_power_window self (Deque.new (60 * 5)) in
  let self := set_average_power self 0.0 in
  self.

(** The defaults of the signature. *)
Definition default_mass : Q := 10.0.
Definition default_damping : Q := 10.0.
Definition default_stiffness : Q := 100000.0.
Definition default_area : Q := 0.5.
Definition default_max_elec_damping : Q := 5.0.

(** The division is only reached with a window that is not empty. *)
Definition update_power_metrics (self : t) (current_power : Q) : t :=
  (* power history for the graph, in mW *)
  let self :=
    set_power_history self
      (Deque.append (power_history self) (current_power * 1000)) in
  (* average power *)
  let self :=
    set_avg_power_window self
      (Deque.append (avg_power_window self) (current_power * 1000)) in
  let window := Deque.items (avg_power_window self) in
  set_average_power self
    (if Py.gt (Py.len window) 0 then Py.sum window / Py.len window else 0.0).

(** *** The object over its lifetime

    The driver calls the two methods of the object in some order, with
    arguments of its choice. *)

Inductive call : Type :=
| Update (wind_speed dt : Q) (energy_storage : option EnergyStorage.t)
| UpdatePowerMetrics (current_power : Q).

Section Lifetime.

Context {np : Np.Lib}.

Definition step (self : t) (c : call) (g : Np.rng) : t * Np.rng :=
  match c with
  | Update wind_speed dt energy_storage =>
      update self wind_speed dt energy_storage g
  | UpdatePowerMetrics current_power =>
      (update_power_metrics self current_power, g)
  end.

Fixpoint run (self : t) (calls : list call) (g : Np.rng) : t * Np.rng :=
  match calls with
  | [] => (self, g)
  | c :: rest => let '(self, g) := step self c g in run self rest g
  end.

(** The states an object can be in: those a constructor call followed by
    method calls leads to. *)
Definition reachable (self : t) : Prop :=
  exists mass damping stiffness area max_elec_damping calls g,
    fst (run (__init__ mass damping stiffness area max_elec_damping) calls g)
    = self.

End Lifetime.

(** The powers handed to [update_power_metrics], in call order. *)
Fixpoint powers (calls : list call) : list Q :=
  match calls with
  | [] => []
  | Update _ _ _ :: rest => powers rest
  | UpdatePowerMetrics p :: rest => p :: powers rest
  end.

(** The specification's words for the two buffers: the last [n] items of a
    sequence, the samples in milliwatts, and the arithmetic mean (0 of
    nothing). *)
Definition last_n (n : nat) (xs : list Q) : list Q :=
  skipn (length xs - n) xs.

Definition milliwatts (ps : list Q) : list Q :=
  map (fun p => p * 1000) ps.

Definition mean (xs : list Q) : Q :=
  match xs with
  | [] => 0
  | _ :: _ => fold_right Qplus 0 xs / inject_Z (Z.of_nat (length xs))
  end.

(** What the buffers of a model hold when the powers [ps] have been
    recorded so far. *)
Definition records (self : t) (ps : list Q) : Prop :=
  power_history self = Deque.mk (last_n 200 (milliwatts ps)) 200
  /\ avg_power_window self = Deque.mk (last_n 300 (milliwatts ps)) 300
  /\ average_power self == mean (last_n 300 (milliwatts ps)).

End PhysicsModel.

(** ** A library to run the model on

    The properties below hold for every [Np.Lib].  To evaluate the model on
    concrete inputs one is needed: rational approximations of the numeric
    functions, a generator that always draws the middle of its range, and an
    integrator given by the end state it comes back with. *)

Module Stub.

(** The square root to six decimals. *)
Definition sqrt (x : Q) : Q :=
  Z.sqrt (Qnum x * Zpos (Qden x) * 10 ^ 12) # (Qden x * 10 ^ 6).

Definition pi : Q := 3.141592653589793.

(** The first terms of the series of the sine. *)
Definition sin (x : Q) : Q := x - x ^ 3 / 6 + x ^ 5 / 120.

Definition lib (last : Q * Q) : Np.Lib :=
  {| Np.rng := unit;
     Np.sqrt := sqrt;
     Np.pi := pi;
     Np.sin := sin;
     Np.random_rand := fun g => (0.5, g);
     Np.odeint_last := fun _ _ _ g => (last, g) |}.

(** An integrator that comes back with 2 cm of displacement. *)
Definition overshoot : Np.Lib := lib (0.02, 0.0).

End Stub.

(** ** More of Python: integers, [int()], [max] of a sequence, dictionaries *)

Module PyInt.

(** [max(a, b)] and [min(a, b)] on integers. *)
Definition max (a b : Z) : Z := if (a <? b)%Z then b else a.
Definition min (a b : Z) : Z := if (b <? a)%Z then b else a.

(** [int(x)] of a float: the fraction is cut off, toward zero. *)
Definition int (x : Q) : Z := Z.quot (Qnum x) (Zpos (Qden x)).

(** An integer where a float is computed. *)
Definition float (n : Z) : Q := inject_Z n.

End PyInt.

Module PySeq.

(** [max(xs)] of a sequence that is not empty: the first of the greatest
    items. *)
Definition max (x : Q) (xs : list Q) : Q :=
  fold_left (fun best item => if Py.gt item best then item else best) xs x.

(** [enumerate(xs)] *)
Fixpoint enumerate_from (i : Z) (xs : list Q) : list (Z * Q) :=
  match xs with
  | [] => []
  | x :: rest => (i, x) :: enumerate_from (i + 1) rest
  end.

Definition enumerate (xs : list Q) : list (Z * Q) := enumerate_from 0 xs.

End PySeq.

(** A [dict] with string keys: the items in insertion order. *)
Module Dict.

Definition t (V : Type) : Type := list (string * V).

(** [d[key]], [None] for the [KeyError] of a missing key. *)
Fixpoint get {V : Type} (d : t V) (key : string) : option V :=
  match d with
  | [] => None
  | (k, v) :: rest => if String.eqb k key then Some v else get rest key
  end.

(** [d[key] = v]: a key that is there keeps its place. *)
Fixpoint set {V : Type} (d : t V) (key : string) (v : V) : t V :=
  match d with
  | [] => [(key, v)]
  | (k, v') :: rest =>
      if String.eqb k key then (k, v) :: rest else (k, v') :: set rest key v
  end.

Definition keys {V : Type} (d : t V) : list string := map fst d.
Definition values {V : Type} (d : t V) : list V := map snd d.

End Dict.

(** Sequencing of calls that may raise. *)
Definition bind {A B : Type} (o : outcome A) (f : A -> outcome B) : outcome B :=
  match o with
  | Returned a => f a
  | Raised e => Raised e
  end.

Notation "x <- o ;; k" := (bind o (fun x => k))
  (at level 61, o at next level, right associativity).

(** ** What visualizer.py takes from pygame and numpy

    [pygame.Rect(x, y, width, height)] with integer coordinates: [left] is
    [x], [right] is [x + width], and a point is inside when it is on neither
    the right nor the bottom edge.  Screen, fonts, clock and the drawing
    calls are outside the model. *)

Module Pygame.

Record Rect : Type := mkRect { x : Z; y : Z; width : Z; height : Z }.

Definition left (r : Rect) : Z := x r.
Definition top (r : Rect) : Z := y r.
Definition right (r : Rect) : Z := (x r + width r)%Z.
Definition bottom (r : Rect) : Z := (y r + height r)%Z.

Definition collidepoint (r : Rect) (pos : Z * Z) : bool :=
  (left r <=? fst pos)%Z && (fst pos <? right r)%Z
  && (top r <=? snd pos)%Z && (snd pos <? bottom r)%Z.

(** The events the main loop looks at. *)
Inductive event : Type :=
| QUIT
| MOUSEBUTTONDOWN (button : Z) (pos : Z * Z)
| MOUSEBUTTONUP
| MOUSEMOTION (pos : Z * Z)
| OTHER.

End Pygame.

Module Numpy.

(** [np.clip(x, lo, hi)] *)
Definition clip (x lo hi : Q) : Q := Qmin (Qmax x lo) hi.

End Numpy.

(** ** visualizer.py: Slider and Button *)

Module Slider.

Record t : Type := mk {
  rect : Pygame.Rect;
  val_range : Q * Q;
  value : Q;
  label_text : string;
  is_held : bool;
  slider_pos : Z
}.

Definition set_value (self : t) (v : Q) : t :=
  mk (rect self) (val_range self) v (label_text self) (is_held self)
    (slider_pos self).

Definition set_is_held (self : t) (b : bool) : t :=
  mk (rect self) (val_range self) (value self) (label_text self) b
    (slider_pos self).

Definition set_slider_pos (self : t) (p : Z) : t :=
  mk (rect self) (val_range self) (value self) (label_text self)
    (is_held self) p.

(** [Slider(x, y, width, height, val_range, default_val, label_text)]: the
    value is the default as given, the knob is placed from the default
    brought into the range; a range of width zero raises. *)
Definition __init__ (x y width height : Z) (val_range : Q * Q)
  (default_val : Q) (label_text : string) : outcome t :=
  let rect := Pygame.mkRect x y width height in
  let value := default_val in
  (* Initial slider position *)
  let default_val :=
    Py.max (fst val_range) (Py.min (snd val_range) default_val) in
  q <- Py.truediv (PyInt.float width * (default_val - fst val_range))
         (snd val_range - fst val_range) ;;
  Returned
    {| rect := rect;
       val_range := val_range;
       value := value;
       label_text := label_text;
       is_held := false;
       slider_pos := (x + PyInt.int q)%Z |}.

(** [update(pos)]: the knob follows the pointer within the track, and the
    value is read off the knob; a track of width zero raises once the knob
    is placed. *)
Definition update (self : t) (pos : Z * Z) : t * outcome Q :=
  let self :=
    set_slider_pos self
      (PyInt.max (Pygame.left (rect self))
         (PyInt.min (fst pos) (Pygame.right (rect self)))) in
  match Py.truediv
          (PyInt.float (slider_pos self - Pygame.left (rect self)))
          (PyInt.float (Pygame.width (rect self))) with
  | Returned q =>
      let self :=
        set_value self
          (fst (val_range self) + q * (snd (val_range self) - fst (val_range self))) in
      (self, Returned (value self))
  | Raised e => (self, Raised e)
  end.

End Slider.

Module Button.

Record t : Type := mk {
  rect : Pygame.Rect;
  text : string;
  color : list Z;
  hover_color : list Z
}.

Definition default_color : list Z := [150; 150; 150]%Z.

Definition __init__ (x y width height : Z) (text : string) (color : list Z) : t :=
  {| rect := Pygame.mkRect x y width height;
     text := text;
     color := color;
     hover_color := map (fun c => PyInt.min 255 (c + 30)) color |}.

Definition is_clicked (self : t) (pos : Z * Z) : bool :=
  Pygame.collidepoint (rect self) pos.

End Button.

(** ** visualizer.py: Visualizer *)

Module Visualizer.

Record t : Type := mk {
  screen_size : Z * Z;
  simulation_running : bool;
  timer_started : bool;
  params : Dict.t Q;
  sliders : Dict.t Slider.t;
  start_button : Button.t;
  stop_button : Button.t;
  wind_buttons_x : Z;
  wind_buttons_y : Z;
  wind_up_button : Button.t;
  wind_down_button : Button.t;
  graph_rect : Pygame.Rect;
  graph_max_y : Q;
  power_history_display_length : Z;
  max_visual_displacement_pixels : Z
}.

Definition set_simulation_running (self : t) (x : bool) : t :=
  {| screen_size := screen_size self;
     simulation_running := x;
     timer_started := timer_started self;
     params := params self;
     sliders := sliders self;
     start_button := start_button self;
     stop_button := stop_button self;
     wind_buttons_x := wind_buttons_x self;
     wind_buttons_y := wind_buttons_y self;
     wind_up_button := wind_up_button self;
     wind_down_button := wind_down_button self;
     graph_rect := graph_rect self;
     graph_max_y := graph_max_y self;
     power_history_display_length := power_history_display_length self;
     max_visual_displacement_pixels := max_visual_displacement_pixels self |}.

Definition set_timer_started (self : t) (x : bool) : t :=
  {| screen_size := screen_size self;
     simulation_running := simulation_running self;
     timer_started := x;
     params := params self;
     sliders := sliders self;
     start_button := start_button self;
     stop_button := stop_button self;
     wind_buttons_x := wind_buttons_x self;
     wind_buttons_y := wind_buttons_y self;
     wind_up_button := wind_up_button self;
     wind_down_button := wind_down_button self;
     graph_rect := graph_rect self;
     graph_max_y := graph_max_y self;
     power_history_display_length := power_history_display_length self;
     max_visual_displacement_pixels := max_visual_displacement_pixels self |}.

Definition set_params (self : t) (x : Dict.t Q) : t :=
  {| screen_size := screen_size self;
     simulation_running := simulation_running self;
     timer_started := timer_started self;
     params := x;
     sliders := sliders self;
     start_button := start_button self;
     stop_button := stop_button self;
     wind_buttons_x := wind_buttons_x self;
     wind_buttons_y := wind_buttons_y self;
     wind_up_button := wind_up_button self;
     wind_down_button := wind_down_button self;
     graph_rect := graph_rect self;
     graph_max_y := graph_max_y self;
     power_history_display_length := power_history_display_length self;
     max_visual_displacement_pixels := max_visual_displacement_pixels self |}.

Definition set_sliders (self : t) (x : Dict.t Slider.t) : t :=
  {| screen_size := screen_size self;
     simulation_running := simulation_running self;
     timer_started := timer_started self;
     params := params self;
     sliders := x;
     start_button := start_button self;
     stop_button := stop_button self;
     wind_buttons_x := wind_buttons_x self;
     wind_buttons_y := wind_buttons_y self;
     wind_up_button := wind_up_button self;
     wind_down_button := wind_down_button self;
     graph_rect := graph_rect self;
     graph_max_y := graph_max_y self;
     power_history_display_length := power_history_display_length self;
     max_visual_displacement_pixels := max_visual_displacement_pixels self |}.

Definition default_screen_size : Z * Z := (1400, 900)%Z.

(** The default parameters of the sliders. *)
Definition default_params : Dict.t Q :=
  [ ("mass", 10.0);
    ("damping", 10.0);
    ("stiffness", 100000.0);
    ("area", 0.5);
    ("max_elec_damping", 5.0);
    ("efficiency", 0.4);
    ("discharge_rate", 0.003);
    ("piezo_const", 25.0);
    ("resistance", 10000.0) ]%string.

(** The value of a default parameter, 0 standing for the [KeyError] that
    the literal above rules out. *)
Definition default_of (key : string) : Q :=
  match Dict.get default_params key with
  | Some v => v
  | None => 0
  end.

Definition __init__ (screen_size : Z * Z) : outcome t :=
  let params := default_params in
  let right_x := (fst screen_size - 420)%Z in
  mass <- Slider.__init__ 80 610 250 10 (1, 50) (default_of "mass") "Mass (kg)" ;;
  damping <- Slider.__init__ 80 680 250 10 (1, 50) (default_of "damping")
               "Damping (N·s/m)" ;;
  stiffness <- Slider.__init__ 80 750 250 10 (10000, 500000)
                 (default_of "stiffness") "Stiffness (N/m)" ;;
  area <- Slider.__init__ 80 820 250 10 (0.05, 1.0) (default_of "area")
            "Area (m²)" ;;
  max_elec_damping <- Slider.__init__ right_x 380 250 10 (0.5, 20.0)
                        (default_of "max_elec_damping")
                        "Max Elec. Damping (N·s/m)" ;;
  efficiency <- Slider.__init__ right_x 450 250 10 (0.01, 1.0)
                  (default_of "efficiency") "Generator Efficiency" ;;
  discharge_rate <- Slider.__init__ right_x 520 250 10 (0.0, 0.07)
                      (default_of "discharge_rate") "Battery Discharge (mW)" ;;
  piezo_const <- Slider.__init__ right_x 590 250 10 (1, 30)
                   (default_of "piezo_const") "Piezo. Constant (V/m/s)" ;;
  resistance <- Slider.__init__ right_x 660 250 10 (1, 50000)
                  (default_of "resistance") "Load Resistance (Ω)" ;;
  let wind_buttons_x := (fst screen_size / 2 - 55)%Z in
  let wind_buttons_y := (snd screen_size / 2 + 320)%Z in
  Returned
    {| screen_size := screen_size;
       simulation_running := false;
       timer_started := false;
       params := params;
       sliders :=
         [ ("mass", mass);
           ("damping", damping);
           ("stiffness", stiffness);
           ("area", area);
           ("max_elec_damping", max_elec_damping);
           ("efficiency", efficiency);
           ("discharge_rate", discharge_rate);
           ("piezo_const", piezo_const);
           ("resistance", resistance) ]%string;
       start_button :=
         Button.__init__ (fst screen_size / 2 - 150) (snd screen_size / 2 - 350)
           300 70 "Start Simulation" [50; 205; 50]%Z;
       stop_button :=
         Button.__init__ (fst screen_size - 350) (snd screen_size - 150)
           300 70 "Stop Simulation" [220; 20; 60]%Z;
       wind_buttons_x := wind_buttons_x;
       wind_buttons_y := wind_buttons_y;
       wind_up_button :=
         Button.__init__ (wind_buttons_x + 60) wind_buttons_y 50 50 "+"
           [100; 150; 200]%Z;
       wind_down_button :=
         Button.__init__ wind_buttons_x wind_buttons_y 50 50 "-"
           [100; 150; 200]%Z;
       graph_rect := Pygame.mkRect (fst screen_size - 450) 70 400 200;
       graph_max_y := 10;
       power_history_display_length := 200;
       max_visual_displacement_pixels := 60 |}.

(** The description of a wind speed on the Beaufort scale. *)
Definition get_beaufort_scale (wind_speed : Q) : string :=
  if Py.lt wind_speed 0.3 then "Calm (0 BF)"
  else if Py.lt wind_speed 1.6 then "Light Air (1 BF)"
  else if Py.lt wind_speed 3.4 then "Light Breeze (2 BF)"
  else if Py.lt wind_speed 5.5 then "Gentle Breeze (3 BF)"
  else if Py.lt wind_speed 8.0 then "Moderate Breeze (4 BF)"
  else if Py.lt wind_speed 10.8 then "Fresh Breeze (5 BF)"
  else if Py.lt wind_speed 13.9 then "Strong Breeze (6 BF)"
  else if Py.lt wind_speed 17.2 then "Near Gale (7 BF)"
  else if Py.lt wind_speed 20.8 then "Gale (8 BF)"
  else if Py.lt wind_speed 24.5 then "Strong Gale (9 BF)"
  else if Py.lt wind_speed 28.5 then "Storm (10 BF)"
  else if Py.lt wind_speed 32.7 then "Violent Storm (11 BF)"
  else "Hurricane (12 BF)".

(** The descriptions, calm first. *)
Definition beaufort_descriptions : list string :=
  [ "Calm (0 BF)"; "Light Air (1 BF)"; "Light Breeze (2 BF)";
    "Gentle Breeze (3 BF)"; "Moderate Breeze (4 BF)"; "Fresh Breeze (5 BF)";
    "Strong Breeze (6 BF)"; "Near Gale (7 BF)"; "Gale (8 BF)";
    "Strong Gale (9 BF)"; "Storm (10 BF)"; "Violent Storm (11 BF)";
    "Hurricane (12 BF)" ]%string.

(** The place of a description in that list: its Beaufort number. *)
Fixpoint index_of (s : string) (l : list string) : nat :=
  match l with
  | [] => 0
  | s' :: rest => if String.eqb s' s then 0 else S (index_of s rest)
  end.

Definition beaufort_number (description : string) : nat :=
  index_of description beaufort_descriptions.

(** [draw_window_simulation]: the horizontal offset, in pixels, at which the
    outer panel is drawn. *)
Definition displacement_factor (self : t) (displacement : Q) : Z :=
  (* Clamp the displacement to a reasonable range for visual stability *)
  let clamped_displacement := Numpy.clip displacement (-0.005) 0.005 in
  (* Map the clamped physical displacement (in meters) to pixels *)
  PyInt.int
    (clamped_displacement / 0.005
     * PyInt.float (max_visual_displacement_pixels self)).

(** [draw_power_graph]: the points of the curve handed to the drawing call;
    with fewer than two samples the method returns before it computes
    any. *)
Fixpoint graph_points_loop (self : t) (max_power_val : Q)
  (items : list (Z * Q)) : outcome (list (Q * Q)) :=
  match items with
  | [] => Returned []
  | (i, val) :: rest =>
      fx <- Py.truediv (PyInt.float i)
              (PyInt.float (power_history_display_length self - 1)) ;;
      let x :=
        PyInt.float (Pygame.x (graph_rect self))
        + fx * PyInt.float (Pygame.width (graph_rect self)) in
      fy <- Py.truediv val
              (if Py.gt max_power_val 0 then max_power_val
               else graph_max_y self) ;;
      let y_scaled := fy * PyInt.float (Pygame.height (graph_rect self)) * 0.8 in
      let y :=
        PyInt.float (Pygame.y (graph_rect self))
        + PyInt.float (Pygame.height (graph_rect self)) - y_scaled - 10 in
      points <- graph_points_loop self max_power_val rest ;;
      Returned ((x, y) :: points)
  end.

Definition graph_points (self : t) (power_history : list Q)
  : outcome (list (Q * Q)) :=
  match power_history with
  | [] | [_] => Returned []
  | first :: _ =>
      let max_power_val := PySeq.max first power_history in
      graph_points_loop self max_power_val (PySeq.enumerate power_history)
  end.

(** [get_delta_time]; [tick] is what [clock.tick(60)] answers, the
    milliseconds since the frame before. *)
Definition get_delta_time (self : t) (tick : Z) : Q :=
  if timer_started self then PyInt.float tick / 1000.0 else 0.

(** [handle_mouse_click(pos)]: the action, or [None]. *)
Definition handle_mouse_click (self : t) (pos : Z * Z) : t * option string :=
  let grab (self : t) : t :=
    (* only when the simulation is not in progress *)
    if negb (simulation_running self) then
      set_sliders self
        (map (fun item : string * Slider.t =>
                let (name, slider) := item in
                if Pygame.collidepoint (Slider.rect slider) pos
                then (name, Slider.set_is_held slider true)
                else (name, slider))
           (sliders self))
    else self in
  if negb (simulation_running self) then
    if Button.is_clicked (start_button self) pos then
      (set_simulation_running self true, Some "start"%string)
    else (grab self, None)
  else
    if Button.is_clicked (stop_button self) pos then
      let self := set_simulation_running self false in
      (set_timer_started self false, Some "stop"%string)
    else if Button.is_clicked (wind_up_button self) pos then
      (set_timer_started self true, Some "wind_up"%string)
    else if Button.is_clicked (wind_down_button self) pos then
      (set_timer_started self true, Some "wind_down"%string)
    else (grab self, None).

Definition handle_mouse_release (self : t) : t :=
  set_sliders self
    (map (fun item : string * Slider.t =>
            (fst item, Slider.set_is_held (snd item) false))
       (sliders self)).

(** The loop of [handle_mouse_drag]: the first slider that is held follows
    the pointer and gives its parameter, and the loop ends there. *)
Fixpoint drag (items : Dict.t Slider.t) (params : Dict.t Q) (pos : Z * Z)
  : Dict.t Slider.t * Dict.t Q * outcome (option string) :=
  match items with
  | [] => ([], params, Returned None)
  | (name, slider) :: rest =>
      if Slider.is_held slider then
        match Slider.update slider pos with
        | (slider, Returned new_value) =>
            ((name, slider) :: rest, Dict.set params name new_value,
             Returned (Some "update_params"%string))
        | (slider, Raised e) => ((name, slider) :: rest, params, Raised e)
        end
      else
        let '(rest, params, o) := drag rest params pos in
        ((name, slider) :: rest, params, o)
  end.

Definition handle_mouse_drag (self : t) (pos : Z * Z)
  : t * outcome (option string) :=
  let '(items, params, o) := drag (sliders self) (params self) pos in
  (set_params (set_sliders self items) params, o).

Definition get_params (self : t) : Dict.t Q := params self.

End Visualizer.


(** ** main.py

    The body of [main] is a loop over frames.  A frame takes from pygame the
    tick of the clock and the events that arrived; the drawing at its end
    changes nothing of the state, and only its reads of the objects are
    kept. *)

Module Main.

(** What ends [main] abnormally. *)
Inductive exn : Type :=
| Arithmetic (e : Py.exn)
| KeyError (key : string)
| AttributeError.

Inductive result (A : Type) : Type :=
| Done (a : A)
| Crashed (e : exn).
Arguments Done {A} a.
Arguments Crashed {A} e.

(** The local variables of [main]. *)
Record state : Type := mk {
  visualizer : Visualizer.t;
  physics_model : option PhysicsModel.t;
  generator : option VibrationGenerator.t;
  energy_storage : option EnergyStorage.t;
  wind_speed : Q;
  total_energy_single_window : Q;
  running : bool
}.

Definition set_visualizer (st : state) (x : Visualizer.t) : state :=
  {| visualizer := x;
     physics_model := physics_model st;
     generator := generator st;
     energy_storage := energy_storage st;
     wind_speed := wind_speed st;
     total_energy_single_window := total_energy_single_window st;
     running := running st |}.

Definition set_physics_model (st : state) (x : option PhysicsModel.t) : state :=
  {| visualizer := visualizer st;
     physics_model := x;
     generator := generator st;
     energy_storage := energy_storage st;
     wind_speed := wind_speed st;
     total_energy_single_window := total_energy_single_window st;
     running := running st |}.

Definition set_generator (st : state) (x : option VibrationGenerator.t) : state :=
  {| visualizer := visualizer st;
     physics_model := physics_model st;
     generator := x;
     energy_storage := energy_storage st;
     wind_speed := wind_speed st;
     total_energy_single_window := total_energy_single_window st;
     running := running st |}.

Definition set_energy_storage (st : state) (x : option EnergyStorage.t) : state :=
  {| visualizer := visualizer st;
     physics_model := physics_model st;
     generator := generator st;
     energy_storage := x;
     wind_speed := wind_speed st;
     total_energy_single_window := total_energy_single_window st;
     running := running st |}.

Definition set_wind_speed (st : state) (x : Q) : state :=
  {| visualizer := visualizer st;
     physics_model := physics_model st;
     generator := generator st;
     energy_storage := energy_storage st;
     wind_speed := x;
     total_energy_single_window := total_energy_single_window st;
     running := running st |}.

Definition set_total_energy_single_window (st : state) (x : Q) : state :=
  {| visualizer := visualizer st;
     physics_model := physics_model st;
     generator := generator st;
     energy_storage := energy_storage st;
     wind_speed := wind_speed st;
     total_energy_single_window := x;
     running := running st |}.

Definition set_running (st : state) (x : bool) : state :=
  {| visualizer := visualizer st;
     physics_model := physics_model st;
     generator := generator st;
     energy_storage := energy_storage st;
     wind_speed := wind_speed st;
     total_energy_single_window := total_energy_single_window st;
     running := x |}.

(** Number of windows contributing to the battery charge. *)
Definition NUM_WINDOWS : Q := 100.

(** [params[key]] *)
Definition item (params : Dict.t Q) (key : string) : result Q :=
  match Dict.get params key with
  | Some v => Done v
  | None => Crashed (KeyError key)
  end.

Definition and_then {A B : Type} (r : result A) (f : A -> result B) : result B :=
  match r with
  | Done a => f a
  | Crashed e => Crashed e
  end.

(** The state before the loop. *)
Definition start_of_main (visualizer : Visualizer.t) : state :=
  {| visualizer := visualizer;
     physics_model := None;
     generator := None;
     energy_storage := None;
     wind_speed := 0.0;
     total_energy_single_window := 0.0;
     running := true |}.

Section Loop.

Context {np : Np.Lib}.

(** The branch of the action ['start']: the three objects are built from the
    parameters of the sliders. *)
Definition start (st : state) : result state :=
  let params := Visualizer.get_params (visualizer st) in
  and_then (item params "mass") (fun mass =>
  and_then (item params "damping") (fun damping =>
  and_then (item params "stiffness") (fun stiffness =>
  and_then (item params "area") (fun area =>
  and_then (item params "max_elec_damping") (fun max_elec_damping =>
  let physics_model :=
    PhysicsModel.__init__ mass damping stiffness area max_elec_damping in
  and_then (item params "piezo_const") (fun piezo_const =>
  and_then (item params "resistance") (fun resistance =>
  and_then (item params "efficiency") (fun efficiency =>
  let generator :=
    VibrationGenerator.__init__ piezo_const resistance
      VibrationGenerator.default_max_voltage efficiency in
  and_then (item params "discharge_rate") (fun discharge_rate_in_watts =>
  let energy_storage :=
    EnergyStorage.__init__ EnergyStorage.default_capacity_joules
      discharge_rate_in_watts in
  Done
    {| visualizer := visualizer st;
       physics_model := Some physics_model;
       generator := Some generator;
       energy_storage := Some energy_storage;
       wind_speed := 0.0;
       total_energy_single_window := 0.0;
       running := running st |}))))))))).

Definition stop (st : state) : state :=
  {| visualizer := visualizer st;
     physics_model := None;
     generator := None;
     energy_storage := None;
     wind_speed := 0.0;
     total_energy_single_window := 0.0;
     running := running st |}.

Definition wind_up (st : state) : state :=
  let st := set_wind_speed st (wind_speed st + 0.5) in
  if Py.gt (wind_speed st) 30 then set_wind_speed st 30 else st.

Definition wind_down (st : state) : state :=
  let st := set_wind_speed st (wind_speed st - 1.0) in
  if Py.lt (wind_speed st) 0 then set_wind_speed st 0 else st.

(** One event of the [for] loop over the events. *)
Definition handle_event (st : state) (ev : Pygame.event) : result state :=
  match ev with
  | Pygame.QUIT => Done (set_running st false)
  | Pygame.MOUSEBUTTONDOWN button pos =>
      if (button =? 1)%Z then
        let '(vis, action) :=
          Visualizer.handle_mouse_click (visualizer st) pos in
        let st := set_visualizer st vis in
        match action with
        | Some action =>
            if String.eqb action "start" then start st
            else if String.eqb action "stop" then Done (stop st)
            else if String.eqb action "wind_up"
                    && Visualizer.simulation_running (visualizer st)
            then Done (wind_up st)
            else if String.eqb action "wind_down"
                    && Visualizer.simulation_running (visualizer st)
            then Done (wind_down st)
            else Done st
        | None => Done st
        end
      else Done st
  | Pygame.MOUSEBUTTONUP =>
      Done (set_visualizer st (Visualizer.handle_mouse_release (visualizer st)))
  | Pygame.MOUSEMOTION pos =>
      match Visualizer.handle_mouse_drag (visualizer st) pos with
      | (vis, Returned _) => Done (set_visualizer st vis)
      | (vis, Raised e) => Crashed (Arithmetic e)
      end
  | Pygame.OTHER => Done st
  end.

Fixpoint handle_events (st : state) (events : list Pygame.event) : result state :=
  match events with
  | [] => Done st
  | ev :: rest => and_then (handle_event st ev) (fun st => handle_events st rest)
  end.

(** The simulation logic of a frame. *)
Definition simulation_logic (st : state) (dt : Q) (g : Np.rng)
  : result state * Np.rng :=
  match physics_model st, generator st, energy_storage st with
  | Some physics_model, Some generator, Some energy_storage =>
      if Visualizer.simulation_running (visualizer st) then
        (* First, update the physical model, passing the energy storage *)
        let '(physics_model, g) :=
          PhysicsModel.update physics_model (wind_speed st) dt
            (Some energy_storage) g in
        let st := set_physics_model st (Some physics_model) in
        (* Check for failure before calculating power *)
        let st :=
          if PhysicsModel.failed physics_model then
            let st :=
              set_visualizer st
                (Visualizer.set_simulation_running (visualizer st) false) in
            set_wind_speed st 0.0
          else st in
        (* Now, calculate power using the newly updated attributes *)
        match VibrationGenerator.calculate_power generator
                (PhysicsModel.displacement physics_model)
                (PhysicsModel.velocity physics_model) with
        | (_, Raised e) => (Crashed (Arithmetic e), g)
        | (generator, Returned current_power) =>
            let st := set_generator st (Some generator) in
            let physics_model :=
              PhysicsModel.update_power_metrics physics_model current_power in
            let st := set_physics_model st (Some physics_model) in
            match VibrationGenerator.calculate_energy_this_cycle generator dt with
            | (_, Raised e) => (Crashed (Arithmetic e), g)
            | (generator, Returned joules_this_cycle_single_window) =>
                let total_joules_generated_this_cycle :=
                  joules_this_cycle_single_window * NUM_WINDOWS in
                match EnergyStorage.update energy_storage dt
                        total_joules_generated_this_cycle with
                | (_, Raised e) => (Crashed (Arithmetic e), g)
                | (energy_storage, Returned _) =>
                    let st := set_energy_storage st (Some energy_storage) in
                    (* Accumulate energy for the single window display *)
                    let st :=
                      set_total_energy_single_window st
                        (total_energy_single_window st
                         + joules_this_cycle_single_window) in
                    (Done st, g)
                end
            end
        end
      else (Done st, g)
  | _, _, _ => (Done st, g)
  end.

(** What [draw_elements] reads: with the simulation running it takes the
    displacement and the power history of the physics model, which an absent
    model does not have. *)
Definition draw_elements (st : state) : result unit :=
  if Visualizer.simulation_running (visualizer st) then
    match physics_model st with
    | Some _ => Done tt
    | None => Crashed AttributeError
    end
  else Done tt.

(** One turn of the [while] loop, with the tick and the events pygame
    gives it. *)
Definition frame (st : state) (tick : Z) (events : list Pygame.event)
  (g : Np.rng) : result state * Np.rng :=
  let dt := Visualizer.get_delta_time (visualizer st) tick in
  match handle_events st events with
  | Crashed e => (Crashed e, g)
  | Done st =>
      match simulation_logic st dt g with
      | (Crashed e, g) => (Crashed e, g)
      | (Done st, g) =>
          match draw_elements st with
          | Crashed e => (Crashed e, g)
          | Done _ => (Done st, g)
          end
      end
  end.

(** The loop over the frames pygame gives, as long as [running] holds. *)
Fixpoint loop (st : state) (frames : list (Z * list Pygame.event)) (g : Np.rng)
  : result state * Np.rng :=
  match frames with
  | [] => (Done st, g)
  | (tick, events) :: rest =>
      if running st then
        match frame st tick events g with
        | (Crashed e, g) => (Crashed e, g)
        | (Done st, g) => loop st rest g
        end
      else (Done st, g)
  end.

End Loop.

End Main.

(** ** What a run of calls is made of *)

Module Lifetime.

(** The time steps of the [update] calls of a run, in call order. *)
Fixpoint time_steps (calls : list PhysicsModel.call) : list Q :=
  match calls with
  | [] => []
  | PhysicsModel.Update _ dt _ :: rest => dt :: time_steps rest
  | PhysicsModel.UpdatePowerMetrics _ :: rest => time_steps rest
  end.

(** An [update] call that is given a store is given one whose state of
    charge is a percentage. *)
Definition charge_is_percentage (c : PhysicsModel.call) : Prop :=
  match c with
  | PhysicsModel.Update _ _ (Some es) =>
      0 <= EnergyStorage.state_of_charge es <= 100
  | _ => True
  end.

End Lifetime.

(** [main()]: the visualizer is built with its default screen size, and the
    loop runs on the frames pygame gives. *)
Definition main {np : Np.Lib} (frames : list (Z * list Pygame.event))
  (g : Np.rng) : Main.result Main.state * Np.rng :=
  match Visualizer.__init__ Visualizer.default_screen_size with
  | Returned visualizer => Main.loop (Main.start_of_main visualizer) frames g
  | Raised e => (Main.Crashed (Main.Arithmetic e), g)
  end.

(** ** What the user interface keeps true *)

Module Invariant.

(** The ranges of the sliders, by name. *)
Definition ranges_of (sliders : Dict.t Slider.t) : Dict.t (Q * Q) :=
  map (fun item => (fst item, Slider.val_range (snd item))) sliders.

(** Every slider is on a track of positive width. *)
Definition tracks_ok (sliders : Dict.t Slider.t) : Prop :=
  Forall (fun item => (0 < Pygame.width (Slider.rect (snd item)))%Z) sliders.

(** Every parameter that has a range is there, with a value in the range. *)
Definition params_within (ranges : Dict.t (Q * Q)) (params : Dict.t Q) : Prop :=
  Forall (fun r => exists v : Q,
                     Dict.get params (fst r) = Some v
                     /\ fst (snd r) <= v <= snd (snd r))
    ranges.

(** The ranges the visualizer gives its sliders. *)
Definition slider_ranges : Dict.t (Q * Q) :=
  match Visualizer.__init__ Visualizer.default_screen_size with
  | Returned visualizer => ranges_of (Visualizer.sliders visualizer)
  | Raised _ => []
  end.

Definition visualizer_ok (self : Visualizer.t) : Prop :=
  ranges_of (Visualizer.sliders self) = slider_ranges
  /\ tracks_ok (Visualizer.sliders self)
  /\ params_within slider_ranges (Visualizer.params self).

(** The generator and the store that [main] builds from the parameters. *)
Definition generator_ok (generator : VibrationGenerator.t) : Prop :=
  1 <= VibrationGenerator.piezo_const generator <= 30
  /\ 1 <= VibrationGenerator.resistance generator <= 50000
  /\ VibrationGenerator.max_voltage generator
     = VibrationGenerator.default_max_voltage
  /\ 0.01 <= VibrationGenerator.efficiency generator <= 1.

Definition store_ok (store : EnergyStorage.t) : Prop :=
  EnergyStorage.capacity store = EnergyStorage.default_capacity_joules
  /\ 0 <= EnergyStorage.discharge_rate store <= 0.07
  /\ EnergyStorage.in_range store.

Definition model_ok (model : PhysicsModel.t) : Prop :=
  1 <= PhysicsModel.m model <= 50
  /\ 1 <= PhysicsModel.c1 model <= 50
  /\ 10000 <= PhysicsModel.k model <= 500000
  /\ 0.05 <= PhysicsModel.A model <= 1
  /\ 0.5 <= PhysicsModel.max_c_elec model <= 20
  /\ PhysicsModel.max_displacement model = 0.01.

(** The state of [main] between two frames. *)
Definition main_ok (st : Main.state) : Prop :=
  visualizer_ok (Main.visualizer st)
  /\ 0 <= Main.wind_speed st <= 30
  /\ (Visualizer.simulation_running (Main.visualizer st) = false ->
      Main.wind_speed st == 0)
  /\ (Visualizer.simulation_running (Main.visualizer st) = true ->
      exists model : PhysicsModel.t,
        Main.physics_model st = Some model /\ PhysicsModel.failed model = false)
  /\ (Main.physics_model st = None <-> Main.generator st = None)
  /\ (Main.physics_model st = None <-> Main.energy_storage st = None)
  /\ (forall model, Main.physics_model st = Some model -> model_ok model)
  /\ (forall generator, Main.generator st = Some generator ->
      generator_ok generator)
  /\ (forall store, Main.energy_storage st = Some store -> store_ok store).

End Invariant.

(** ** Objects to evaluate the main loop on *)

Module Sample.

(** The visualizer of [main], with its simulation running. *)
Definition running_visualizer : Visualizer.t :=
  match Visualizer.__init__ Visualizer.default_screen_size with
  | Returned visualizer => Visualizer.set_simulation_running visualizer true
  | Raised _ =>
      let button := Button.__init__ 0 0 0 0 "" [] in
      Visualizer.mk (0, 0)%Z true false [] [] button button 0 0 button button
        (Pygame.mkRect 0 0 0 0) 0 0 0
  end.

(** The three objects as the default parameters of the sliders give
    them. *)
Definition generator : VibrationGenerator.t :=
  VibrationGenerator.__init__ 25.0 10000.0
    VibrationGenerator.default_max_voltage 0.4.

Definition store : EnergyStorage.t :=
  EnergyStorage.__init__ EnergyStorage.default_capacity_joules 0.003.

Definition model {np : Np.Lib} : PhysicsModel.t :=
  PhysicsModel.__init__ 10.0 10.0 100000.0 0.5 5.0.

(** The state of [main] with these, at the given wind speed. *)
Definition state {np : Np.Lib} (wind_speed : Q) : Main.state :=
  Main.mk running_visualizer (Some model) (Some generator) (Some store)
    wind_speed 0.0 true.

End Sample.

(** * Properties *)

(** ** Facts on the Python builtins *)

Section PyFacts.

Lemma lt_true (x y : Q) : Py.lt x y = true <-> x < y.
Proof.
  unfold Py.lt. rewrite negb_true_iff, <- not_true_iff_false, Qle_bool_iff.
  split; [apply Qnot_le_lt | apply Qlt_not_le].
Qed.

Lemma lt_false (x y : Q) : Py.lt x y = false <-> y <= x.
Proof.
  unfold Py.lt. rewrite negb_false_iff. apply Qle_bool_iff.
Qed.

Lemma max_cases (a b : Q) :
  (a < b /\ Py.max a b = b) \/ (b <= a /\ Py.max a b = a).
Proof.
  unfold Py.max, Py.gt. destruct (Py.lt a b) eqn:E.
  - left. split; [now apply lt_true | reflexivity].
  - right. split; [now apply lt_false | reflexivity].
Qed.

Lemma min_cases (a b : Q) :
  (b < a /\ Py.min a b = b) \/ (a <= b /\ Py.min a b = a).
Proof.
  unfold Py.min. destruct (Py.lt b a) eqn:E.
  - left. split; [now apply lt_true | reflexivity].
  - right. split; [now apply lt_false | reflexivity].
Qed.

Lemma truediv_nonzero (a b : Q) :
  ~ b == 0 -> Py.truediv a b = Returned (a / b).
Proof.
  intros H. unfold Py.truediv. destruct (Qeq_bool b 0) eqn:E; [| reflexivity].
  apply Qeq_bool_iff in E. contradiction.
Qed.

Lemma truediv_zero (a b : Q) :
  b == 0 -> Py.truediv a b = Raised ZeroDivisionError.
Proof.
  intros H. unfold Py.truediv. apply Qeq_bool_iff in H. now rewrite H.
Qed.

End PyFacts.

(** Case analysis on every [max] and [min] of the goal; what is left is
    linear arithmetic. *)
Ltac py_minmax :=
  repeat match goal with
  | |- context [Py.max ?a ?b] =>
      let H := fresh "Hmax" in
      destruct (max_cases a b) as [[? H] | [? H]]; rewrite H in *; clear H
  | |- context [Py.min ?a ?b] =>
      let H := fresh "Hmin" in
      destruct (min_cases a b) as [[? H] | [? H]]; rewrite H in *; clear H
  end.

(** ** The energy store *)

Section EnergyStorageFacts.

Import EnergyStorage.

Lemma clamp_cases (x lo hi : Q) :
  (x < lo /\ clamp x lo hi = lo)
  \/ (lo <= x /\ hi < x /\ clamp x lo hi = hi)
  \/ (lo <= x <= hi /\ clamp x lo hi = x).
Proof.
  unfold clamp. destruct (Py.lt x lo) eqn:E1.
  - left. split; [now apply lt_true | reflexivity].
  - apply lt_false in E1. destruct (Py.lt hi x) eqn:E2.
    + right; left. apply lt_true in E2. auto.
    + right; right. apply lt_false in E2. auto.
Qed.

(** [update_state_of_charge] touches neither the stored energy nor the
    configuration, whether it raises or not. *)
Lemma update_state_of_charge_frame (self : t) :
  let after := fst (update_state_of_charge self) in
  stored_energy after = stored_energy self
  /\ capacity after = capacity self
  /\ discharge_rate after = discharge_rate self.
Proof.
  unfold update_state_of_charge.
  destruct (Py.truediv _ _); simpl; auto.
Qed.

Lemma update_stored_energy (self : t) (dt joules_to_add : Q) :
  stored_energy (fst (update self dt joules_to_add))
  = Py.min
      (Py.max 0 (stored_energy self - discharge_rate self * dt + joules_to_add))
      (capacity self).
Proof.
  unfold update.
  match goal with
  | |- context [update_state_of_charge ?s] =>
      destruct (update_state_of_charge_frame s) as [-> _]
  end.
  reflexivity.
Qed.

Lemma update_config (self : t) (dt joules_to_add : Q) :
  capacity (fst (update self dt joules_to_add)) = capacity self
  /\ discharge_rate (fst (update self dt joules_to_add)) = discharge_rate self.
Proof.
  unfold update.
  match goal with
  | |- context [update_state_of_charge ?s] =>
      destruct (update_state_of_charge_frame s) as (_ & -> & ->)
  end.
  split; reflexivity.
Qed.

(** With a capacity other than zero the call returns, and the percentage
    is the stored energy over the capacity. *)
Lemma update_returns (self : t) (dt joules_to_add : Q) :
  ~ capacity self == 0 ->
  snd (update self dt joules_to_add) = Returned tt
  /\ state_of_charge (fst (update self dt joules_to_add))
     = stored_energy (fst (update self dt joules_to_add)) / capacity self * 100.
Proof.
  intros Hcap. unfold update, update_state_of_charge. simpl.
  rewrite truediv_nonzero by exact Hcap. simpl. split; reflexivity.
Qed.

(** With a zero capacity the call raises once the stored energy is set. *)
Lemma update_raises (self : t) (dt joules_to_add : Q) :
  capacity self == 0 ->
  snd (update self dt joules_to_add) = Raised ZeroDivisionError.
Proof.
  intros Hcap. unfold update, update_state_of_charge. simpl.
  rewrite truediv_zero by exact Hcap. reflexivity.
Qed.

End EnergyStorageFacts.

Section EnergyStorageClaims.

Import EnergyStorage.

(** C2. With a capacity that is not negative, one [update(dt, joules_to_add)]
    leaves in [stored_energy] the clamp to [0, capacity] of
    [stored_energy - discharge_rate * dt + joules_to_add]: floor and ceiling
    come after both the subtraction and the addition.  So a sum that ends
    within the range is stored as it is, however negative the value was
    between the discharge and the charge. *)
Theorem update_clamps_after_sum (self : t) (dt joules_to_add : Q) :
  0 <= capacity self ->
  let total := stored_energy self - discharge_rate self * dt + joules_to_add in
  let after := fst (update self dt joules_to_add) in
  stored_energy after == clamp total 0 (capacity self)
  /\ (0 <= total <= capacity self -> stored_energy after == total).
Proof.
  intros Hcap total after. subst after. rewrite update_stored_energy.
  fold total. split.
  - destruct (clamp_cases total 0 (capacity self))
      as [[? ->] | [(? & ? & ->) | [[? ?] ->]]];
      py_minmax; lra.
  - intros [? ?]. py_minmax; lra.
Qed.

Lemma update_clamps_after_sum_witness :
  let self := mk 50000 0 0 5 in
  stored_energy (fst (update self 1 10)) == clamp (0 - 5 * 1 + 10) 0 50000
  /\ (0 <= 0 - 5 * 1 + 10 <= 50000 ->
      stored_energy (fst (update self 1 10)) == 0 - 5 * 1 + 10).
Proof.
  intros self.
  apply (update_clamps_after_sum self 1 10). simpl. lra.
Defined.

(** The scenario of the specification: an empty store of capacity 50000
    discharging 5 W stays empty over one second without charge. *)
Example update_empty_store_scenario :
  let after :=
    fst (update (__init__ default_capacity_joules default_discharge_rate_watts)
           1.0 0) in
  stored_energy after = 0 /\ state_of_charge after == 0.
Proof.
  split; reflexivity.
Qed.

(** The floor comes after the charge: an empty store that discharges 5 J and
    is charged 10 J in the same step holds 5 J, not the 10 J a floor between
    the two would leave. *)
Example update_floor_after_charge :
  let after := fst (update (mk 50000 0 0 5) 1 10) in
  stored_energy after == 5 /\ ~ stored_energy after == 10.
Proof.
  split; [reflexivity | discriminate].
Qed.

(** One step keeps the range, and returns, whatever the arguments are. *)
Lemma update_in_range (self : t) (dt joules_to_add : Q) :
  0 < capacity self ->
  snd (update self dt joules_to_add) = Returned tt
  /\ in_range (fst (update self dt joules_to_add)).
Proof.
  intros Hcap.
  assert (Hnz : ~ capacity self == 0) by lra.
  destruct (update_returns self dt joules_to_add Hnz) as [Hret Hsoc].
  destruct (update_config self dt joules_to_add) as [Hc _].
  split; [exact Hret |].
  unfold in_range. rewrite Hsoc, Hc.
  set (e := stored_energy (fst (update self dt joules_to_add))).
  assert (He : 0 <= e <= capacity self).
  { subst e. rewrite update_stored_energy. py_minmax; lra. }
  split; [exact He |].
  destruct He as [He0 He1]. split.
  - apply Qmult_le_0_compat; [| lra].
    apply Qle_shift_div_l; [exact Hcap | lra].
  - assert (e / capacity self <= 1)
      by (apply Qle_shift_div_r; [exact Hcap | lra]).
    lra.
Qed.

Lemma updates_in_range (calls : list (Q * Q)) :
  forall self : t,
    0 < capacity self -> in_range self ->
    snd (updates self calls) = Returned tt
    /\ in_range (fst (updates self calls))
    /\ capacity (fst (updates self calls)) = capacity self.
Proof.
  induction calls as [| [dt joules_to_add] rest IH]; intros self Hcap Hin.
  - simpl. auto.
  - simpl.
    destruct (update_in_range self dt joules_to_add Hcap) as [Hret Hin'].
    destruct (update_config self dt joules_to_add) as [Hc _].
    destruct (update self dt joules_to_add) as [self' o]. simpl in *.
    subst o. rewrite <- Hc in Hcap.
    destruct (IH self' Hcap Hin') as (Hret' & Hin'' & Hc').
    rewrite Hc' in *. auto.
Qed.

(** C6. A store built with a positive capacity and a discharge rate that
    is not negative is, after any finite run of [update] calls whose [dt]
    and [joules_to_add] are not negative, within its ranges: the stored
    energy in [0, capacity], the state of charge in [0, 100].  None of the
    calls raises. *)
Theorem store_stays_in_range
  (capacity_joules discharge_rate_watts : Q) (calls : list (Q * Q)) :
  0 < capacity_joules ->
  0 <= discharge_rate_watts ->
  Forall (fun c => 0 <= fst c /\ 0 <= snd c) calls ->
  let after := updates (__init__ capacity_joules discharge_rate_watts) calls in
  snd after = Returned tt
  /\ 0 <= stored_energy (fst after) <= capacity_joules
  /\ 0 <= state_of_charge (fst after) <= 100.
Proof.
  intros Hcap _ _ after. subst after.
  set (self := __init__ capacity_joules discharge_rate_watts).
  assert (Hin : in_range self) by (unfold in_range; simpl; lra).
  destruct (updates_in_range calls self Hcap Hin) as (Hret & [Hs Hp] & Hc).
  simpl in Hc. rewrite Hc in Hs. auto.
Qed.

Lemma store_stays_in_range_witness :
  let after := updates (__init__ 50000 5) [(1, 0); (1, 20); (0.5, 100000)] in
  snd after = Returned tt
  /\ 0 <= stored_energy (fst after) <= 50000
  /\ 0 <= state_of_charge (fst after) <= 100.
Proof.
  apply (store_stays_in_range 50000 5 [(1, 0); (1, 20); (0.5, 100000)]).
  - reflexivity.
  - discriminate.
  - repeat constructor; simpl; discriminate.
Defined.

End EnergyStorageClaims.

(** ** The generator *)

Section VibrationGeneratorFacts.

Import VibrationGenerator.

Lemma py_min_Qmin (a b : Q) : Py.min a b == Qmin a b.
Proof.
  destruct (min_cases a b) as [[H ->] | [H ->]].
  - symmetry. apply Q.min_r. lra.
  - symmetry. apply Q.min_l. exact H.
Qed.

Lemma py_min_le_mono (a a' b : Q) : a <= a' -> Py.min a b <= Py.min a' b.
Proof.
  intros H. py_minmax; lra.
Qed.

(** The square of the limited voltage grows with the speed, whatever the
    signs of the constant and of the ceiling are. *)
Lemma voltage_sq_mono (c ceiling a b : Q) :
  0 <= a -> a <= b ->
  Py.min (c * a) ceiling ^ 2 <= Py.min (c * b) ceiling ^ 2.
Proof.
  intros Ha Hab. change (?x ^ 2) with (x * x).
  destruct (Qlt_le_dec c 0) as [Hc | Hc].
  - assert (Hx : c * a <= 0) by nra.
    assert (Hxy : c * b <= c * a) by nra.
    generalize dependent (c * a). generalize dependent (c * b).
    intros y x Hx Hxy. py_minmax; nra.
  - assert (Hx : 0 <= c * a) by nra.
    assert (Hxy : c * a <= c * b) by nra.
    generalize dependent (c * a). generalize dependent (c * b).
    intros y x Hx Hxy. py_minmax; nra.
Qed.

(** With a resistance other than zero the call returns the stored power. *)
Lemma calculate_power_returns (self : t) (displacement velocity : Q) :
  ~ resistance self == 0 ->
  let voltage := Py.min (piezo_const self * Qabs velocity) (max_voltage self) in
  let power := Py.min (voltage ^ 2 / resistance self) 10 * efficiency self in
  calculate_power self displacement velocity
  = (set_power_output self power, Returned power).
Proof.
  intros Hr. unfold calculate_power.
  rewrite truediv_nonzero by exact Hr. reflexivity.
Qed.

(** With a zero resistance it raises and leaves the object as it was. *)
Lemma calculate_power_raises (self : t) (displacement velocity : Q) :
  resistance self == 0 ->
  calculate_power self displacement velocity = (self, Raised ZeroDivisionError).
Proof.
  intros Hr. unfold calculate_power.
  rewrite truediv_zero by exact Hr. reflexivity.
Qed.

End VibrationGeneratorFacts.

Section VibrationGeneratorClaims.

Import VibrationGenerator.

(** C3, as amended.  For a generator whose resistance is not zero,
    [calculate_power] returns, and stores in [power_output],
    [min(min(piezo_const * |velocity|, max_voltage)^2 / resistance, 10)
     * efficiency];
    the displacement has no part in it.  When moreover the resistance is
    positive and the efficiency is not negative, the power lies between 0
    and [10 * efficiency] and does not decrease when [|velocity|] grows.
    With [piezo_const = 25], [resistance = 10000], [efficiency = 0.4] and
    [velocity = 2] it is 0.1 W. *)
Theorem calculate_power_formula :
  (forall (self : t) (displacement velocity : Q),
      ~ resistance self == 0 ->
      let power :=
        power_output (fst (calculate_power self displacement velocity)) in
      snd (calculate_power self displacement velocity) = Returned power
      /\ power == power_formula self velocity
      /\ (forall displacement' : Q,
             calculate_power self displacement' velocity
             = calculate_power self displacement velocity)
      /\ (0 < resistance self -> 0 <= efficiency self ->
          0 <= power <= 10 * efficiency self
          /\ forall velocity' : Q,
              Qabs velocity <= Qabs velocity' ->
              power
              <= power_output (fst (calculate_power self displacement velocity'))))
  /\ (let self := __init__ 25 10000 default_max_voltage 0.4 in
      snd (calculate_power self 0 2)
      = Returned (power_output (fst (calculate_power self 0 2)))
      /\ power_output (fst (calculate_power self 0 2)) == 0.1).
Proof.
  split.
  - intros self displacement velocity Hr power. subst power.
    rewrite (calculate_power_returns self displacement velocity Hr).
    cbn [fst snd set_power_output power_output].
    split; [reflexivity |]. split.
    { unfold power_formula. now rewrite !py_min_Qmin. }
    split.
    { intros displacement'.
      now rewrite (calculate_power_returns self displacement' velocity Hr). }
    intros Hpos Heff.
    set (voltage := Py.min (piezo_const self * Qabs velocity) (max_voltage self)).
    assert (Hinv : 0 < / resistance self) by now apply Qinv_lt_0_compat.
    assert (Hsq : 0 <= voltage ^ 2)
      by (change (voltage ^ 2) with (voltage * voltage); nra).
    assert (Hunl : 0 <= voltage ^ 2 / resistance self)
      by (unfold Qdiv; apply Qmult_le_0_compat; lra).
    split.
    + generalize dependent (voltage ^ 2 / resistance self).
      intros unlimited Hunl. py_minmax; nra.
    + intros velocity' Habs.
      rewrite (calculate_power_returns self displacement velocity' Hr).
      cbn [fst power_output set_power_output].
      apply Qmult_le_compat_r; [| exact Heff].
      apply py_min_le_mono. unfold Qdiv.
      apply Qmult_le_compat_r; [| lra].
      apply voltage_sq_mono; [apply Qabs_nonneg | exact Habs].
  - split; reflexivity.
Qed.

Lemma calculate_power_formula_witness :
  let self := __init__ 25 10000 100 0.4 in
  let power := power_output (fst (calculate_power self 0 2)) in
  0 <= power <= 10 * efficiency self
  /\ power <= power_output (fst (calculate_power self 0 (-3))).
Proof.
  intros self power.
  assert (Hr : ~ resistance self == 0) by (simpl; lra).
  destruct (proj1 calculate_power_formula self 0 2 Hr) as (_ & _ & _ & H).
  destruct H as [Hb Hm]; [reflexivity | discriminate |].
  split; [exact Hb |]. apply Hm. discriminate.
Defined.

(** C3 as it is stated fails: a resistance that is only other than zero
    may be negative, and the power is then negative. *)
Lemma calculate_power_negative_resistance :
  let self := __init__ 1 (-1) 100 1 in
  ~ resistance self == 0
  /\ snd (calculate_power self 0 1) = Returned (-1)
  /\ power_output (fst (calculate_power self 0 1)) < 0.
Proof.
  split; [discriminate | split; reflexivity].
Qed.

(** C9. [calculate_energy_this_cycle(dt)] returns [power_output * dt]: it
    returns for every [dt], and leaves the generator as it is.  The
    [power_output] it multiplies is the one the latest [calculate_power]
    stored; after a [calculate_power] that raised it is the one of before,
    and on a new generator the result is 0. *)
Theorem calculate_energy_this_cycle_uses_stored_power :
  (forall (self : t) (dt : Q),
      calculate_energy_this_cycle self dt
      = (self, Returned (power_output self * dt)))
  /\ (forall (self : t) (displacement velocity dt power : Q),
         snd (calculate_power self displacement velocity) = Returned power ->
         snd (calculate_energy_this_cycle
                (fst (calculate_power self displacement velocity)) dt)
         = Returned (power * dt))
  /\ (forall (self : t) (displacement velocity dt : Q) (e : exn),
         snd (calculate_power self displacement velocity) = Raised e ->
         snd (calculate_energy_this_cycle
                (fst (calculate_power self displacement velocity)) dt)
         = Returned (power_output self * dt))
  /\ (forall piezo_const resistance max_voltage efficiency dt : Q,
         exists energy : Q,
           calculate_energy_this_cycle
             (__init__ piezo_const resistance max_voltage efficiency) dt
           = (__init__ piezo_const resistance max_voltage efficiency,
              Returned energy)
           /\ energy == 0).
Proof.
  split; [reflexivity |]. split; [| split].
  - intros self displacement velocity dt power.
    unfold calculate_power.
    destruct (Py.truediv _ _); simpl; intros H; [| discriminate].
    injection H as <-. reflexivity.
  - intros self displacement velocity dt e.
    unfold calculate_power.
    destruct (Py.truediv _ _); simpl; intros H; [discriminate | reflexivity].
  - intros piezo_const resistance max_voltage efficiency dt.
    exists (0.0 * dt). split; [reflexivity |].
    unfold Qeq. simpl. ring.
Qed.

Lemma calculate_energy_this_cycle_uses_stored_power_witness :
  let self := __init__ 25 10000 100 0.4 in
  snd (calculate_energy_this_cycle (fst (calculate_power self 0 2)) 0.5)
  = Returned (power_output (fst (calculate_power self 0 2)) * 0.5).
Proof.
  intros self.
  apply (proj1 (proj2 calculate_energy_this_cycle_uses_stored_power)
           self 0 2 0.5).
  reflexivity.
Defined.

End VibrationGeneratorClaims.

(** ** The mechanical model *)

(** Opens one [update]: the failed branch, then the branch on the wind with
    the end state of the integrator, then the failure check. *)
Ltac open_update :=
  unfold PhysicsModel.update;
  match goal with
  | |- context [if PhysicsModel.failed ?s then _ else _] =>
      destruct (PhysicsModel.failed s) eqn:?
  end;
  [ | cbn [PhysicsModel.wind_speed PhysicsModel.set_wind_speed];
      match goal with
      | |- context [if Py.gt ?w 0 then _ else _] => destruct (Py.gt w 0) eqn:?
      end;
      [ match goal with
        | |- context [Np.odeint_last ?f ?y ?s ?g] =>
            destruct (Np.odeint_last f y s g) as [[? ?] ?]
        end | ];
      cbn -[Qabs Qplus Qmult Qminus Qdiv];
      match goal with
      | |- context [if Py.gt ?a ?b then _ else _] => destruct (Py.gt a b) eqn:?
      end ].

Section PhysicsModelFacts.

Import PhysicsModel.

Context {np : Np.Lib}.

Lemma update_when_failed (self : t) (wind dt : Q)
  (es : option EnergyStorage.t) (g : Np.rng) :
  failed self = true ->
  update self wind dt es g
  = (set_velocity (set_displacement (set_wind_speed self 0.0) 0.0) 0.0, g).
Proof.
  intros H. unfold update. rewrite H. reflexivity.
Qed.

(** [update] assigns none of the parameters, nor the two buffers and their
    average. *)
Lemma update_frame (self : t) (wind dt : Q)
  (es : option EnergyStorage.t) (g : Np.rng) :
  let after := fst (update self wind dt es g) in
  m after = m self /\ c1 after = c1 self /\ c2 after = c2 self
  /\ max_c_elec after = max_c_elec self
  /\ k after = k self /\ A after = A self
  /\ max_displacement after = max_displacement self
  /\ power_history after = power_history self
  /\ avg_power_window after = avg_power_window self
  /\ average_power after = average_power self.
Proof.
  open_update; destruct es; cbn; repeat split; reflexivity.
Qed.

(** [update] never clears the flag. *)
Lemma update_failed_mono (self : t) (wind dt : Q)
  (es : option EnergyStorage.t) (g : Np.rng) :
  failed self = true -> failed (fst (update self wind dt es g)) = true.
Proof.
  intros H. rewrite update_when_failed by exact H. exact H.
Qed.

(** [update_power_metrics] assigns the two buffers and their average, and
    nothing else. *)
Lemma update_power_metrics_frame (self : t) (p : Q) :
  let after := update_power_metrics self p in
  failed after = failed self
  /\ displacement after = displacement self
  /\ velocity after = velocity self
  /\ time after = time self
  /\ max_displacement after = max_displacement self
  /\ max_c_elec after = max_c_elec self.
Proof.
  cbn. repeat split; reflexivity.
Qed.

Lemma step_failed_mono (self : t) (c : call) (g : Np.rng) :
  failed self = true -> failed (fst (step self c g)) = true.
Proof.
  intros H. destruct c as [wind dt es | p]; cbn [step].
  - now apply update_failed_mono.
  - exact H.
Qed.

Lemma run_failed_mono (calls : list call) :
  forall (self : t) (g : Np.rng),
    failed self = true -> failed (fst (run self calls g)) = true.
Proof.
  induction calls as [| c rest IH]; intros self g H; cbn [run].
  - exact H.
  - pose proof (step_failed_mono self c g H) as Hs.
    destruct (step self c g) as [self' g']. now apply IH.
Qed.

Lemma step_max_displacement (self : t) (c : call) (g : Np.rng) :
  max_displacement (fst (step self c g)) = max_displacement self.
Proof.
  destruct c as [wind dt es | p]; cbn [step].
  - apply (update_frame self wind dt es g).
  - reflexivity.
Qed.

Lemma run_max_displacement (calls : list call) :
  forall (self : t) (g : Np.rng),
    max_displacement (fst (run self calls g)) = max_displacement self.
Proof.
  induction calls as [| c rest IH]; intros self g; cbn [run].
  - reflexivity.
  - pose proof (step_max_displacement self c g) as Hs.
    destruct (step self c g) as [self' g']. rewrite IH. exact Hs.
Qed.

(** The fail-safe limit of an object is the 10 mm of the constructor. *)
Lemma reachable_max_displacement (self : t) :
  reachable self -> max_displacement self = 0.01.
Proof.
  intros (mass & damping & stiffness & area & med & calls & g & <-).
  rewrite run_max_displacement. reflexivity.
Qed.

End PhysicsModelFacts.

Section PhysicsModelClaims.

Import PhysicsModel.

Context {np : Np.Lib}.

(** C1. Once [failed] is true it stays true: after any further calls of the
    two methods the flag is still set, and each [update] from then on,
    whatever its wind speed, time step and energy store are, leaves
    [failed] true and [displacement] and [velocity] at 0. *)
Theorem failed_is_terminal
  (self : t) (calls : list call) (wind dt : Q)
  (es : option EnergyStorage.t) (g g' : Np.rng) :
  failed self = true ->
  let before := fst (run self calls g) in
  let after := fst (update before wind dt es g') in
  failed before = true
  /\ failed after = true
  /\ displacement after == 0
  /\ velocity after == 0.
Proof.
  intros H before after.
  assert (Hb : failed before = true) by now apply run_failed_mono.
  subst after. rewrite update_when_failed by exact Hb.
  cbn. repeat split; auto.
Qed.

(** C4. An [update] of a model that has not failed, whose maximum
    electrical damping is not negative as its configuration requires, given
    an energy store whose state of charge is [s], sets the electrical
    damping to [max_c_elec * (1 - s / 100) + 0.5]: that is
    [max_c_elec + 0.5] for an empty store and 0.5 for a full one, and a
    fuller store never gives more damping. *)
Theorem electrical_damping_from_charge
  (self : t) (wind dt : Q) (es : EnergyStorage.t) (g : Np.rng) :
  failed self = false ->
  0 <= max_c_elec self ->
  let s := EnergyStorage.state_of_charge es in
  let damping := c_elec (fst (update self wind dt (Some es) g)) in
  damping = max_c_elec self * (1 - s / 100.0) + 0.5
  /\ (s == 0 -> damping == max_c_elec self + 0.5)
  /\ (s == 100 -> damping == 0.5)
  /\ (forall (wind' dt' : Q) (es' : EnergyStorage.t) (g' : Np.rng),
        s <= EnergyStorage.state_of_charge es' ->
        c_elec (fst (update self wind' dt' (Some es') g')) <= damping).
Proof.
  intros H Hmax s damping.
  assert (Heq : forall w d e r,
             c_elec (fst (update self w d (Some e) r))
             = max_c_elec self * (1 - EnergyStorage.state_of_charge e / 100.0)
               + 0.5).
  { intros w d e r. open_update; [congruence | reflexivity ..]. }
  subst damping. rewrite Heq. fold s.
  split; [reflexivity |]. split; [| split].
  - intros ->. field.
  - intros ->. field.
  - intros wind' dt' es' g' Hs. rewrite Heq.
    set (s' := EnergyStorage.state_of_charge es') in *.
    assert (s / 100.0 <= s' / 100.0)
      by (unfold Qdiv; apply Qmult_le_compat_r; [exact Hs | discriminate]).
    nra.
Qed.

(** C5, as amended.  An [update] of a model that has not failed advances
    [time] by [dt]; an [update] of a failed model returns before the clock
    is touched, and [time] is what it was. *)
Theorem update_advances_time_unless_failed
  (self : t) (wind dt : Q) (es : option EnergyStorage.t) (g : Np.rng) :
  time (fst (update self wind dt es g))
  = if failed self then time self else time self + dt.
Proof.
  open_update; destruct es; reflexivity.
Qed.

(** C8. An [update] without wind of a model that has not failed, whatever
    its displacement and velocity are, puts the state vector, and with it
    [displacement] and [velocity], at 0 without integrating, advances [time]
    by [dt] and leaves [failed] false.  The fail-safe limit is not negative
    (it is the 10 mm of the constructor). *)
Theorem update_without_wind
  (self : t) (wind dt : Q) (es : option EnergyStorage.t) (g : Np.rng) :
  failed self = false ->
  0 <= max_displacement self ->
  wind == 0 ->
  0 <= dt ->
  let after := fst (update self wind dt es g) in
  state after = (0.0, 0.0)
  /\ displacement after == 0
  /\ velocity after == 0
  /\ time after = time self + dt
  /\ failed after = false
  /\ snd (update self wind dt es g) = g.
Proof.
  intros Hactive Hmax Hwind _ after. subst after.
  assert (Hgt : Py.gt wind 0 = false) by (apply lt_false; lra).
  assert (Hcheck : Py.gt (Qabs 0.0) (max_displacement self) = false).
  { apply lt_false. change (Qabs 0.0) with 0.0. lra. }
  unfold update. rewrite Hactive.
  destruct es;
    cbn [wind_speed set_wind_speed set_c_elec set_damping_ratio
         set_resonant_frequency];
    rewrite Hgt;
    cbn [fst snd state set_state time set_time displacement set_displacement
         velocity set_velocity max_displacement failed set_failed
         set_c_elec set_wind_speed set_damping_ratio set_resonant_frequency];
    rewrite Hcheck; cbn; rewrite Hactive; repeat split; reflexivity.
Qed.

End PhysicsModelClaims.

(** ** The two bounded buffers *)

Section PowerMetricsFacts.

Import PhysicsModel.

Lemma last_n_length (n : nat) (xs : list Q) :
  length (last_n n xs) = Nat.min n (length xs).
Proof.
  unfold last_n. rewrite length_skipn. lia.
Qed.

(** Appending to a deque that holds the last [n] of [xs] gives the last
    [n] of [xs] with the new item. *)
Lemma append_last_n (n : nat) (xs : list Q) (x : Q) :
  Deque.append (Deque.mk (last_n n xs) n) x
  = Deque.mk (last_n n (xs ++ [x])) n.
Proof.
  unfold Deque.append. cbn [Deque.items Deque.maxlen]. f_equal.
  rewrite length_app, last_n_length. cbn [length].
  unfold last_n. rewrite length_app. cbn [length].
  destruct (Nat.ltb_spec n (Nat.min n (length xs) + 1)) as [Hlt | Hge].
  - (* the deque was full: its leftmost item goes *)
    assert (Hn : (n <= length xs)%nat) by lia.
    destruct (Nat.eq_dec n 0) as [-> | Hpos].
    + rewrite Nat.sub_0_r, skipn_all.
      rewrite skipn_all2 by (rewrite length_app; cbn [length]; lia).
      reflexivity.
    + replace (length xs + 1 - n)%nat with (S (length xs - n)) by lia.
      rewrite skipn_app.
      replace (S (length xs - n) - length xs)%nat with 0%nat by lia.
      change (skipn 0 [x]) with [x].
      change (S (length xs - n)) with (1 + (length xs - n))%nat.
      rewrite <- skipn_skipn.
      destruct (skipn (length xs - n) xs) as [| y ys] eqn:E.
      * apply (f_equal (@length Q)) in E. rewrite length_skipn in E.
        cbn [length] in E. lia.
      * reflexivity.
  - (* there was room *)
    assert (Hn : (length xs < n)%nat) by lia.
    replace (length xs - n)%nat with 0%nat by lia.
    replace (length xs + 1 - n)%nat with 0%nat by lia.
    reflexivity.
Qed.

Lemma fold_left_Qplus (xs : list Q) (a : Q) :
  fold_left Qplus xs a == a + fold_right Qplus 0 xs.
Proof.
  revert a. induction xs as [| x xs IH]; intros a; cbn [fold_left fold_right].
  - ring.
  - rewrite IH. ring.
Qed.

(** The average the method stores is the arithmetic mean of the window. *)
Lemma stored_average_is_mean (window : list Q) :
  (if Py.gt (Py.len window) 0 then Py.sum window / Py.len window else 0.0)
  == mean window.
Proof.
  destruct window as [| x xs].
  - reflexivity.
  - assert (Hlen : Py.gt (Py.len (x :: xs)) 0 = true).
    { apply lt_true. unfold Py.len.
      change 0 with (inject_Z 0). rewrite <- Zlt_Qlt. cbn [length]. lia. }
    rewrite Hlen. unfold mean, Py.sum, Py.len.
    rewrite fold_left_Qplus. 
    apply Qmult_comp; [ring | reflexivity].
Qed.

Lemma update_power_metrics_records (self : t) (ps : list Q) (p : Q) :
  records self ps -> records (update_power_metrics self p) (ps ++ [p]).
Proof.
  intros (Hh & Hw & _). unfold records, update_power_metrics, milliwatts.
  rewrite map_app. cbn [map].
  cbn [power_history avg_power_window average_power set_power_history
       set_avg_power_window set_average_power].
  rewrite Hh, Hw, !append_last_n.
  repeat split. cbn [Deque.items]. apply stored_average_is_mean.
Qed.

Section Run.

Context {np : Np.Lib}.

Lemma step_records (self : t) (c : call) (g : Np.rng) (ps : list Q) :
  records self ps -> records (fst (step self c g)) (ps ++ powers [c]).
Proof.
  intros H. destruct c as [wind dt es | p]; cbn [step powers].
  - rewrite app_nil_r.
    destruct (update_frame self wind dt es g)
      as (_ & _ & _ & _ & _ & _ & _ & Hh & Hw & Ha).
    unfold records. rewrite Hh, Hw, Ha. exact H.
  - now apply update_power_metrics_records.
Qed.

Lemma powers_cons (c : call) (rest : list call) :
  powers (c :: rest) = powers [c] ++ powers rest.
Proof.
  destruct c; reflexivity.
Qed.

Lemma run_records (calls : list call) :
  forall (self : t) (g : Np.rng) (ps : list Q),
    records self ps -> records (fst (run self calls g)) (ps ++ powers calls).
Proof.
  induction calls as [| c rest IH]; intros self g ps H.
  - cbn [run powers fst]. now rewrite app_nil_r.
  - cbn [run]. pose proof (step_records self c g ps H) as Hs.
    destruct (step self c g) as [self' g']. cbn [fst] in Hs.
    rewrite powers_cons, app_assoc. now apply IH.
Qed.

Lemma init_records (mass damping stiffness area max_elec_damping : Q) :
  records (__init__ mass damping stiffness area max_elec_damping) [].
Proof.
  unfold records. cbn. repeat split.
Qed.

(** C10. After a constructor call and any finite run of method calls, of
    which [update_power_metrics] got the powers [p_1 ... p_n] in this
    order, [power_history] holds the last [min(n, 200)] of the values
    [p_i * 1000] in call order, [avg_power_window] the last
    [min(n, 300)] of them, and [average_power] is the arithmetic mean of
    what [avg_power_window] holds, 0 when it holds nothing. *)
Theorem power_metrics_keep_latest
  (mass damping stiffness area max_elec_damping : Q)
  (calls : list call) (g : Np.rng) :
  let self :=
    fst (run (__init__ mass damping stiffness area max_elec_damping) calls g) in
  let samples := milliwatts (powers calls) in
  let n := length (powers calls) in
  Deque.items (power_history self) = last_n 200 samples
  /\ length (Deque.items (power_history self)) = Nat.min n 200
  /\ Deque.items (avg_power_window self) = last_n 300 samples
  /\ length (Deque.items (avg_power_window self)) = Nat.min n 300
  /\ average_power self == mean (Deque.items (avg_power_window self)).
Proof.
  intros self samples n.
  destruct (run_records calls _ g [] 
              (init_records mass damping stiffness area max_elec_damping))
    as (Hh & Hw & Ha).
  fold self in Hh, Hw, Ha. cbn [app] in Hh, Hw, Ha. fold samples in Hh, Hw, Ha.
  assert (Hn : length samples = n)
    by (unfold samples, milliwatts; apply length_map).
  rewrite Hh, Hw. cbn [Deque.items].
  rewrite !last_n_length, Hn.
  repeat split; try apply Nat.min_comm. exact Ha.
Qed.

End Run.

End PowerMetricsFacts.

(** ** Construction and the divisions *)

Section ConfigurationClaims.

Context {np : Np.Lib}.

Lemma derivative_nonfinite_iff (self : PhysicsModel.t) (state : Q * Q) (t : Q)
  (g : Np.rng) :
  PhysicsModel.failed self = false ->
  0 < PhysicsModel.wind_speed self ->
  snd (fst (PhysicsModel._vibration_equation self state t g)) = None
  <-> PhysicsModel.m self == 0.
Proof.
  intros Hactive Hwind. unfold PhysicsModel._vibration_equation.
  destruct state as [y v]. rewrite Hactive.
  assert (Hle : Qle_bool (PhysicsModel.wind_speed self) 0 = false).
  { apply not_true_iff_false. rewrite Qle_bool_iff. lra. }
  rewrite Hle. destruct (Np.random_rand g) as [r g'].
  cbn [fst snd]. unfold Np.divide.
  destruct (Qeq_bool (PhysicsModel.m self) 0) eqn:E.
  - apply Qeq_bool_iff in E. tauto.
  - split; [discriminate |]. intros Hm. apply Qeq_bool_iff in Hm. congruence.
Qed.

(** C7, as amended.  The three constructors store mass, stiffness, load
    resistance and capacity as they are given, zero and negative values
    included.  With a resistance other than zero [calculate_power] returns
    for every velocity; with a resistance of zero it raises on the division
    when it is given the displacement and velocity of a model that was
    updated without wind or after its failure (the floats 0.0 that
    [update] assigns).  [EnergyStorage.update] raises on the division of the
    state of charge exactly when the capacity is zero.  The derivative of
    the integration step, for a model that has not failed and with wind, is
    non-finite exactly when the mass is zero.  Only the damping ratio and the
    resonant frequency are guarded: they are 0 unless mass and stiffness are
    both positive. *)
Theorem constructors_store_arguments_as_given :
  (forall piezo_const resistance max_voltage efficiency : Q,
      VibrationGenerator.resistance
        (VibrationGenerator.__init__ piezo_const resistance max_voltage efficiency)
      = resistance)
  /\ (forall capacity_joules discharge_rate_watts : Q,
         EnergyStorage.capacity
           (EnergyStorage.__init__ capacity_joules discharge_rate_watts)
         = capacity_joules)
  /\ (forall mass damping stiffness area max_elec_damping : Q,
         let self :=
           PhysicsModel.__init__ mass damping stiffness area max_elec_damping in
         PhysicsModel.m self = mass /\ PhysicsModel.k self = stiffness)
  /\ (forall (self : VibrationGenerator.t) (displacement velocity : Q),
         ~ VibrationGenerator.resistance self == 0 ->
         snd (VibrationGenerator.calculate_power self displacement velocity)
         = Returned
             (VibrationGenerator.power_output
                (fst (VibrationGenerator.calculate_power self displacement
                        velocity))))
  /\ (forall (self : VibrationGenerator.t) (model : PhysicsModel.t)
            (wind dt : Q) (es : option EnergyStorage.t) (g : Np.rng),
         VibrationGenerator.resistance self == 0 ->
         PhysicsModel.failed model = true \/ wind <= 0 ->
         let after := fst (PhysicsModel.update model wind dt es g) in
         VibrationGenerator.calculate_power self
           (PhysicsModel.displacement after) (PhysicsModel.velocity after)
         = (self, Raised ZeroDivisionError))
  /\ (forall (self : EnergyStorage.t) (dt joules_to_add : Q),
         snd (EnergyStorage.update self dt joules_to_add)
         = Raised ZeroDivisionError
         <-> EnergyStorage.capacity self == 0)
  /\ (forall (self : PhysicsModel.t) (state : Q * Q) (t : Q) (g : Np.rng),
         PhysicsModel.failed self = false ->
         0 < PhysicsModel.wind_speed self ->
         snd (fst (PhysicsModel._vibration_equation self state t g)) = None
         <-> PhysicsModel.m self == 0)
  /\ (forall self : PhysicsModel.t,
         ~ (0 < PhysicsModel.k self /\ 0 < PhysicsModel.m self) ->
         PhysicsModel._calculate_damping_ratio self = 0.0
         /\ PhysicsModel._calculate_resonant_frequency self = 0.0).
Proof.
  split; [reflexivity |]. split; [reflexivity |].
  split; [intros; split; reflexivity |].
  split; [| split; [| split; [| split]]].
  - intros self displacement velocity Hnz.
    now rewrite (calculate_power_returns self displacement velocity Hnz).
  - intros self model wind dt es g Hz _ after.
    apply calculate_power_raises. exact Hz.
  - intros self dt joules_to_add. split.
    + intros H. destruct (Qeq_dec (EnergyStorage.capacity self) 0)
        as [Hz | Hnz]; [exact Hz |].
      destruct (update_returns self dt joules_to_add Hnz) as [Hret _].
      congruence.
    + apply update_raises.
  - apply derivative_nonfinite_iff.
  - intros self Hguard.
    assert (Hg : Py.gt (PhysicsModel.k self) 0 && Py.gt (PhysicsModel.m self) 0
                 = false).
    { apply not_true_iff_false. rewrite andb_true_iff. unfold Py.gt.
      rewrite !lt_true. exact Hguard. }
    assert (Hd : PhysicsModel._calculate_damping_ratio self = 0.0).
    { unfold PhysicsModel._calculate_damping_ratio. now rewrite Hg. }
    split; [exact Hd |].
    unfold PhysicsModel._calculate_resonant_frequency. rewrite Hd.
    rewrite andb_comm in Hg. rewrite Hg. reflexivity.
Qed.

End ConfigurationClaims.

(** ** The claims on concrete objects *)

Section ConcreteRuns.

Import PhysicsModel.

(** A model with the default parameters, run on the library whose
    integrator overshoots: the first [update] with wind fails it. *)
Lemma failed_is_terminal_witness :
  let self :=
    fst (update (np := Stub.overshoot)
           (__init__ (np := Stub.overshoot) 10 10 100000 0.5 5) 30 0.1 None tt) in
  let after :=
    fst (update (np := Stub.overshoot)
           (fst (run (np := Stub.overshoot) self
                   [Update 30 0.1 None; UpdatePowerMetrics 0] tt))
           30 0.1 None tt) in
  failed self = true
  /\ failed after = true /\ displacement after == 0 /\ velocity after == 0.
Proof.
  intros self after.
  assert (H : failed self = true) by (vm_compute; reflexivity).
  split; [exact H |].
  apply (failed_is_terminal (np := Stub.overshoot) self
           [Update 30 0.1 None; UpdatePowerMetrics 0] 30 0.1 None tt tt H).
Defined.

(** The scenario of the specification: the step that crosses the limit sets
    the flag, and a hundred steps at 30 m/s later it is still set. *)
Example failed_after_a_hundred_steps :
  let model := __init__ (np := Stub.overshoot) 10 10 100000 0.5 5 in
  let crossed := fst (update (np := Stub.overshoot) model 30 0.1 None tt) in
  failed model = false
  /\ failed crossed = true
  /\ failed
       (fst (run (np := Stub.overshoot) crossed
               (repeat (Update 30 0.1 None) 100) tt))
     = true.
Proof.
  intros model crossed.
  assert (H : failed crossed = true) by (vm_compute; reflexivity).
  split; [reflexivity |]. split; [exact H |].
  now apply run_failed_mono.
Qed.

Lemma electrical_damping_from_charge_witness :
  let self := __init__ (np := Stub.overshoot) 10 10 100000 0.5 5 in
  let empty := EnergyStorage.mk 50000 0 0 5 in
  let half := EnergyStorage.mk 50000 25000 50 5 in
  let full := EnergyStorage.mk 50000 50000 100 5 in
  c_elec (fst (update (np := Stub.overshoot) self 3 0.1 (Some empty) tt))
  == 5 + 0.5
  /\ c_elec (fst (update (np := Stub.overshoot) self 3 0.1 (Some full) tt))
     == 0.5
  /\ c_elec (fst (update (np := Stub.overshoot) self 3 0.1 (Some full) tt))
     <= c_elec (fst (update (np := Stub.overshoot) self 3 0.1 (Some half) tt)).
Proof.
  intros self empty half full.
  assert (H : failed self = false) by reflexivity.
  assert (Hmax : 0 <= max_c_elec self) by discriminate.
  split; [| split].
  - apply (electrical_damping_from_charge (np := Stub.overshoot)
             self 3 0.1 empty tt H Hmax). reflexivity.
  - apply (electrical_damping_from_charge (np := Stub.overshoot)
             self 3 0.1 full tt H Hmax). reflexivity.
  - apply (electrical_damping_from_charge (np := Stub.overshoot)
             self 3 0.1 half tt H Hmax). discriminate.
Defined.

(** C5 as it is stated fails: an [update] of a failed model leaves the
    clock where it was. *)
Lemma failed_update_keeps_time :
  let self :=
    fst (update (np := Stub.overshoot)
           (__init__ (np := Stub.overshoot) 10 10 100000 0.5 5) 30 0.5 None tt) in
  let after := fst (update (np := Stub.overshoot) self 30 0.5 None tt) in
  failed self = true
  /\ time after = time self
  /\ ~ time after == time self + 0.5.
Proof.
  split; [| split]; vm_compute; [reflexivity | reflexivity | discriminate].
Qed.

(** A model in motion: one [update] with wind on a library whose integrator
    comes back at 4 mm and 0.1 m/s; the [update] without wind that follows
    resets it. *)
Lemma update_without_wind_witness :
  let np := Stub.lib (0.004, 0.1) in
  let self :=
    fst (update (np := np) (__init__ (np := np) 10 10 100000 0.5 5)
           3 0.1 None tt) in
  let after := fst (update (np := np) self 0 0.1 None tt) in
  (state self = (0.004, 0.1) /\ displacement self = 0.004 /\ velocity self = 0.1)
  /\ state after = (0.0, 0.0)
  /\ displacement after == 0
  /\ velocity after == 0
  /\ time after = time self + 0.1
  /\ failed after = false
  /\ snd (update (np := np) self 0 0.1 None tt) = tt.
Proof.
  intros np self after. split; [repeat split |].
  apply (update_without_wind (np := np) self 0 0.1 None tt).
  - vm_compute. reflexivity.
  - discriminate.
  - reflexivity.
  - discriminate.
Defined.

(** C7 as it is stated fails: each constructor takes a zero, and the
    division by it is then reached. *)
Lemma zero_configuration_is_constructed :
  (let generator := VibrationGenerator.__init__ 15 0 100 0.4 in
   VibrationGenerator.resistance generator = 0
   /\ snd (VibrationGenerator.calculate_power generator 0 0)
      = Raised ZeroDivisionError)
  /\ (let store := EnergyStorage.__init__ 0 5 in
      EnergyStorage.capacity store = 0
      /\ snd (EnergyStorage.update store 1 0) = Raised ZeroDivisionError)
  /\ (let model :=
        set_wind_speed (__init__ (np := Stub.overshoot) 0 10 100000 0.5 5) 10 in
      m model = 0
      /\ snd (fst (_vibration_equation (np := Stub.overshoot) model (0, 0) 0 tt))
         = None).
Proof.
  repeat split.
Qed.

(** The zero configurations, and a valid one beside them: a generator of
    resistance zero on a model updated without wind, a store of capacity
    zero, a model of mass zero in the wind, and a generator of resistance
    10000. *)
Lemma constructors_store_arguments_as_given_witness :
  let np := Stub.lib (0.004, 0.1) in
  let shorted := VibrationGenerator.__init__ 15 0 100 0.4 in
  let still :=
    fst (update (np := np) (__init__ (np := np) 10 10 100000 0.5 5)
           0 0.1 None tt) in
  let massless := set_wind_speed (__init__ (np := np) 0 10 100000 0.5 5) 10 in
  let loaded := VibrationGenerator.__init__ 25 10000 100 0.4 in
  VibrationGenerator.calculate_power shorted (displacement still) (velocity still)
  = (shorted, Raised ZeroDivisionError)
  /\ snd (EnergyStorage.update (EnergyStorage.__init__ 0 5) 1 0)
     = Raised ZeroDivisionError
  /\ snd (fst (_vibration_equation (np := np) massless (0, 0) 0 tt)) = None
  /\ snd (VibrationGenerator.calculate_power loaded 0 2)
     = Returned
         (VibrationGenerator.power_output
            (fst (VibrationGenerator.calculate_power loaded 0 2))).
Proof.
  intros np shorted still massless loaded.
  destruct (constructors_store_arguments_as_given (np := np))
    as (_ & _ & _ & Hreturns & Hraises & Hstore & Hmass & _).
  split; [| split; [| split]].
  - apply (Hraises shorted (__init__ (np := np) 10 10 100000 0.5 5)
             0 0.1 None tt); [reflexivity | right; discriminate].
  - apply (Hstore (EnergyStorage.__init__ 0 5) 1 0). reflexivity.
  - apply (Hmass massless (0, 0) 0 tt); reflexivity.
  - apply (Hreturns loaded 0 2). discriminate.
Defined.

End ConcreteRuns.

(** * Further properties of the code *)

(** ** The energy store, step by step *)

Section EnergyStorageSteps.

Import EnergyStorage.

(** X1. A step that neither discharges nor charges leaves the stored energy
    of a store within its range as it is. *)
Theorem update_without_flow_keeps_energy (self : t) (dt joules_to_add : Q) :
  0 <= stored_energy self <= capacity self ->
  discharge_rate self * dt == 0 ->
  joules_to_add == 0 ->
  stored_energy (fst (update self dt joules_to_add)) == stored_energy self.
Proof.
  intros [Hlo Hhi] Hd Ha. rewrite update_stored_energy.
  py_minmax; lra.
Qed.

Lemma update_without_flow_keeps_energy_witness :
  stored_energy (fst (update (mk 50000 50000 100 5) 0 0)) == 50000.
Proof.
  apply (update_without_flow_keeps_energy (mk 50000 50000 100 5) 0 0);
    simpl; lra.
Defined.

(** X2. In one step the stored energy of a store within its range falls by
    no more than the discharge and rises by no more than the charge. *)
Theorem update_change_is_bounded (self : t) (dt joules_to_add : Q) :
  0 <= stored_energy self <= capacity self ->
  0 <= discharge_rate self * dt ->
  0 <= joules_to_add ->
  stored_energy self - discharge_rate self * dt
  <= stored_energy (fst (update self dt joules_to_add))
  <= stored_energy self + joules_to_add.
Proof.
  intros [Hlo Hhi] Hd Ha. rewrite update_stored_energy.
  py_minmax; lra.
Qed.

Lemma update_change_is_bounded_witness :
  let self := mk 50000 100 0.2 5 in
  100 - 5 * 2 <= stored_energy (fst (update self 2 30)) <= 100 + 30.
Proof.
  intros self.
  apply (update_change_is_bounded self 2 30); simpl; lra.
Defined.

(** X3. The stored energy after a step grows with the charge of the step
    and with the energy stored before it. *)
Theorem update_is_monotone (self self' : t) (dt joules_to_add joules_to_add' : Q) :
  capacity self == capacity self' ->
  discharge_rate self == discharge_rate self' ->
  stored_energy self <= stored_energy self' ->
  joules_to_add <= joules_to_add' ->
  stored_energy (fst (update self dt joules_to_add))
  <= stored_energy (fst (update self' dt joules_to_add')).
Proof.
  intros Hc Hr Hs Ha. rewrite !update_stored_energy.
  assert (Hd : discharge_rate self * dt == discharge_rate self' * dt)
    by now rewrite Hr.
  py_minmax; lra.
Qed.

Lemma update_is_monotone_witness :
  stored_energy (fst (update (mk 50000 10 0 5) 1 20))
  <= stored_energy (fst (update (mk 50000 40 0 5) 1 30)).
Proof.
  apply (update_is_monotone (mk 50000 10 0 5) (mk 50000 40 0 5) 1 20 30);
    simpl; lra.
Defined.

(** X4. A step whose sum of stored energy, discharge and charge reaches the
    capacity leaves the store full, its state of charge at 100; a step whose
    sum is zero or less leaves it empty, its state of charge at 0.  The
    capacity is positive. *)
Theorem update_fills_and_empties (self : t) (dt joules_to_add : Q) :
  0 < capacity self ->
  let total := stored_energy self - discharge_rate self * dt + joules_to_add in
  let after := fst (update self dt joules_to_add) in
  snd (update self dt joules_to_add) = Returned tt
  /\ (capacity self <= total ->
      stored_energy after == capacity self /\ state_of_charge after == 100)
  /\ (total <= 0 ->
      stored_energy after == 0 /\ state_of_charge after == 0).
Proof.
  intros Hcap total after. subst after.
  assert (Hnz : ~ capacity self == 0) by lra.
  destruct (update_returns self dt joules_to_add Hnz) as [Hret Hsoc].
  split; [exact Hret |].
  rewrite Hsoc, update_stored_energy. fold total.
  split; intros Htotal.
  - assert (He : Py.min (Py.max 0 total) (capacity self) == capacity self)
      by (py_minmax; lra).
    split; [exact He |]. rewrite He. field. exact Hnz.
  - assert (He : Py.min (Py.max 0 total) (capacity self) == 0)
      by (py_minmax; lra).
    split; [exact He |]. rewrite He. field. exact Hnz.
Qed.

Lemma update_fills_and_empties_witness :
  (let after := fst (update (mk 50000 0 0 5) 1 60000) in
   stored_energy after == 50000 /\ state_of_charge after == 100)
  /\ (let after := fst (update (mk 50000 3 0.006 5) 1 0) in
      stored_energy after == 0 /\ state_of_charge after == 0).
Proof.
  split.
  - apply (update_fills_and_empties (mk 50000 0 0 5) 1 60000);
      [reflexivity | discriminate].
  - apply (update_fills_and_empties (mk 50000 3 0.006 5) 1 0);
      [reflexivity | discriminate].
Defined.

End EnergyStorageSteps.

(** ** The generator, over the velocity *)

Section VibrationGeneratorShape.

Import VibrationGenerator.

Lemma py_min_proper (a a' b : Q) : a == a' -> Py.min a b == Py.min a' b.
Proof.
  intros H. py_minmax; lra.
Qed.

(** The power stored by a returning [calculate_power]. *)
Lemma calculate_power_output (self : t) (displacement velocity : Q) :
  ~ resistance self == 0 ->
  power_output (fst (calculate_power self displacement velocity))
  = Py.min
      (Py.min (piezo_const self * Qabs velocity) (max_voltage self) ^ 2
       / resistance self) 10
    * efficiency self.
Proof.
  intros Hr. now rewrite (calculate_power_returns self displacement velocity Hr).
Qed.

(** X5. The power does not see the direction of the motion: a velocity and
    its opposite give the same power. *)
Theorem calculate_power_is_even (self : t) (displacement velocity : Q) :
  ~ resistance self == 0 ->
  power_output (fst (calculate_power self displacement (- velocity)))
  == power_output (fst (calculate_power self displacement velocity)).
Proof.
  intros Hr. rewrite !calculate_power_output by exact Hr.
  apply Qmult_comp; [| reflexivity].
  apply py_min_proper. apply Qmult_comp; [| reflexivity].
  change (?a ^ 2) with (a * a).
  assert (H : Py.min (piezo_const self * Qabs (- velocity)) (max_voltage self)
              == Py.min (piezo_const self * Qabs velocity) (max_voltage self)).
  { apply py_min_proper. now rewrite Qabs_opp. }
  now rewrite H.
Qed.

Lemma calculate_power_is_even_witness :
  let self := __init__ 25 10000 100 0.4 in
  power_output (fst (calculate_power self 0 (- (3))))
  == power_output (fst (calculate_power self 0 3)).
Proof.
  intros self. apply (calculate_power_is_even self 0 3). discriminate.
Defined.

(** X6. Past the voltage ceiling the power is flat: two velocities that both
    drive the voltage to [max_voltage] or beyond give the same power. *)
Theorem calculate_power_saturates (self : t) (displacement velocity velocity' : Q) :
  ~ resistance self == 0 ->
  max_voltage self <= piezo_const self * Qabs velocity ->
  max_voltage self <= piezo_const self * Qabs velocity' ->
  power_output (fst (calculate_power self displacement velocity))
  == power_output (fst (calculate_power self displacement velocity'))
  /\ power_output (fst (calculate_power self displacement velocity))
     == Py.min (max_voltage self ^ 2 / resistance self) 10 * efficiency self.
Proof.
  intros Hr Hv Hv'. rewrite !calculate_power_output by exact Hr.
  assert (Hsat : forall v, max_voltage self <= piezo_const self * Qabs v ->
                   Py.min (piezo_const self * Qabs v) (max_voltage self)
                   == max_voltage self).
  { intros v H. py_minmax; lra. }
  assert (Hp : forall v, max_voltage self <= piezo_const self * Qabs v ->
                 Py.min
                   (Py.min (piezo_const self * Qabs v) (max_voltage self) ^ 2
                    / resistance self) 10 * efficiency self
                 == Py.min (max_voltage self ^ 2 / resistance self) 10
                    * efficiency self).
  { intros v H. apply Qmult_comp; [| reflexivity]. apply py_min_proper.
    apply Qmult_comp; [| reflexivity]. change (?a ^ 2) with (a * a).
    now rewrite (Hsat v H). }
  split; [rewrite (Hp velocity Hv), (Hp velocity' Hv'); reflexivity |].
  exact (Hp velocity Hv).
Qed.

Lemma calculate_power_saturates_witness :
  let self := __init__ 25 10000 100 0.4 in
  power_output (fst (calculate_power self 0 4))
  == power_output (fst (calculate_power self 0 (-9)))
  /\ power_output (fst (calculate_power self 0 4))
     == Py.min (max_voltage self ^ 2 / resistance self) 10 * efficiency self.
Proof.
  intros self.
  apply (calculate_power_saturates self 0 4 (-9)); simpl; discriminate.
Defined.

(** X7. A panel at rest generates nothing, provided the voltage ceiling is
    not negative. *)
Theorem calculate_power_at_rest (self : t) (displacement velocity : Q) :
  ~ resistance self == 0 ->
  0 <= max_voltage self ->
  velocity == 0 ->
  snd (calculate_power self displacement velocity)
  = Returned (power_output (fst (calculate_power self displacement velocity)))
  /\ power_output (fst (calculate_power self displacement velocity)) == 0.
Proof.
  intros Hr Hmax Hv.
  split; [now rewrite (calculate_power_returns self displacement velocity Hr) |].
  rewrite calculate_power_output by exact Hr.
  assert (Habs : Qabs velocity == 0) by (rewrite Hv; reflexivity).
  assert (Hvolt : Py.min (piezo_const self * Qabs velocity) (max_voltage self)
                  == 0).
  { assert (piezo_const self * Qabs velocity == 0) by (rewrite Habs; ring).
    py_minmax; lra. }
  assert (Hunl : Py.min (piezo_const self * Qabs velocity) (max_voltage self) ^ 2
                 / resistance self == 0).
  { change (?a ^ 2) with (a * a). rewrite Hvolt. field. exact Hr. }
  assert (Hmin : Py.min
                   (Py.min (piezo_const self * Qabs velocity) (max_voltage self) ^ 2
                    / resistance self) 10 == 0).
  { generalize dependent
      (Py.min (piezo_const self * Qabs velocity) (max_voltage self) ^ 2
       / resistance self).
    intros q Hq. py_minmax; lra. }
  rewrite Hmin. ring.
Qed.

Lemma calculate_power_at_rest_witness :
  let self := __init__ 25 10000 100 0.4 in
  snd (calculate_power self 0.002 0)
  = Returned (power_output (fst (calculate_power self 0.002 0)))
  /\ power_output (fst (calculate_power self 0.002 0)) == 0.
Proof.
  intros self.
  apply (calculate_power_at_rest self 0.002 0); simpl; [| | reflexivity];
    discriminate.
Defined.

End VibrationGeneratorShape.

(** ** The mechanical model over its lifetime *)

Section PhysicsModelLifetime.

Import PhysicsModel.

Context {np : Np.Lib}.

(** What an [update] of a model that has not failed leaves, in terms of the
    end state [last] it took. *)
Lemma update_active (self : t) (wind dt : Q) (es : option EnergyStorage.t)
  (g : Np.rng) :
  failed self = false ->
  exists last : Q * Q,
    let after := fst (update self wind dt es g) in
    state after = last
    /\ displacement after = fst last
    /\ velocity after = snd last
    /\ time after = time self + dt
    /\ failed after = Py.gt (Qabs (fst last)) (max_displacement self)
    /\ wind_speed after = wind
    /\ c_elec after
       = match es with
         | Some e =>
             max_c_elec self * (1 - EnergyStorage.state_of_charge e / 100.0) + 0.5
         | None => c_elec self
         end
    /\ damping_ratio after = _calculate_damping_ratio self
    /\ resonant_frequency after = _calculate_resonant_frequency self.
Proof.
  intros Hactive. open_update; [congruence | ..];
    eexists (_, _); destruct es; cbn -[Qabs Qplus Qmult Qminus Qdiv];
    repeat split;
    first [ reflexivity
          | cbn [max_displacement set_c_elec set_wind_speed] in *; congruence ].
Qed.

End PhysicsModelLifetime.

Section PhysicsModelInvariants.

Import PhysicsModel.

Context {np : Np.Lib}.

(** A property that the constructor establishes and every method call keeps
    holds of every object. *)
Lemma reachable_invariant (P : t -> Prop) :
  (forall mass damping stiffness area max_elec_damping : Q,
      P (__init__ mass damping stiffness area max_elec_damping)) ->
  (forall (self : t) (c : call) (g : Np.rng), P self -> P (fst (step self c g))) ->
  forall self : t, reachable self -> P self.
Proof.
  intros Hinit Hstep self
    (mass & damping & stiffness & area & med & calls & g & <-).
  generalize (Hinit mass damping stiffness area med).
  generalize (__init__ mass damping stiffness area med). revert g.
  induction calls as [| c rest IH]; intros g self H; cbn [run].
  - exact H.
  - pose proof (Hstep self c g H) as Hs.
    destruct (step self c g) as [self' g']. now apply IH.
Qed.

(** X8. The stored damping ratio and resonant frequency of an object are
    always the ones its current parameters give. *)
Theorem derived_quantities_are_current (self : t) :
  reachable self ->
  damping_ratio self = _calculate_damping_ratio self
  /\ resonant_frequency self = _calculate_resonant_frequency self.
Proof.
  revert self.
  apply (reachable_invariant
           (fun s => damping_ratio s = _calculate_damping_ratio s
                     /\ resonant_frequency s = _calculate_resonant_frequency s)).
  - intros. split; reflexivity.
  - intros s c g [Hd Hr]. destruct c as [wind dt es | p]; cbn [step].
    + destruct (failed s) eqn:Hf.
      * rewrite update_when_failed by exact Hf. cbn [fst]. split; assumption.
      * destruct (update_active s wind dt es g Hf)
          as (last & _ & _ & _ & _ & _ & _ & _ & Hd' & Hr').
        destruct (update_frame s wind dt es g)
          as (Hm & Hc1 & _ & _ & Hk & _).
        rewrite Hd', Hr'.
        unfold _calculate_resonant_frequency, _calculate_damping_ratio.
        rewrite Hm, Hc1, Hk. split; reflexivity.
    + split; assumption.
Qed.


(** X10. The state vector of a failed object still holds the displacement
    that crossed the limit: the early return of [update] zeroes
    [displacement] and [velocity] but not [state]. *)
Theorem failed_model_keeps_crossing_state (self : t) :
  reachable self ->
  failed self = true ->
  0.01 < Qabs (fst (state self)).
Proof.
  intros Hreach. rewrite <- (reachable_max_displacement self Hreach).
  revert self Hreach.
  apply (reachable_invariant
           (fun s => failed s = true ->
                     max_displacement s < Qabs (fst (state s)))).
  - intros. discriminate.
  - intros s c g IH Hfailed. destruct c as [wind dt es | p]; cbn [step] in *.
    + destruct (failed s) eqn:Hf.
      * rewrite update_when_failed by exact Hf. cbn. now apply IH.
      * destruct (update_active s wind dt es g Hf)
          as (last & Hs & _ & _ & _ & Hfail & _).
        destruct (update_frame s wind dt es g)
          as (_ & _ & _ & _ & _ & _ & Hmax & _).
        rewrite Hs, Hmax. rewrite Hfailed in Hfail. symmetry in Hfail.
        now apply lt_true in Hfail.
    + exact (IH Hfailed).
Qed.

End PhysicsModelInvariants.

Section PhysicsModelInvariantsRuns.

Import PhysicsModel.

Lemma derived_quantities_are_current_witness :
  let self :=
    fst (run (np := Stub.overshoot)
           (__init__ (np := Stub.overshoot) 10 10 100000 0.5 5)
           [Update 3 0.1 None; UpdatePowerMetrics 0.2] tt) in
  damping_ratio self = _calculate_damping_ratio (np := Stub.overshoot) self
  /\ resonant_frequency self
     = _calculate_resonant_frequency (np := Stub.overshoot) self.
Proof.
  intros self.
  apply (derived_quantities_are_current (np := Stub.overshoot) self).
  exists 10, 10, 100000, 0.5, 5, [Update 3 0.1 None; UpdatePowerMetrics 0.2], tt.
  reflexivity.
Defined.


Lemma failed_model_keeps_crossing_state_witness :
  let self :=
    fst (run (np := Stub.overshoot)
           (__init__ (np := Stub.overshoot) 10 10 100000 0.5 5)
           [Update 30 0.1 None; Update 30 0.1 None] tt) in
  0.01 < Qabs (fst (state self)).
Proof.
  intros self.
  apply (failed_model_keeps_crossing_state (np := Stub.overshoot) self).
  - exists 10, 10, 100000, 0.5, 5, [Update 30 0.1 None; Update 30 0.1 None], tt.
    reflexivity.
  - vm_compute. reflexivity.
Defined.

End PhysicsModelInvariantsRuns.

Section PhysicsModelClock.

Import PhysicsModel.

Context {np : Np.Lib}.

Lemma step_when_failed (self : t) (c : call) (g : Np.rng) :
  failed self = true ->
  let after := fst (step self c g) in
  snd (step self c g) = g
  /\ failed after = true
  /\ time after = time self
  /\ state after = state self
  /\ c_elec after = c_elec self
  /\ damping_ratio after = damping_ratio self
  /\ resonant_frequency after = resonant_frequency self.
Proof.
  intros H. destruct c as [wind dt es | p]; cbn [step].
  - rewrite update_when_failed by exact H. cbn. repeat split. exact H.
  - cbn. repeat split. exact H.
Qed.

(** X11. A failed object is frozen: any further run of method calls leaves
    its clock, its state vector, its electrical damping and its derived
    quantities as they were at the failure, and draws nothing from the
    random generator. *)
Theorem failed_model_is_frozen (self : t) (calls : list call) (g : Np.rng) :
  failed self = true ->
  let after := fst (run self calls g) in
  snd (run self calls g) = g
  /\ time after = time self
  /\ state after = state self
  /\ c_elec after = c_elec self
  /\ damping_ratio after = damping_ratio self
  /\ resonant_frequency after = resonant_frequency self.
Proof.
  revert self g. induction calls as [| c rest IH]; intros self g H; cbn [run].
  - cbn. repeat split.
  - destruct (step_when_failed self c g H)
      as (Hg & Hf & Ht & Hs & Hc & Hd & Hr).
    destruct (step self c g) as [self' g']. cbn [fst snd] in *. subst g'.
    destruct (IH self' g Hf) as (Hg' & Ht' & Hs' & Hc' & Hd' & Hr').
    repeat split; congruence.
Qed.

(** X12. The clock of an object that has not failed is the sum of the time
    steps of all the [update] calls it received. *)
Theorem active_clock_is_sum_of_steps (self : t) (calls : list call) (g : Np.rng) :
  failed (fst (run self calls g)) = false ->
  time (fst (run self calls g))
  = fold_left Qplus (Lifetime.time_steps calls) (time self).
Proof.
  revert self g. induction calls as [| c rest IH]; intros self g Hactive;
    cbn [run] in *.
  - reflexivity.
  - assert (Hs : failed (fst (step self c g)) = false).
    { destruct (failed (fst (step self c g))) eqn:E; [| reflexivity].
      pose proof (run_failed_mono rest (fst (step self c g))
                    (snd (step self c g)) E) as Hm.
      destruct (step self c g) as [self' g']. cbn [fst snd] in *. congruence. }
    assert (H0 : failed self = false).
    { destruct (failed self) eqn:E; [| reflexivity].
      rewrite (step_failed_mono self c g E) in Hs. discriminate. }
    destruct c as [wind dt es | p]; cbn [step Lifetime.time_steps fold_left] in *.
    + destruct (update_active self wind dt es g H0)
        as (last & _ & _ & _ & Ht & _).
      destruct (update self wind dt es g) as [self' g']. cbn [fst] in *.
      rewrite (IH self' g' Hactive), Ht. reflexivity.
    + rewrite (IH _ g Hactive). reflexivity.
Qed.

(** X13. With a maximum that is not negative, and stores whose state of
    charge is a percentage, the electrical damping of an object stays between
    0 and [max_elec_damping + 0.5]: it is the 0 of the constructor until the
    first [update] with a store, and at least 0.5 from then on. *)
Theorem electrical_damping_stays_in_range
  (mass damping stiffness area max_elec_damping : Q)
  (calls : list call) (g : Np.rng) :
  0 <= max_elec_damping ->
  Forall Lifetime.charge_is_percentage calls ->
  let self :=
    fst (run (__init__ mass damping stiffness area max_elec_damping) calls g) in
  c_elec self = 0.0 \/ 0.5 <= c_elec self <= max_elec_damping + 0.5.
Proof.
  intros Hmax Hcalls.
  set (P := fun s : t =>
              max_c_elec s = max_elec_damping
              /\ (c_elec s = 0.0 \/ 0.5 <= c_elec s <= max_elec_damping + 0.5)).
  assert (Hrun : forall calls (s : t) (r : Np.rng),
             Forall Lifetime.charge_is_percentage calls ->
             P s -> P (fst (run s calls r))).
  { clear calls Hcalls g. induction calls as [| c rest IH]; intros s r Hall Hs;
      cbn [run].
    - exact Hs.
    - inversion Hall as [| c' rest' Hc Hrest]; subst.
      assert (Hstep : P (fst (step s c r))).
      { destruct Hs as [Hm Hce]. destruct c as [wind dt es | p]; cbn [step].
        - destruct (update_frame s wind dt es r) as (_ & _ & _ & Hm' & _).
          split; [congruence |].
          destruct (failed s) eqn:Hf.
          + rewrite update_when_failed by exact Hf. exact Hce.
          + destruct (update_active s wind dt es r Hf)
              as (last & _ & _ & _ & _ & _ & _ & Hc' & _).
            rewrite Hc'. destruct es as [e |]; [| exact Hce].
            right. cbn in Hc. rewrite Hm.
            destruct Hc as [Hlo Hhi].
            assert (0 <= EnergyStorage.state_of_charge e / 100.0 <= 1).
            { split.
              - apply Qle_shift_div_l; [reflexivity | lra].
              - apply Qle_shift_div_r; [reflexivity | lra]. }
            nra.
        - split; [exact Hm | exact Hce]. }
      destruct (step s c r) as [s' r']. now apply IH. }
  apply (Hrun calls _ g Hcalls). split; [reflexivity | left; reflexivity].
Qed.

End PhysicsModelClock.

Section PhysicsModelClockRuns.

Import PhysicsModel.

Lemma failed_model_is_frozen_witness :
  let self :=
    fst (update (np := Stub.overshoot)
           (__init__ (np := Stub.overshoot) 10 10 100000 0.5 5) 30 0.1 None tt) in
  let calls := [Update 30 0.1 None; UpdatePowerMetrics 0; Update 0 0.2 None] in
  let after := fst (run (np := Stub.overshoot) self calls tt) in
  time after = time self /\ state after = state self.
Proof.
  intros self calls after.
  assert (H : failed self = true) by (vm_compute; reflexivity).
  destruct (failed_model_is_frozen (np := Stub.overshoot) self calls tt H)
    as (_ & Ht & Hs & _).
  split; assumption.
Defined.

Lemma active_clock_is_sum_of_steps_witness :
  let np := Stub.lib (0.004, 0.1) in
  let self := __init__ (np := np) 10 10 100000 0.5 5 in
  let calls := [Update 3 0.1 None; UpdatePowerMetrics 0.2; Update 4 0.25 None] in
  time (fst (run (np := np) self calls tt))
  = fold_left Qplus (Lifetime.time_steps calls) (time self).
Proof.
  intros np self calls.
  apply (active_clock_is_sum_of_steps (np := np) self calls tt).
  vm_compute. reflexivity.
Defined.

Lemma electrical_damping_stays_in_range_witness :
  let np := Stub.lib (0.004, 0.1) in
  let calls :=
    [Update 3 0.1 (Some (EnergyStorage.mk 50000 25000 50 5));
     Update 3 0.1 None] in
  let self := fst (run (np := np) (__init__ (np := np) 10 10 100000 0.5 5) calls tt) in
  c_elec self = 0.0 \/ 0.5 <= c_elec self <= 5 + 0.5.
Proof.
  intros np calls.
  apply (electrical_damping_stays_in_range (np := np) 10 10 100000 0.5 5 calls tt).
  - discriminate.
  - repeat constructor; cbn; discriminate.
Defined.

End PhysicsModelClockRuns.

(** ** The bounded deque *)

Section DequeFacts.

(** X14. Appending to a deque that is within its bound keeps the bound and
    the order: the deque then holds the last [maxlen] items of the old items
    followed by the new one, which is therefore the rightmost whenever
    [maxlen] is positive. *)
Theorem deque_append_keeps_latest (d : Deque.t) (x : Q) :
  (length (Deque.items d) <= Deque.maxlen d)%nat ->
  let after := Deque.append d x in
  Deque.maxlen after = Deque.maxlen d
  /\ Deque.items after
     = PhysicsModel.last_n (Deque.maxlen d) (Deque.items d ++ [x])
  /\ (length (Deque.items after) <= Deque.maxlen d)%nat
  /\ ((0 < Deque.maxlen d)%nat ->
      exists front : list Q, Deque.items after = front ++ [x]).
Proof.
  intros Hlen after. subst after. destruct d as [xs n]. cbn [Deque.items Deque.maxlen] in *.
  assert (Hxs : xs = PhysicsModel.last_n n xs).
  { unfold PhysicsModel.last_n. now replace (length xs - n)%nat with 0%nat by lia. }
  pose proof (append_last_n n xs x) as Happ. rewrite <- Hxs in Happ.
  rewrite Happ. cbn [Deque.items Deque.maxlen].
  split; [reflexivity |]. split; [reflexivity |]. split.
  - rewrite last_n_length. lia.
  - intros Hpos. unfold PhysicsModel.last_n. rewrite length_app. cbn [length].
    rewrite skipn_app.
    replace (length xs + 1 - n - length xs)%nat with 0%nat by lia.
    cbn [skipn]. eexists. reflexivity.
Qed.

Lemma deque_append_keeps_latest_witness :
  let after := Deque.append (Deque.mk [1; 2; 3] 3) 4 in
  Deque.maxlen after = 3%nat
  /\ Deque.items after = PhysicsModel.last_n 3 ([1; 2; 3] ++ [4])
  /\ (length (Deque.items after) <= 3)%nat
  /\ ((0 < 3)%nat -> exists front : list Q, Deque.items after = front ++ [4]).
Proof.
  apply (deque_append_keeps_latest (Deque.mk [1; 2; 3] 3) 4). cbn. lia.
Defined.

End DequeFacts.

(** ** Sliders *)

Section IntFacts.

Lemma py_int_max_cases (a b : Z) :
  ((a < b)%Z /\ PyInt.max a b = b) \/ ((b <= a)%Z /\ PyInt.max a b = a).
Proof.
  unfold PyInt.max. destruct (Z.ltb_spec a b); auto.
Qed.

Lemma py_int_min_cases (a b : Z) :
  ((b < a)%Z /\ PyInt.min a b = b) \/ ((a <= b)%Z /\ PyInt.min a b = a).
Proof.
  unfold PyInt.min. destruct (Z.ltb_spec b a); auto.
Qed.

(** [int] of a float between two integers is between them. *)
Lemma py_int_between (q : Q) (lo hi : Z) :
  inject_Z lo <= q -> q <= inject_Z hi -> (lo <= PyInt.int q <= hi)%Z.
Proof.
  destruct q as [n d]. unfold PyInt.int, Qle, inject_Z. cbn [Qnum Qden].
  intros Hlo Hhi. split.
  - apply Z.quot_le_lower_bound; lia.
  - apply Z.quot_le_upper_bound; lia.
Qed.

Lemma float_le (a b : Z) : (a <= b)%Z -> PyInt.float a <= PyInt.float b.
Proof.
  unfold PyInt.float. now rewrite <- Zle_Qle.
Qed.

Lemma float_lt (a b : Z) : (a < b)%Z -> PyInt.float a < PyInt.float b.
Proof.
  unfold PyInt.float. now rewrite <- Zlt_Qlt.
Qed.

Lemma float_sub (a b : Z) : PyInt.float (a - b) == PyInt.float a - PyInt.float b.
Proof.
  unfold PyInt.float, Z.sub. rewrite inject_Z_plus, inject_Z_opp. reflexivity.
Qed.

End IntFacts.

Ltac py_int_minmax :=
  repeat match goal with
  | |- context [PyInt.max ?a ?b] =>
      let H := fresh "Hmax" in
      destruct (py_int_max_cases a b) as [[? H] | [? H]]; rewrite H in *; clear H
  | |- context [PyInt.min ?a ?b] =>
      let H := fresh "Hmin" in
      destruct (py_int_min_cases a b) as [[? H] | [? H]]; rewrite H in *; clear H
  | _ : context [PyInt.max ?a ?b] |- _ =>
      let H := fresh "Hmax" in
      destruct (py_int_max_cases a b) as [[? H] | [? H]]; rewrite H in *; clear H
  | _ : context [PyInt.min ?a ?b] |- _ =>
      let H := fresh "Hmin" in
      destruct (py_int_min_cases a b) as [[? H] | [? H]]; rewrite H in *; clear H
  end.

Section SliderFacts.

Import Slider.

Lemma update_knob (self : t) (pos : Z * Z) :
  slider_pos (fst (update self pos))
  = PyInt.max (Pygame.left (rect self))
      (PyInt.min (fst pos) (Pygame.right (rect self)))
  /\ rect (fst (update self pos)) = rect self
  /\ val_range (fst (update self pos)) = val_range self
  /\ is_held (fst (update self pos)) = is_held self
  /\ label_text (fst (update self pos)) = label_text self.
Proof.
  unfold update. destruct (Py.truediv _ _); cbn; repeat split.
Qed.

(** What [update] does on a track of positive width, for the loops that
    call it. *)
Lemma slider_update_in_range_aux (self : t) (pos : Z * Z) :
  (0 < Pygame.width (rect self))%Z ->
  fst (val_range self) <= snd (val_range self) ->
  snd (update self pos) = Returned (value (fst (update self pos)))
  /\ fst (val_range self) <= value (fst (update self pos)) <= snd (val_range self)
  /\ rect (fst (update self pos)) = rect self
  /\ val_range (fst (update self pos)) = val_range self.
Proof.
  intros Hw Hrange.
  destruct (update_knob self pos) as (_ & Hr & Hv & _).
  split; [| split; [| split; assumption]].
  - unfold update. cbn [slider_pos set_slider_pos rect val_range].
    rewrite truediv_nonzero; [reflexivity |].
    assert (0 < PyInt.float (Pygame.width (rect self)))
      by (apply (float_lt 0); exact Hw). lra.
  - unfold update. cbn [slider_pos set_slider_pos rect val_range].
    set (knob := PyInt.max (Pygame.left (rect self))
                   (PyInt.min (fst pos) (Pygame.right (rect self)))).
    assert (Hknob : (Pygame.left (rect self) <= knob <= Pygame.right (rect self))%Z).
    { subst knob. unfold Pygame.right, Pygame.left in *. py_int_minmax; lia. }
    assert (Hwq : 0 < PyInt.float (Pygame.width (rect self)))
      by (apply (float_lt 0); exact Hw).
    rewrite truediv_nonzero by lra. cbn [fst value set_value].
    assert (Hfrac : 0 <= PyInt.float (knob - Pygame.left (rect self))
                         / PyInt.float (Pygame.width (rect self)) <= 1).
    { split.
      - apply Qle_shift_div_l; [exact Hwq |]. rewrite Qmult_0_l.
        apply (float_le 0). lia.
      - apply Qle_shift_div_r; [exact Hwq |]. rewrite Qmult_1_l.
        apply float_le. unfold Pygame.right, Pygame.left in *. lia. }
    nra.
Qed.



(** X16. A track of width zero makes [update] raise, after the knob has
    been moved and before the value is assigned. *)
Theorem slider_update_zero_width (self : t) (pos : Z * Z) :
  Pygame.width (rect self) = 0%Z ->
  snd (update self pos) = Raised ZeroDivisionError
  /\ value (fst (update self pos)) = value self
  /\ slider_pos (fst (update self pos)) = Pygame.left (rect self).
Proof.
  intros Hw. unfold update. cbn [rect set_slider_pos]. rewrite Hw.
  rewrite truediv_zero by reflexivity. cbn. repeat split.
  unfold Pygame.right, Pygame.left. rewrite Hw. py_int_minmax; lia.
Qed.

Lemma slider_update_zero_width_witness :
  let self := mk (Pygame.mkRect 80 610 0 10) (1, 50) 10 "Mass (kg)" true 80 in
  snd (update self (300, 615)%Z) = Raised ZeroDivisionError
  /\ value (fst (update self (300, 615)%Z)) = 10
  /\ slider_pos (fst (update self (300, 615)%Z)) = 80%Z.
Proof.
  intros self. apply (slider_update_zero_width self (300, 615)%Z). reflexivity.
Defined.

(** X17. Moving a slider to where its knob already is changes nothing: a
    second [update] at the knob of the first leaves the slider as the first
    left it and ends the same way. *)
Theorem slider_update_is_idempotent (self : t) (pos : Z * Z) (y : Z) :
  let after := fst (update self pos) in
  update after (slider_pos after, y) = (after, snd (update self pos)).
Proof.
  intros after. subst after. unfold update.
  cbn [slider_pos set_slider_pos rect val_range].
  set (knob := PyInt.max (Pygame.left (rect self))
                 (PyInt.min (fst pos) (Pygame.right (rect self)))).
  assert (Hsame : PyInt.max (Pygame.left (rect self))
                    (PyInt.min knob (Pygame.right (rect self))) = knob).
  { subst knob. py_int_minmax; lia. }
  destruct (Py.truediv (PyInt.float (knob - Pygame.left (rect self)))
              (PyInt.float (Pygame.width (rect self)))) as [q | e] eqn:E;
    cbn [fst snd slider_pos set_slider_pos set_value rect val_range value];
    rewrite Hsame, E; reflexivity.
Qed.

End SliderFacts.

Section SliderConstruction.

Import Slider.

(** X18. A slider over a range that is in strict order and a track whose
    width is not negative is constructed, with the default as its value and
    its knob on the track, whatever the default is; a range of width zero
    makes the constructor raise. *)
Theorem slider_init_places_knob_on_track
  (x y width height : Z) (val_range : Q * Q) (default_val : Q)
  (label_text : string) :
  (0 <= width)%Z ->
  (fst val_range < snd val_range ->
   exists self : t,
     __init__ x y width height val_range default_val label_text = Returned self
     /\ value self = default_val
     /\ is_held self = false
     /\ rect self = Pygame.mkRect x y width height
     /\ (x <= slider_pos self <= x + width)%Z)
  /\ (fst val_range == snd val_range ->
      __init__ x y width height val_range default_val label_text
      = Raised ZeroDivisionError).
Proof.
  intros Hw. destruct val_range as [lo hi]. cbn [fst snd]. split.
  - intros Hrange. unfold __init__. cbn [fst snd].
    rewrite truediv_nonzero by lra. cbn [bind].
    eexists. split; [reflexivity |]. cbn [value is_held rect slider_pos].
    repeat split.
    + set (d := Py.max lo (Py.min hi default_val)).
      assert (Hd : lo <= d <= hi) by (subst d; py_minmax; lra).
      assert (Hq : inject_Z 0 <= PyInt.float width * (d - lo) / (hi - lo)
                   <= inject_Z width).
      { assert (Hwq : 0 <= PyInt.float width) by (apply (float_le 0); exact Hw).
        change (inject_Z 0) with 0. fold (PyInt.float width). split.
        - apply Qle_shift_div_l; [lra | nra].
        - apply Qle_shift_div_r; [lra | nra]. }
      destruct Hq as [Hq0 Hq1].
      pose proof (py_int_between _ 0 width Hq0 Hq1). lia.
    + set (d := Py.max lo (Py.min hi default_val)).
      assert (Hd : lo <= d <= hi) by (subst d; py_minmax; lra).
      assert (Hq : inject_Z 0 <= PyInt.float width * (d - lo) / (hi - lo)
                   <= inject_Z width).
      { assert (Hwq : 0 <= PyInt.float width) by (apply (float_le 0); exact Hw).
        change (inject_Z 0) with 0. fold (PyInt.float width). split.
        - apply Qle_shift_div_l; [lra | nra].
        - apply Qle_shift_div_r; [lra | nra]. }
      destruct Hq as [Hq0 Hq1].
      pose proof (py_int_between _ 0 width Hq0 Hq1). lia.
  - intros Hrange. unfold __init__. cbn [fst snd].
    rewrite truediv_zero by lra. reflexivity.
Qed.

Lemma slider_init_places_knob_on_track_witness :
  exists self : t,
    __init__ 80 610 250 10 (1, 50) 75 "Mass (kg)" = Returned self
    /\ value self = 75
    /\ is_held self = false
    /\ rect self = Pygame.mkRect 80 610 250 10
    /\ (80 <= slider_pos self <= 80 + 250)%Z.
Proof.
  apply (slider_init_places_knob_on_track 80 610 250 10 (1, 50) 75 "Mass (kg)");
    [lia | reflexivity].
Defined.

End SliderConstruction.

(** ** The displays of the visualizer *)

Section VisualizerDisplays.

Import Visualizer.

(** X19. The Beaufort number of the description grows with the wind speed,
    is 0 below 0.3 m/s and 12 from 32.7 m/s on. *)
Theorem beaufort_number_is_monotone (wind_speed wind_speed' : Q) :
  wind_speed <= wind_speed' ->
  (beaufort_number (get_beaufort_scale wind_speed)
   <= beaufort_number (get_beaufort_scale wind_speed'))%nat
  /\ (wind_speed < 0.3 ->
      get_beaufort_scale wind_speed = "Calm (0 BF)"%string)
  /\ (32.7 <= wind_speed ->
      get_beaufort_scale wind_speed = "Hurricane (12 BF)"%string).
Proof.
  intros Hle. unfold get_beaufort_scale.
  repeat match goal with
  | |- context [Py.lt ?a ?b] =>
      let E := fresh "E" in
      destruct (Py.lt a b) eqn:E;
      [apply lt_true in E | apply lt_false in E]
  end;
  (split; [| split]);
  first [ intros; reflexivity
        | intros; exfalso; lra
        | cbv; lia
        | exfalso; lra ].
Qed.

Lemma beaufort_number_is_monotone_witness :
  (beaufort_number (get_beaufort_scale 4.5)
   <= beaufort_number (get_beaufort_scale 30))%nat.
Proof.
  apply (beaufort_number_is_monotone 4.5 30). discriminate.
Defined.

(** X20. The offset at which the outer panel is drawn never exceeds the
    [max_visual_displacement_pixels] on either side, however large the
    displacement is. *)
Theorem displacement_factor_is_bounded (self : t) (displacement : Q) :
  (0 <= max_visual_displacement_pixels self)%Z ->
  (- max_visual_displacement_pixels self
   <= displacement_factor self displacement
   <= max_visual_displacement_pixels self)%Z.
Proof.
  intros Hpix. unfold displacement_factor, Numpy.clip.
  set (c := Qmin (Qmax displacement (-0.005)) 0.005).
  assert (Hc : -0.005 <= c <= 0.005).
  { subst c. split.
    - apply Q.min_glb; [apply Q.le_max_r | discriminate].
    - apply Q.le_min_r. }
  assert (Hfrac : -1 <= c / 0.005 <= 1).
  { split.
    - apply Qle_shift_div_l; [reflexivity | lra].
    - apply Qle_shift_div_r; [reflexivity | lra]. }
  assert (Hm : 0 <= PyInt.float (max_visual_displacement_pixels self))
    by (apply (float_le 0); exact Hpix).
  apply py_int_between.
  - rewrite inject_Z_opp.
    fold (PyInt.float (max_visual_displacement_pixels self)). nra.
  - fold (PyInt.float (max_visual_displacement_pixels self)). nra.
Qed.

Lemma displacement_factor_is_bounded_witness :
  exists self : t,
    __init__ default_screen_size = Returned self
    /\ (- 60 <= displacement_factor self 0.02 <= 60)%Z.
Proof.
  eexists. split; [reflexivity |].
  match goal with
  | |- (_ <= displacement_factor ?s _ <= _)%Z =>
      exact (displacement_factor_is_bounded s 0.02 ltac:(cbn; lia))
  end.
Defined.

End VisualizerDisplays.

Section PowerGraph.

Import Visualizer.

Lemma seq_max_ge_init (xs : list Q) (best : Q) :
  best <= fold_left (fun b item => if Py.gt item b then item else b) xs best.
Proof.
  revert best. induction xs as [| x xs IH]; intros best; cbn [fold_left].
  - lra.
  - destruct (Py.gt x best) eqn:E.
    + apply lt_true in E. specialize (IH x). lra.
    + apply IH.
Qed.

Lemma seq_max_upper_bound (xs : list Q) (best : Q) :
  Forall (fun v => v <= fold_left (fun b item => if Py.gt item b then item else b)
                         xs best) xs.
Proof.
  revert best. induction xs as [| x xs IH]; intros best; cbn [fold_left].
  - constructor.
  - constructor.
    + destruct (Py.gt x best) eqn:E.
      * apply seq_max_ge_init.
      * apply lt_false in E.
        pose proof (seq_max_ge_init xs best). lra.
    + apply IH.
Qed.

Lemma enumerate_from_spec (P : Q -> Prop) (xs : list Q) :
  forall start : Z,
    Forall P xs ->
    Forall (fun iv => (start <= fst iv < start + Z.of_nat (length xs))%Z
                      /\ P (snd iv))
      (PySeq.enumerate_from start xs)
    /\ length (PySeq.enumerate_from start xs) = length xs.
Proof.
  induction xs as [| x xs IH]; intros start Hall; cbn [PySeq.enumerate_from].
  - split; [constructor | reflexivity].
  - inversion Hall as [| x' xs' Hx Hxs]; subst.
    destruct (IH (start + 1)%Z Hxs) as [Hrest Hlen]. split.
    + constructor.
      * cbn [fst snd length]. split; [lia | exact Hx].
      * eapply Forall_impl; [| exact Hrest].
        intros [i v] [Hi Hv]. cbn [fst snd length] in *. split; [lia | exact Hv].
    + cbn [length]. now rewrite Hlen.
Qed.

(** Where a point of the curve may lie: across the width of the graph
    rectangle, and between 10 pixels above its bottom edge and four fifths of
    its height higher. *)
Lemma graph_points_loop_in_rect (self : t) (max_power_val : Q)
  (items : list (Z * Q)) :
  (1 < power_history_display_length self)%Z ->
  0 < graph_max_y self ->
  (0 <= Pygame.width (graph_rect self))%Z ->
  (0 <= Pygame.height (graph_rect self))%Z ->
  Forall (fun iv => (0 <= fst iv < power_history_display_length self)%Z
                    /\ 0 <= snd iv <= max_power_val) items ->
  exists points : list (Q * Q),
    graph_points_loop self max_power_val items = Returned points
    /\ length points = length items
    /\ Forall (fun p =>
                 PyInt.float (Pygame.x (graph_rect self)) <= fst p
                 <= PyInt.float (Pygame.x (graph_rect self))
                    + PyInt.float (Pygame.width (graph_rect self))
                 /\ PyInt.float (Pygame.y (graph_rect self))
                    + PyInt.float (Pygame.height (graph_rect self)) * 0.2 - 10
                    <= snd p
                    <= PyInt.float (Pygame.y (graph_rect self))
                       + PyInt.float (Pygame.height (graph_rect self)) - 10)
         points.
Proof.
  intros Hlen Hmax Hw Hh.
  assert (Hwq : 0 <= PyInt.float (Pygame.width (graph_rect self)))
    by (apply (float_le 0); exact Hw).
  assert (Hhq : 0 <= PyInt.float (Pygame.height (graph_rect self)))
    by (apply (float_le 0); exact Hh).
  assert (Hlq : 0 < PyInt.float (power_history_display_length self - 1))
    by (apply (float_lt 0); lia).
  induction items as [| [i v] rest IH]; intros Hall;
    cbn [graph_points_loop].
  - exists []. repeat split. constructor.
  - inversion Hall as [| iv rest' [Hi Hv] Hrest]; subst. cbn [fst snd] in *.
    destruct (IH Hrest) as (points & Hloop & Hlenp & Hin).
    rewrite truediv_nonzero by lra. cbn [bind].
    set (den := if Py.gt max_power_val 0 then max_power_val else graph_max_y self).
    assert (Hden : 0 < den /\ v <= den).
    { subst den. destruct (Py.gt max_power_val 0) eqn:E.
      - apply lt_true in E. split; lra.
      - apply lt_false in E. split; lra. }
    destruct Hden as [Hden Hvden].
    rewrite truediv_nonzero by lra. cbn [bind]. rewrite Hloop. cbn [bind].
    eexists. split; [reflexivity |]. split; [cbn [length]; now rewrite Hlenp |].
    constructor; [| exact Hin]. cbn [fst snd].
    assert (Hfx : 0 <= PyInt.float i
                       / PyInt.float (power_history_display_length self - 1) <= 1).
    { split.
      - apply Qle_shift_div_l; [exact Hlq |]. rewrite Qmult_0_l.
        apply (float_le 0). lia.
      - apply Qle_shift_div_r; [exact Hlq |]. rewrite Qmult_1_l.
        apply float_le. lia. }
    assert (Hfy : 0 <= v / den <= 1).
    { split.
      - apply Qle_shift_div_l; [exact Hden | lra].
      - apply Qle_shift_div_r; [exact Hden | lra]. }
    split; nra.
Qed.

(** X21. The curve of the power graph stays inside the graph rectangle: for
    at least two and at most [power_history_display_length] samples, none of
    them negative, every sample gets a point, and every point lies across
    the width of the rectangle, at least 10 pixels above its bottom edge and
    at most four fifths of its height higher.  With fewer than two samples
    there is no curve. *)
Theorem graph_points_stay_in_rect (self : t) (power_history : list Q) :
  (1 < power_history_display_length self)%Z ->
  0 < graph_max_y self ->
  (0 <= Pygame.width (graph_rect self))%Z ->
  (0 <= Pygame.height (graph_rect self))%Z ->
  (Z.of_nat (length power_history) <= power_history_display_length self)%Z ->
  Forall (fun v => 0 <= v) power_history ->
  ((length power_history < 2)%nat -> graph_points self power_history = Returned [])
  /\ ((2 <= length power_history)%nat ->
      exists points : list (Q * Q),
        graph_points self power_history = Returned points
        /\ length points = length power_history
        /\ Forall (fun p =>
                     PyInt.float (Pygame.x (graph_rect self)) <= fst p
                     <= PyInt.float (Pygame.x (graph_rect self))
                        + PyInt.float (Pygame.width (graph_rect self))
                     /\ PyInt.float (Pygame.y (graph_rect self))
                        + PyInt.float (Pygame.height (graph_rect self)) * 0.2 - 10
                        <= snd p
                        <= PyInt.float (Pygame.y (graph_rect self))
                           + PyInt.float (Pygame.height (graph_rect self)) - 10)
             points).
Proof.
  intros Hlen Hmax Hw Hh Hcount Hpos. split.
  - intros Hshort. destruct power_history as [| a [| b rest]];
      [reflexivity | reflexivity | cbn [length] in Hshort; lia].
  - intros Hlong. destruct power_history as [| a [| b rest]];
      [cbn [length] in Hlong; lia | cbn [length] in Hlong; lia |].
    unfold graph_points. unfold PySeq.enumerate, PySeq.max.
    set (ph := a :: b :: rest) in *.
    set (top := fold_left (fun best item => if Py.gt item best then item else best)
                  ph a).
    assert (Hall : Forall (fun v => 0 <= v <= top) ph).
    { pose proof (seq_max_upper_bound ph a) as Hub. fold top in Hub.
      rewrite Forall_forall in *. intros v Hv. split; auto. }
    destruct (enumerate_from_spec (fun v => 0 <= v <= top) ph 0%Z Hall)
      as [Hitems Hlenitems].
    destruct (graph_points_loop_in_rect self top (PySeq.enumerate_from 0 ph)
                Hlen Hmax Hw Hh) as (points & Hloop & Hlenp & Hin).
    { eapply Forall_impl; [| exact Hitems].
      intros [i v] [Hi Hv]. cbn [fst snd] in *. split; [lia | exact Hv]. }
    exists points. split; [exact Hloop |]. split; [congruence | exact Hin].
Qed.

Lemma graph_points_stay_in_rect_witness :
  exists self : t,
    __init__ default_screen_size = Returned self
    /\ exists points : list (Q * Q),
        graph_points self [0; 2.5; 1] = Returned points
        /\ length points = 3%nat.
Proof.
  eexists. split; [reflexivity |].
  match goal with
  | |- exists points, graph_points ?s ?ph = _ /\ _ =>
      destruct (graph_points_stay_in_rect s ph) as [_ H];
      [ cbn; lia | reflexivity | cbn; lia | cbn; lia | cbn; lia
      | repeat constructor; discriminate | ];
      destruct H as (points & Hp & Hl & _); [cbn; lia |];
      exists points; split; [exact Hp | exact Hl]
  end.
Defined.

End PowerGraph.

(** ** The user interface *)

Section DictFacts.

Context {V : Type}.

Lemma dict_get_set_same (d : Dict.t V) (key : string) (v : V) :
  Dict.get (Dict.set d key v) key = Some v.
Proof.
  induction d as [| [k v'] rest IH]; cbn [Dict.set Dict.get].
  - now rewrite String.eqb_refl.
  - destruct (String.eqb k key) eqn:E; cbn [Dict.get]; rewrite E; auto.
Qed.

Lemma dict_get_set_other (d : Dict.t V) (key key' : string) (v : V) :
  key' <> key -> Dict.get (Dict.set d key v) key' = Dict.get d key'.
Proof.
  intros Hne. induction d as [| [k v'] rest IH]; cbn [Dict.set Dict.get].
  - destruct (String.eqb_spec key key'); [congruence | reflexivity].
  - destruct (String.eqb_spec k key) as [-> | Hk]; cbn [Dict.get].
    + destruct (String.eqb_spec key key'); [congruence | reflexivity].
    + destruct (String.eqb_spec k key'); [reflexivity | exact IH].
Qed.

End DictFacts.

Section VisualizerFacts.

Import Visualizer Invariant.

Lemma slider_ranges_value :
  slider_ranges
  = [ ("mass", (1, 50)); ("damping", (1, 50)); ("stiffness", (10000, 500000));
      ("area", (0.05, 1.0)); ("max_elec_damping", (0.5, 20.0));
      ("efficiency", (0.01, 1.0)); ("discharge_rate", (0.0, 0.07));
      ("piezo_const", (1, 30)); ("resistance", (1, 50000)) ]%string.
Proof.
  reflexivity.
Qed.

Lemma slider_ranges_in_order :
  Forall (fun r : string * (Q * Q) => fst (snd r) <= snd (snd r)) slider_ranges.
Proof.
  rewrite slider_ranges_value. repeat constructor; discriminate.
Qed.

Lemma slider_ranges_keys_differ : NoDup (Dict.keys slider_ranges).
Proof.
  rewrite slider_ranges_value. cbn.
  repeat (constructor; [cbn; intuition discriminate |]). constructor.
Qed.

(** Giving a parameter a value of its range keeps the parameters within
    their ranges. *)
Lemma params_within_set (ranges : Dict.t (Q * Q)) (params : Dict.t Q)
  (name : string) (range : Q * Q) (v : Q) :
  NoDup (Dict.keys ranges) ->
  In (name, range) ranges ->
  fst range <= v <= snd range ->
  params_within ranges params ->
  params_within ranges (Dict.set params name v).
Proof.
  intros Hnodup Hin Hv Hparams. unfold params_within in *.
  rewrite Forall_forall in *. intros [key r] Hr. cbn [fst snd].
  destruct (String.eqb_spec key name) as [-> | Hne].
  - assert (r = range).
    { clear Hparams Hv. unfold Dict.keys in Hnodup.
      induction ranges as [| [k0 r0] rest IH]; [contradiction |].
      cbn [map fst] in Hnodup. inversion Hnodup as [| ? ? Hnotin Hrest]; subst.
      destruct Hin as [Hin | Hin], Hr as [Hr | Hr].
      - congruence.
      - injection Hin as -> ->. exfalso. apply Hnotin.
        apply (in_map fst) in Hr. exact Hr.
      - injection Hr as -> ->. exfalso. apply Hnotin.
        apply (in_map fst) in Hin. exact Hin.
      - now apply IH. }
    subst r. exists v. split; [apply dict_get_set_same | exact Hv].
  - destruct (Hparams (key, r) Hr) as (v' & Hget & Hv'). cbn [fst snd] in *.
    exists v'. split; [| exact Hv'].
    rewrite dict_get_set_other by exact Hne. exact Hget.
Qed.

(** The loop of [handle_mouse_drag] on sliders with a track: it does not
    raise, it leaves ranges and tracks alone, and the parameters stay within
    the ranges. *)
Lemma drag_keeps_ranges (items : Dict.t Slider.t) (params : Dict.t Q)
  (pos : Z * Z) (ranges : Dict.t (Q * Q)) :
  tracks_ok items ->
  incl (ranges_of items) ranges ->
  NoDup (Dict.keys ranges) ->
  Forall (fun r : string * (Q * Q) => fst (snd r) <= snd (snd r)) ranges ->
  params_within ranges params ->
  exists (items' : Dict.t Slider.t) (params' : Dict.t Q) (action : option string),
    drag items params pos = (items', params', Returned action)
    /\ ranges_of items' = ranges_of items
    /\ tracks_ok items'
    /\ params_within ranges params'
    /\ (Forall (fun item => Slider.is_held (snd item) = false) items ->
        items' = items /\ params' = params /\ action = None).
Proof.
  intros Htracks Hincl Hnodup Horder Hparams.
  induction items as [| [name slider] rest IH]; cbn [drag].
  - exists [], params, None. repeat split; auto.
  - inversion Htracks as [| ? ? Hw Hrest]; subst. cbn [snd] in Hw.
    assert (Hin : In (name, Slider.val_range slider) ranges)
      by (apply Hincl; left; reflexivity).
    assert (Hincl' : incl (ranges_of rest) ranges)
      by (intros r Hr; apply Hincl; right; exact Hr).
    destruct (Slider.is_held slider) eqn:Hheld.
    + assert (Hord : fst (Slider.val_range slider) <= snd (Slider.val_range slider)).
      { rewrite Forall_forall in Horder. exact (Horder _ Hin). }
      destruct (slider_update_in_range_aux slider pos Hw Hord)
        as (Hret & Hval & Hrect & Hrange).
      destruct (Slider.update slider pos) as [slider' o]. cbn [fst snd] in *.
      subst o. eexists _, _, _. split; [reflexivity |].
      split; [cbn [ranges_of map fst snd]; now rewrite Hrange |].
      split; [constructor; [cbn [snd]; now rewrite Hrect | exact Hrest] |].
      split.
      * eapply params_within_set; eauto.
      * intros Hnone. inversion Hnone as [| ? ? Hh _]; subst.
        cbn [snd] in Hh. congruence.
    + destruct (IH Hrest Hincl') as (items' & params' & action & Hd & Hr & Ht & Hp & Hn).
      rewrite Hd. eexists _, _, _. split; [reflexivity |].
      split; [cbn [ranges_of map]; f_equal; exact Hr |].
      split; [constructor; [exact Hw | exact Ht] |].
      split; [exact Hp |].
      intros Hnone. inversion Hnone as [| ? ? _ Hnone']; subst.
      destruct (Hn Hnone') as (-> & -> & ->). auto.
Qed.

End VisualizerFacts.

Section VisualizerEvents.

Import Visualizer Invariant.

Lemma grab_keeps_ranges (pos : Z * Z) (items : Dict.t Slider.t) :
  let items' :=
    map (fun item : string * Slider.t =>
           let (name, slider) := item in
           if Pygame.collidepoint (Slider.rect slider) pos
           then (name, Slider.set_is_held slider true)
           else (name, slider)) items in
  ranges_of items' = ranges_of items /\ (tracks_ok items -> tracks_ok items').
Proof.
  cbn zeta. induction items as [| [name slider] rest [IHr IHt]].
  - split; [reflexivity | auto].
  - cbn [map ranges_of]. split.
    + f_equal; [| exact IHr].
      destruct (Pygame.collidepoint _ _); reflexivity.
    + intros Ht. inversion Ht as [| ? ? Hw Hrest]; subst.
      constructor; [| now apply IHt].
      destruct (Pygame.collidepoint _ _); exact Hw.
Qed.

Lemma release_keeps_ranges (items : Dict.t Slider.t) :
  let items' :=
    map (fun item : string * Slider.t =>
           (fst item, Slider.set_is_held (snd item) false)) items in
  ranges_of items' = ranges_of items
  /\ (tracks_ok items -> tracks_ok items')
  /\ Forall (fun item => Slider.is_held (snd item) = false) items'.
Proof.
  cbn zeta. induction items as [| [name slider] rest (IHr & IHt & IHh)].
  - repeat split; auto.
  - cbn [map ranges_of fst snd]. split; [f_equal; exact IHr |]. split.
    + intros Ht. inversion Ht as [| ? ? Hw Hrest]; subst.
      constructor; [exact Hw | now apply IHt].
    + constructor; [reflexivity | exact IHh].
Qed.

(** X22. What a click can do.  ['start'] comes only from a simulation that
    is not running and sets it running; ['stop'] comes only from a running
    one, stops it and the timer; the two wind actions come only from a
    running one and start the timer; and a click that is no action changes
    neither flag.  No click changes a parameter, and while the simulation
    runs no click takes hold of a slider. *)
Theorem handle_mouse_click_actions (self : t) (pos : Z * Z) :
  let after := fst (handle_mouse_click self pos) in
  let action := snd (handle_mouse_click self pos) in
  params after = params self
  /\ (simulation_running self = true -> sliders after = sliders self)
  /\ match action with
     | Some a =>
         (a = "start"%string
          /\ simulation_running self = false
          /\ simulation_running after = true
          /\ timer_started after = timer_started self)
         \/ (a = "stop"%string
             /\ simulation_running self = true
             /\ simulation_running after = false
             /\ timer_started after = false)
         \/ ((a = "wind_up"%string \/ a = "wind_down"%string)
             /\ simulation_running self = true
             /\ simulation_running after = true
             /\ timer_started after = true)
     | None =>
         simulation_running after = simulation_running self
         /\ timer_started after = timer_started self
     end.
Proof.
  unfold handle_mouse_click.
  destruct (simulation_running self) eqn:Hrun; cbn [negb].
  - destruct (Button.is_clicked (stop_button self) pos);
      [| destruct (Button.is_clicked (wind_up_button self) pos);
         [| destruct (Button.is_clicked (wind_down_button self) pos)]];
      cbn; rewrite ?Hrun; cbn; intuition auto.
  - destruct (Button.is_clicked (start_button self) pos);
      cbn; rewrite ?Hrun; cbn; intuition (auto; discriminate).
Qed.

Lemma click_keeps_visualizer_ok (self : t) (pos : Z * Z) :
  visualizer_ok self -> visualizer_ok (fst (handle_mouse_click self pos)).
Proof.
  intros (Hr & Ht & Hp). unfold handle_mouse_click.
  destruct (grab_keeps_ranges pos (sliders self)) as [Hgr Hgt].
  destruct (simulation_running self) eqn:Hrun; cbn [negb].
  - destruct (Button.is_clicked (stop_button self) pos);
      [| destruct (Button.is_clicked (wind_up_button self) pos);
         [| destruct (Button.is_clicked (wind_down_button self) pos)]];
      cbn; rewrite ?Hrun; cbn; repeat split; assumption.
  - destruct (Button.is_clicked (start_button self) pos);
      cbn; rewrite ?Hrun; cbn.
    + repeat split; assumption.
    + unfold visualizer_ok. cbn [sliders params set_sliders].
      split; [now rewrite Hgr |]. split; [now apply Hgt | exact Hp].
Qed.

Lemma release_keeps_visualizer_ok (self : t) :
  visualizer_ok self -> visualizer_ok (handle_mouse_release self).
Proof.
  intros (Hr & Ht & Hp).
  destruct (release_keeps_ranges (sliders self)) as (Hrr & Hrt & _).
  unfold visualizer_ok, handle_mouse_release. cbn [sliders params set_sliders].
  split; [now rewrite Hrr |]. split; [now apply Hrt | exact Hp].
Qed.

Lemma drag_keeps_visualizer_ok (self : t) (pos : Z * Z) :
  visualizer_ok self ->
  exists action : option string,
    snd (handle_mouse_drag self pos) = Returned action
    /\ visualizer_ok (fst (handle_mouse_drag self pos))
    /\ simulation_running (fst (handle_mouse_drag self pos))
       = simulation_running self
    /\ timer_started (fst (handle_mouse_drag self pos)) = timer_started self.
Proof.
  intros (Hr & Ht & Hp). unfold handle_mouse_drag.
  destruct (drag_keeps_ranges (sliders self) (params self) pos slider_ranges)
    as (items' & params' & action & Hd & Hr' & Ht' & Hp' & _).
  - exact Ht.
  - rewrite Hr. apply incl_refl.
  - exact slider_ranges_keys_differ.
  - exact slider_ranges_in_order.
  - exact Hp.
  - rewrite Hd. exists action. unfold visualizer_ok.
    cbn [fst snd sliders params set_sliders set_params simulation_running
         timer_started].
    repeat split; try assumption. congruence.
Qed.

(** X23. Once the mouse button is released no slider is held, and moving
    the mouse changes nothing: the drag handler answers [None] and leaves
    sliders and parameters as they are. *)
Theorem drag_after_release_changes_nothing (self : t) (pos : Z * Z) :
  let released := handle_mouse_release self in
  Forall (fun item => Slider.is_held (snd item) = false) (sliders released)
  /\ handle_mouse_drag released pos = (released, Returned None).
Proof.
  intros released.
  destruct (release_keeps_ranges (sliders self)) as (_ & _ & Hnone).
  assert (Hsl : sliders released
                = map (fun item : string * Slider.t =>
                         (fst item, Slider.set_is_held (snd item) false))
                    (sliders self)) by reflexivity.
  rewrite <- Hsl in Hnone. split; [exact Hnone |].
  assert (Hdrag : forall items params,
             Forall (fun item : string * Slider.t =>
                       Slider.is_held (snd item) = false) items ->
             drag items params pos = (items, params, Returned None)).
  { induction items as [| [name slider] rest IH]; intros params Hall;
      cbn [drag]; [reflexivity |].
    inversion Hall as [| ? ? Hh Hrest]; subst. cbn [snd] in Hh.
    rewrite Hh, (IH params Hrest). reflexivity. }
  unfold handle_mouse_drag. rewrite (Hdrag _ _ Hnone).
  destruct released. reflexivity.
Qed.

End VisualizerEvents.

(** ** The main loop *)

Section MainFacts.

Import Invariant.

Context {np : Np.Lib}.

Lemma default_visualizer_ok (visualizer : Visualizer.t) :
  Visualizer.__init__ Visualizer.default_screen_size = Returned visualizer ->
  visualizer_ok visualizer
  /\ Visualizer.simulation_running visualizer = false
  /\ Visualizer.timer_started visualizer = false.
Proof.
  intros H. unfold visualizer_ok, slider_ranges. rewrite H.
  vm_compute in H. injection H as <-.
  split; [| split; reflexivity].
  split; [reflexivity |]. split.
  - repeat constructor.
  - unfold params_within. repeat constructor;
      (eexists; split; [reflexivity | split; discriminate]).
Qed.

Lemma start_of_main_ok (visualizer : Visualizer.t) :
  Visualizer.__init__ Visualizer.default_screen_size = Returned visualizer ->
  main_ok (Main.start_of_main visualizer).
Proof.
  intros H. destruct (default_visualizer_ok visualizer H) as (Hv & Hrun & _).
  unfold main_ok, Main.start_of_main. cbn.
  split; [exact Hv |]. split; [split; discriminate |].
  split; [reflexivity |]. split; [congruence |].
  repeat split; intros; discriminate.
Qed.

(** A parameter within the ranges of the sliders is found. *)
Lemma item_within (params : Dict.t Q) (key : string) (lo hi : Q) :
  params_within slider_ranges params ->
  In (key, (lo, hi)) slider_ranges ->
  exists v : Q, Main.item params key = Main.Done v /\ lo <= v <= hi.
Proof.
  intros Hp Hin. unfold params_within in Hp. rewrite Forall_forall in Hp.
  destruct (Hp _ Hin) as (v & Hget & Hv). cbn [fst snd] in *.
  exists v. unfold Main.item. rewrite Hget. auto.
Qed.

(** The branch ['start'] on parameters within the ranges: the three objects
    are built, none of the look-ups fails. *)
Lemma start_ok (st : Main.state) :
  visualizer_ok (Main.visualizer st) ->
  exists (model : PhysicsModel.t) (generator : VibrationGenerator.t)
         (store : EnergyStorage.t),
    Main.start st
    = Main.Done (Main.mk (Main.visualizer st) (Some model) (Some generator)
                   (Some store) 0.0 0.0 (Main.running st))
    /\ model_ok model /\ PhysicsModel.failed model = false
    /\ generator_ok generator
    /\ store_ok store.
Proof.
  intros (_ & _ & Hp). unfold Main.start, Visualizer.get_params.
  pose proof slider_ranges_value as Hr.
  assert (Hin : forall key lo hi,
             In (key, (lo, hi))
               [ ("mass", (1, 50)); ("damping", (1, 50));
                 ("stiffness", (10000, 500000)); ("area", (0.05, 1.0));
                 ("max_elec_damping", (0.5, 20.0)); ("efficiency", (0.01, 1.0));
                 ("discharge_rate", (0.0, 0.07)); ("piezo_const", (1, 30));
                 ("resistance", (1, 50000)) ]%string ->
             exists v : Q,
               Main.item (Visualizer.params (Main.visualizer st)) key
               = Main.Done v /\ lo <= v <= hi).
  { intros key lo hi H. apply item_within; [exact Hp |]. rewrite Hr. exact H. }
  destruct (Hin "mass"%string 1 50) as (mass & -> & Hmass); [cbn; tauto |].
  destruct (Hin "damping"%string 1 50) as (damping & -> & Hdamping);
    [cbn; tauto |].
  destruct (Hin "stiffness"%string 10000 500000) as (stiffness & -> & Hstiff);
    [cbn; tauto |].
  destruct (Hin "area"%string 0.05 1.0) as (area & -> & Harea); [cbn; tauto |].
  destruct (Hin "max_elec_damping"%string 0.5 20.0) as (med & -> & Hmed);
    [cbn; tauto |].
  destruct (Hin "piezo_const"%string 1 30) as (piezo & -> & Hpiezo);
    [cbn; tauto |].
  destruct (Hin "resistance"%string 1 50000) as (resistance & -> & Hres);
    [cbn; tauto |].
  destruct (Hin "efficiency"%string 0.01 1.0) as (efficiency & -> & Heff);
    [cbn; tauto |].
  destruct (Hin "discharge_rate"%string 0.0 0.07) as (rate & -> & Hrate);
    [cbn; tauto |].
  cbn [Main.and_then]. eexists _, _, _. split; [reflexivity |].
  split; [| split; [reflexivity | split]].
  - unfold model_ok. cbn -[Qle]. repeat split; first [lra | reflexivity].
  - unfold generator_ok. cbn -[Qle]. repeat split; first [lra | reflexivity].
  - unfold store_ok, EnergyStorage.in_range. cbn -[Qle].
    repeat split; first [lra | reflexivity | discriminate].
Qed.

Lemma wind_up_in_range (st : Main.state) :
  0 <= Main.wind_speed st <= 30 ->
  0 <= Main.wind_speed (Main.wind_up st) <= 30.
Proof.
  intros H. unfold Main.wind_up. cbn [Main.wind_speed Main.set_wind_speed].
  destruct (Py.gt (Main.wind_speed st + 0.5) 30) eqn:E; cbn.
  - split; discriminate.
  - apply lt_false in E. lra.
Qed.

Lemma wind_down_in_range (st : Main.state) :
  0 <= Main.wind_speed st <= 30 ->
  0 <= Main.wind_speed (Main.wind_down st) <= 30.
Proof.
  intros H. unfold Main.wind_down. cbn [Main.wind_speed Main.set_wind_speed].
  destruct (Py.lt (Main.wind_speed st - 1.0) 0) eqn:E; cbn.
  - split; discriminate.
  - apply lt_false in E. lra.
Qed.

End MainFacts.

Section MainInvariant.

Import Invariant.

Context {np : Np.Lib}.

Lemma click_outcomes (self : Visualizer.t) (pos : Z * Z) :
  visualizer_ok self ->
  let after := fst (Visualizer.handle_mouse_click self pos) in
  let action := snd (Visualizer.handle_mouse_click self pos) in
  visualizer_ok after
  /\ ((action = Some "start"%string
       /\ Visualizer.simulation_running after = true)
      \/ (action = Some "stop"%string
          /\ Visualizer.simulation_running after = false)
      \/ ((action = Some "wind_up"%string \/ action = Some "wind_down"%string)
          /\ Visualizer.simulation_running self = true
          /\ Visualizer.simulation_running after = true)
      \/ (action = None
          /\ Visualizer.simulation_running after
             = Visualizer.simulation_running self)).
Proof.
  intros Hok. split; [now apply click_keeps_visualizer_ok |].
  unfold Visualizer.handle_mouse_click.
  destruct (Visualizer.simulation_running self) eqn:Hrun; cbn [negb].
  - destruct (Button.is_clicked (Visualizer.stop_button self) pos);
      [| destruct (Button.is_clicked (Visualizer.wind_up_button self) pos);
         [| destruct (Button.is_clicked (Visualizer.wind_down_button self) pos)]];
      cbn; rewrite ?Hrun; cbn; intuition auto.
  - destruct (Button.is_clicked (Visualizer.start_button self) pos);
      cbn; rewrite ?Hrun; cbn; intuition auto.
Qed.

Lemma main_ok_set_visualizer (st : Main.state) (vis : Visualizer.t) :
  main_ok st ->
  visualizer_ok vis ->
  Visualizer.simulation_running vis
  = Visualizer.simulation_running (Main.visualizer st) ->
  main_ok (Main.set_visualizer st vis).
Proof.
  intros (Hv & Hw & Hstop & Hrun & Hrest) Hv' Hr.
  unfold main_ok. cbn -[Qle Qeq]. rewrite Hr. auto 10.
Qed.

Lemma main_ok_set_wind_speed (st : Main.state) (wind : Q) :
  main_ok st ->
  Visualizer.simulation_running (Main.visualizer st) = true ->
  0 <= wind <= 30 ->
  main_ok (Main.set_wind_speed st wind).
Proof.
  intros (Hv & Hw & Hstop & Hrun & Hrest) Hr Hwind.
  unfold main_ok. cbn -[Qle Qeq].
  split; [exact Hv |]. split; [exact Hwind |].
  split; [congruence |]. split; [exact Hrun | exact Hrest].
Qed.

Lemma main_ok_wind_up (st : Main.state) :
  main_ok st ->
  Visualizer.simulation_running (Main.visualizer st) = true ->
  main_ok (Main.wind_up st).
Proof.
  intros Hok Hr. pose proof Hok as (_ & Hw & _).
  pose proof (wind_up_in_range st Hw) as Hw'. unfold Main.wind_up in *.
  cbn [Main.wind_speed Main.set_wind_speed] in *.
  destruct (Py.gt (Main.wind_speed st + 0.5) 30);
    cbn [Main.wind_speed Main.set_wind_speed] in Hw'.
  - change (main_ok (Main.set_wind_speed st 30)).
    now apply main_ok_set_wind_speed.
  - now apply main_ok_set_wind_speed.
Qed.

Lemma main_ok_wind_down (st : Main.state) :
  main_ok st ->
  Visualizer.simulation_running (Main.visualizer st) = true ->
  main_ok (Main.wind_down st).
Proof.
  intros Hok Hr. pose proof Hok as (_ & Hw & _).
  pose proof (wind_down_in_range st Hw) as Hw'. unfold Main.wind_down in *.
  cbn [Main.wind_speed Main.set_wind_speed] in *.
  destruct (Py.lt (Main.wind_speed st - 1.0) 0);
    cbn [Main.wind_speed Main.set_wind_speed] in Hw'.
  - change (main_ok (Main.set_wind_speed st 0)).
    now apply main_ok_set_wind_speed.
  - now apply main_ok_set_wind_speed.
Qed.

Lemma handle_event_ok (st : Main.state) (ev : Pygame.event) :
  main_ok st ->
  exists st' : Main.state, Main.handle_event st ev = Main.Done st' /\ main_ok st'.
Proof.
  intros Hok.
  pose proof Hok as (Hv & Hw & Hstop & Hrun & Hg & He & Hm & Hgen & Hst).
  destruct ev as [| button pos | | pos |]; cbn [Main.handle_event].
  - eexists. split; [reflexivity | exact Hok].
  - destruct (button =? 1)%Z; [| eexists; split; [reflexivity | exact Hok]].
    destruct (click_outcomes (Main.visualizer st) pos Hv) as [Hv' Hcases].
    destruct (Visualizer.handle_mouse_click (Main.visualizer st) pos)
      as [vis action]. cbn [fst snd] in *.
    destruct Hcases as [[-> Hr] | [[-> Hr] | [[[-> | ->] [Hr0 Hr]] | [-> Hr]]]].
    + (* start *)
      cbn [String.eqb Ascii.eqb Bool.eqb andb].
      destruct (start_ok (Main.set_visualizer st vis) Hv')
        as (model & generator & store & Hstart & Hmo & Hf & Hgo & Hso).
      rewrite Hstart. eexists. split; [reflexivity |].
      unfold main_ok. cbn -[Qle Qeq].
      split; [exact Hv' |]. split; [split; discriminate |].
      split; [reflexivity |].
      split; [intros _; exists model; auto |].
      split; [split; discriminate |]. split; [split; discriminate |].
      (split; [| split]); intros ? [= <-]; assumption.
    + (* stop *)
      cbn [String.eqb Ascii.eqb Bool.eqb andb].
      eexists. split; [reflexivity |].
      unfold main_ok, Main.stop. cbn -[Qle Qeq].
      split; [exact Hv' |]. split; [split; discriminate |].
      split; [reflexivity |]. split; [congruence |].
      split; [tauto |]. split; [tauto |].
      (split; [| split]); intros ? [=].
    + (* wind_up *)
      cbn [String.eqb Ascii.eqb Bool.eqb andb Main.visualizer Main.set_visualizer].
      rewrite Hr. cbn [andb].
      eexists. split; [reflexivity |].
      apply main_ok_wind_up; [| exact Hr].
      apply main_ok_set_visualizer; [exact Hok | exact Hv' | congruence].
    + (* wind_down *)
      cbn [String.eqb Ascii.eqb Bool.eqb andb Main.visualizer Main.set_visualizer].
      rewrite Hr. cbn [andb].
      eexists. split; [reflexivity |].
      apply main_ok_wind_down; [| exact Hr].
      apply main_ok_set_visualizer; [exact Hok | exact Hv' | congruence].
    + (* no action *)
      eexists. split; [reflexivity |].
      now apply main_ok_set_visualizer.
  - eexists. split; [reflexivity |].
    apply main_ok_set_visualizer;
      [exact Hok | now apply release_keeps_visualizer_ok | reflexivity].
  - destruct (drag_keeps_visualizer_ok (Main.visualizer st) pos Hv)
      as (action & Hret & Hv' & Hr & _).
    destruct (Visualizer.handle_mouse_drag (Main.visualizer st) pos)
      as [vis o]. cbn [fst snd] in *. subst o.
    eexists. split; [reflexivity |].
    now apply main_ok_set_visualizer.
  - eexists. split; [reflexivity | exact Hok].
Qed.

Lemma handle_events_ok (events : list Pygame.event) :
  forall st : Main.state,
    main_ok st ->
    exists st' : Main.state,
      Main.handle_events st events = Main.Done st' /\ main_ok st'.
Proof.
  induction events as [| ev rest IH]; intros st Hok; cbn [Main.handle_events].
  - exists st. auto.
  - destruct (handle_event_ok st ev Hok) as (st1 & -> & Hok1).
    cbn [Main.and_then]. now apply IH.
Qed.

End MainInvariant.

Section MainSimulation.

Import Invariant.

Context {np : Np.Lib}.

Lemma update_keeps_model_ok (model : PhysicsModel.t) (wind dt : Q)
  (es : option EnergyStorage.t) (g : Np.rng) :
  model_ok model -> model_ok (fst (PhysicsModel.update model wind dt es g)).
Proof.
  intros H. destruct (update_frame model wind dt es g)
    as (Hm & Hc1 & _ & Hmax & Hk & HA & Hd & _).
  unfold model_ok. rewrite Hm, Hc1, Hmax, Hk, HA, Hd. exact H.
Qed.

(** The simulation logic of a frame, on a state that satisfies the
    invariant: it does not raise and it keeps the invariant. *)
Lemma simulation_logic_ok (st : Main.state) (dt : Q) (g : Np.rng) :
  main_ok st ->
  exists (st' : Main.state) (g' : Np.rng),
    Main.simulation_logic st dt g = (Main.Done st', g')
    /\ main_ok st'
    /\ Main.running st' = Main.running st.
Proof.
  intros Hok.
  pose proof Hok as (Hv & Hw & Hstop & Hrun & Hg & He & Hm & Hgen & Hst).
  unfold Main.simulation_logic.
  destruct (Main.physics_model st) as [model |] eqn:Emodel;
    [| eexists _, _; split; [reflexivity | split; [exact Hok | reflexivity]]].
  destruct (Main.generator st) as [generator |] eqn:Egen;
    [| eexists _, _; split; [reflexivity | split; [exact Hok | reflexivity]]].
  destruct (Main.energy_storage st) as [store |] eqn:Estore;
    [| eexists _, _; split; [reflexivity | split; [exact Hok | reflexivity]]].
  destruct (Visualizer.simulation_running (Main.visualizer st)) eqn:Erun;
    [| eexists _, _; split; [reflexivity | split; [exact Hok | reflexivity]]].
  specialize (Hm model eq_refl). specialize (Hgen generator eq_refl).
  specialize (Hst store eq_refl).
  pose proof (update_keeps_model_ok model (Main.wind_speed st) dt (Some store) g Hm)
    as Hm'.
  destruct (PhysicsModel.update model (Main.wind_speed st) dt (Some store) g)
    as [model' g'] eqn:Eupd. cbn [fst] in Hm'.
  destruct Hgen as (Hpz & Hres & Hmv & Heff).
  assert (Hnz : ~ VibrationGenerator.resistance generator == 0) by lra.
  rewrite (calculate_power_returns generator
             (PhysicsModel.displacement model') (PhysicsModel.velocity model') Hnz).
  cbn [VibrationGenerator.calculate_energy_this_cycle].
  destruct Hst as (Hcap & Hrate & Hin).
  assert (Hcap' : 0 < EnergyStorage.capacity store) by (rewrite Hcap; reflexivity).
  set (joules := VibrationGenerator.power_output _ * dt * Main.NUM_WINDOWS).
  destruct (update_in_range store dt joules Hcap') as [Hret Hin'].
  destruct (update_config store dt joules) as [Hc Hr].
  destruct (EnergyStorage.update store dt joules) as [store' o].
  cbn [fst snd] in *. subst o.
  eexists _, _. split; [reflexivity |]. split; [| destruct (PhysicsModel.failed model'); reflexivity].
  assert (Hgen' : generator_ok
                    (VibrationGenerator.set_power_output generator
                       (Py.min
                          (Py.min
                             (VibrationGenerator.piezo_const generator
                              * Qabs (PhysicsModel.velocity model'))
                             (VibrationGenerator.max_voltage generator) ^ 2
                           / VibrationGenerator.resistance generator) 10
                        * VibrationGenerator.efficiency generator)))
    by (unfold generator_ok; cbn -[Qle]; auto).
  assert (Hst' : store_ok store')
    by (unfold store_ok; rewrite Hc, Hr; auto).
  destruct (PhysicsModel.failed model') eqn:Efail; unfold main_ok;
    cbn -[Qle Qeq Py.min Qabs].
  - split; [exact Hv |]. split; [split; discriminate |].
    split; [reflexivity |]. split; [discriminate |].
    split; [split; discriminate |]. split; [split; discriminate |].
    (split; [| split]); intros ? [= <-]; assumption.
  - rewrite Erun.
    split; [exact Hv |]. split; [exact Hw |].
    split; [discriminate |].
    split; [intros _; eexists; split; [reflexivity | exact Efail] |].
    split; [split; discriminate |]. split; [split; discriminate |].
    (split; [| split]); intros ? [= <-]; assumption.
Qed.

Lemma frame_ok (st : Main.state) (tick : Z) (events : list Pygame.event)
  (g : Np.rng) :
  main_ok st ->
  exists (st' : Main.state) (g' : Np.rng),
    Main.frame st tick events g = (Main.Done st', g') /\ main_ok st'.
Proof.
  intros Hok. unfold Main.frame.
  destruct (handle_events_ok events st Hok) as (st1 & -> & Hok1).
  destruct (simulation_logic_ok st1
              (Visualizer.get_delta_time (Main.visualizer st) tick) g Hok1)
    as (st2 & g2 & -> & Hok2 & _).
  pose proof Hok2 as (_ & _ & _ & Hrun & _).
  unfold Main.draw_elements.
  destruct (Visualizer.simulation_running (Main.visualizer st2)) eqn:E.
  - destruct (Hrun eq_refl) as (model & -> & _).
    eexists _, _. split; [reflexivity | exact Hok2].
  - eexists _, _. split; [reflexivity | exact Hok2].
Qed.

Lemma loop_ok (frames : list (Z * list Pygame.event)) :
  forall (st : Main.state) (g : Np.rng),
    main_ok st ->
    exists (st' : Main.state) (g' : Np.rng),
      Main.loop st frames g = (Main.Done st', g') /\ main_ok st'.
Proof.
  induction frames as [| [tick events] rest IH]; intros st g Hok;
    cbn [Main.loop].
  - eexists _, _. split; [reflexivity | exact Hok].
  - destruct (Main.running st);
      [| eexists _, _; split; [reflexivity | exact Hok]].
    destruct (frame_ok st tick events g Hok) as (st1 & g1 & -> & Hok1).
    now apply IH.
Qed.

Lemma main_ok_at_every_frame (frames : list (Z * list Pygame.event)) (g : Np.rng) :
  exists (st : Main.state) (g' : Np.rng),
    main frames g = (Main.Done st, g') /\ main_ok st.
Proof.
  unfold main.
  destruct (Visualizer.__init__ Visualizer.default_screen_size)
    as [visualizer | e] eqn:E; [| discriminate].
  apply loop_ok. now apply start_of_main_ok.
Qed.

End MainSimulation.

Section MainClaims.

Import Invariant.

Context {np : Np.Lib}.

(** X24. Whatever ticks and events pygame gives, [main] does not end in an
    exception: no parameter is missing when the objects are built, no
    division by zero is reached in the sliders, the generator or the store,
    and the drawing never finds the physics model absent while the
    simulation runs. *)
Theorem main_never_raises (frames : list (Z * list Pygame.event)) (g : Np.rng) :
  exists st : Main.state,
    fst (main frames g) = Main.Done st
    /\ Main.draw_elements st = Main.Done tt.
Proof.
  destruct (main_ok_at_every_frame frames g) as (st & g' & Hmain & Hok).
  exists st. rewrite Hmain. split; [reflexivity |].
  destruct Hok as (_ & _ & _ & Hrun & _). unfold Main.draw_elements.
  destruct (Visualizer.simulation_running (Main.visualizer st)); [| reflexivity].
  destruct (Hrun eq_refl) as (model & -> & _). reflexivity.
Qed.

(** X25. In [main] the wind speed stays between 0 and 30 m/s, and it is 0
    whenever the simulation is not running. *)
Theorem main_wind_speed_in_range (frames : list (Z * list Pygame.event))
  (g : Np.rng) :
  exists st : Main.state,
    fst (main frames g) = Main.Done st
    /\ 0 <= Main.wind_speed st <= 30
    /\ (Visualizer.simulation_running (Main.visualizer st) = false ->
        Main.wind_speed st == 0).
Proof.
  destruct (main_ok_at_every_frame frames g) as (st & g' & Hmain & Hok).
  exists st. rewrite Hmain. destruct Hok as (_ & Hw & Hstop & _). auto.
Qed.

(** X26. In [main] a running simulation always has its three objects, and
    its physics model has not failed: the frame in which the model fails
    stops the simulation, so [update] is never called on a failed model. *)
Theorem main_runs_only_active_models (frames : list (Z * list Pygame.event))
  (g : Np.rng) :
  exists st : Main.state,
    fst (main frames g) = Main.Done st
    /\ (Visualizer.simulation_running (Main.visualizer st) = true ->
        exists (model : PhysicsModel.t) (generator : VibrationGenerator.t)
               (store : EnergyStorage.t),
          Main.physics_model st = Some model
          /\ Main.generator st = Some generator
          /\ Main.energy_storage st = Some store
          /\ PhysicsModel.failed model = false).
Proof.
  destruct (main_ok_at_every_frame frames g) as (st & g' & Hmain & Hok).
  exists st. rewrite Hmain. split; [reflexivity |]. intros Hrun.
  destruct Hok as (_ & _ & _ & Hr & Hg & He & _).
  destruct (Hr Hrun) as (model & Hmodel & Hf).
  destruct (Main.generator st) as [generator |] eqn:Egen.
  - destruct (Main.energy_storage st) as [store |] eqn:Estore.
    + exists model, generator, store. auto.
    + destruct He as [_ He]. rewrite He in Hmodel by reflexivity. discriminate.
  - destruct Hg as [_ Hg]. rewrite Hg in Hmodel by reflexivity. discriminate.
Qed.

(** X27. The objects [main] works with are always built from parameters
    within the ranges of the sliders: mass, stiffness and load resistance
    are at least 1, 10000 and 1, the efficiency lies between 0.01 and 1, the
    capacity is the default one, and the battery is within its ranges, its
    state of charge between 0 and 100. *)
Theorem main_objects_are_well_configured
  (frames : list (Z * list Pygame.event)) (g : Np.rng) :
  exists st : Main.state,
    fst (main frames g) = Main.Done st
    /\ (forall model, Main.physics_model st = Some model ->
        1 <= PhysicsModel.m model <= 50
        /\ 10000 <= PhysicsModel.k model <= 500000
        /\ 0.5 <= PhysicsModel.max_c_elec model <= 20)
    /\ (forall generator, Main.generator st = Some generator ->
        1 <= VibrationGenerator.resistance generator <= 50000
        /\ 0.01 <= VibrationGenerator.efficiency generator <= 1)
    /\ (forall store, Main.energy_storage st = Some store ->
        EnergyStorage.capacity store = 50000
        /\ 0 <= EnergyStorage.stored_energy store <= 50000
        /\ 0 <= EnergyStorage.state_of_charge store <= 100).
Proof.
  destruct (main_ok_at_every_frame frames g) as (st & g' & Hmain & Hok).
  exists st. rewrite Hmain. split; [reflexivity |].
  destruct Hok as (_ & _ & _ & _ & _ & _ & Hm & Hgen & Hst).
  split; [| split].
  - intros model H. destruct (Hm model H) as (? & ? & ? & ? & ? & ?). auto.
  - intros generator H. destruct (Hgen generator H) as (? & ? & ? & ?). auto.
  - intros store H. destruct (Hst store H) as (Hcap & _ & [Hs Hp]).
    rewrite Hcap in Hs. auto.
Qed.

End MainClaims.

(** ** One step of the simulation in the main loop *)

Section MainStep.

Context {np : Np.Lib}.

(** What the simulation logic of a frame does when neither division is by
    zero: the model is updated with the store as it is, the generator turns
    the new velocity into power, the power is recorded, and the store gets
    the energy of all the windows. *)
Lemma simulation_logic_step
  (vis : Visualizer.t) (model : PhysicsModel.t) (gen : VibrationGenerator.t)
  (store : EnergyStorage.t) (wind total : Q) (running : bool) (dt : Q)
  (g : Np.rng) :
  Visualizer.simulation_running vis = true ->
  ~ VibrationGenerator.resistance gen == 0 ->
  ~ EnergyStorage.capacity store == 0 ->
  let model1 := fst (PhysicsModel.update model wind dt (Some store) g) in
  let gen1 :=
    fst (VibrationGenerator.calculate_power gen
           (PhysicsModel.displacement model1) (PhysicsModel.velocity model1)) in
  let power := VibrationGenerator.power_output gen1 in
  let store1 :=
    fst (EnergyStorage.update store dt (power * dt * Main.NUM_WINDOWS)) in
  Main.simulation_logic
    (Main.mk vis (Some model) (Some gen) (Some store) wind total running) dt g
  = (Main.Done
       (Main.mk
          (if PhysicsModel.failed model1
           then Visualizer.set_simulation_running vis false else vis)
          (Some (PhysicsModel.update_power_metrics model1 power))
          (Some gen1) (Some store1)
          (if PhysicsModel.failed model1 then 0.0 else wind)
          (total + power * dt) running),
     snd (PhysicsModel.update model wind dt (Some store) g)).
Proof.
  intros Hrun Hres Hcap model1 gen1 power store1.
  unfold Main.simulation_logic.
  cbn [Main.physics_model Main.generator Main.energy_storage Main.visualizer
       Main.wind_speed].
  rewrite Hrun. subst store1 power gen1 model1.
  destruct (PhysicsModel.update model wind dt (Some store) g) as [model1 g1].
  cbn [fst snd].
  rewrite (calculate_power_returns gen (PhysicsModel.displacement model1)
             (PhysicsModel.velocity model1) Hres).
  cbn [fst VibrationGenerator.calculate_energy_this_cycle].
  match goal with
  | |- context [EnergyStorage.update store dt ?j] =>
      destruct (update_returns store dt j Hcap) as [Hret _];
      destruct (EnergyStorage.update store dt j) as [store1 o]
  end.
  cbn [fst snd] in *. subst o.
  destruct (PhysicsModel.failed model1); reflexivity.
Qed.

End MainStep.

Section MainStepClaims.

Context {np : Np.Lib}.

(** X28. The feedback of the battery is one step late: the electrical
    damping that a simulation step gives the model comes from the state of
    charge the store had before the step, not from the one the store has
    after it. *)
Theorem simulation_step_feedback_is_delayed
  (vis : Visualizer.t) (model : PhysicsModel.t) (gen : VibrationGenerator.t)
  (store : EnergyStorage.t) (wind total : Q) (running : bool) (dt : Q)
  (g : Np.rng) :
  Visualizer.simulation_running vis = true ->
  PhysicsModel.failed model = false ->
  ~ VibrationGenerator.resistance gen == 0 ->
  ~ EnergyStorage.capacity store == 0 ->
  exists (st' : Main.state) (g' : Np.rng) (model' : PhysicsModel.t)
         (store' : EnergyStorage.t),
    Main.simulation_logic
      (Main.mk vis (Some model) (Some gen) (Some store) wind total running) dt g
    = (Main.Done st', g')
    /\ Main.physics_model st' = Some model'
    /\ Main.energy_storage st' = Some store'
    /\ PhysicsModel.c_elec model'
       = PhysicsModel.max_c_elec model
         * (1 - EnergyStorage.state_of_charge store / 100.0) + 0.5
    /\ EnergyStorage.state_of_charge store'
       = EnergyStorage.stored_energy store' / EnergyStorage.capacity store * 100.
Proof.
  intros Hrun Hactive Hres Hcap.
  rewrite (simulation_logic_step vis model gen store wind total running dt g
             Hrun Hres Hcap).
  eexists _, _, _, _. split; [reflexivity |].
  cbn [Main.physics_model Main.energy_storage].
  split; [reflexivity |]. split; [reflexivity |]. split.
  - destruct (update_active model wind dt (Some store) g Hactive)
      as (last & _ & _ & _ & _ & _ & _ & Hc & _).
    cbn [PhysicsModel.update_power_metrics PhysicsModel.c_elec
         PhysicsModel.set_average_power PhysicsModel.set_avg_power_window
         PhysicsModel.set_power_history].
    exact Hc.
  - match goal with
    | |- context [EnergyStorage.update store dt ?j] =>
        destruct (update_returns store dt j Hcap) as [_ Hsoc]
    end.
    exact Hsoc.
Qed.


(** X30. The step in which the model fails stops the simulation and the
    wind, yet still turns the velocity of the failing state into power and
    stores its energy; from then on the simulation logic of a frame changes
    nothing. *)
Theorem simulation_step_that_fails
  (vis : Visualizer.t) (model : PhysicsModel.t) (gen : VibrationGenerator.t)
  (store : EnergyStorage.t) (wind total : Q) (running : bool) (dt : Q)
  (g : Np.rng) :
  Visualizer.simulation_running vis = true ->
  ~ VibrationGenerator.resistance gen == 0 ->
  ~ EnergyStorage.capacity store == 0 ->
  PhysicsModel.failed (fst (PhysicsModel.update model wind dt (Some store) g))
  = true ->
  exists (st' : Main.state) (g' : Np.rng) (model' : PhysicsModel.t)
         (gen' : VibrationGenerator.t),
    Main.simulation_logic
      (Main.mk vis (Some model) (Some gen) (Some store) wind total running) dt g
    = (Main.Done st', g')
    /\ Visualizer.simulation_running (Main.visualizer st') = false
    /\ Main.wind_speed st' = 0.0
    /\ Main.physics_model st' = Some model'
    /\ PhysicsModel.failed model' = true
    /\ Main.generator st' = Some gen'
    /\ snd (VibrationGenerator.calculate_power gen
              (PhysicsModel.displacement model') (PhysicsModel.velocity model'))
       = Returned (VibrationGenerator.power_output gen')
    /\ Main.total_energy_single_window st'
       = total + VibrationGenerator.power_output gen' * dt
    /\ forall (dt' : Q) (r : Np.rng),
         Main.simulation_logic st' dt' r = (Main.Done st', r).
Proof.
  intros Hrun Hres Hcap Hfail.
  rewrite (simulation_logic_step vis model gen store wind total running dt g
             Hrun Hres Hcap).
  rewrite Hfail.
  eexists _, _, _, _. split; [reflexivity |].
  cbn [Main.visualizer Main.wind_speed Main.physics_model Main.generator
       Main.total_energy_single_window].
  split; [reflexivity |]. split; [reflexivity |]. split; [reflexivity |].
  split; [exact Hfail |]. split; [reflexivity |]. split.
  - set (model1 := fst (PhysicsModel.update model wind dt (Some store) g)).
    change (PhysicsModel.displacement
              (PhysicsModel.update_power_metrics model1 _))
      with (PhysicsModel.displacement model1).
    change (PhysicsModel.velocity
              (PhysicsModel.update_power_metrics model1 _))
      with (PhysicsModel.velocity model1).
    now rewrite (calculate_power_returns gen (PhysicsModel.displacement model1)
                   (PhysicsModel.velocity model1) Hres).
  - split; [reflexivity |]. intros dt' r. reflexivity.
Qed.

End MainStepClaims.

Section MainStepRuns.

Lemma simulation_step_feedback_is_delayed_witness :
  let np := Stub.lib (0.004, 0.1) in
  exists (st' : Main.state) (g' : unit) (model' : PhysicsModel.t)
         (store' : EnergyStorage.t),
    Main.simulation_logic (np := np) (Sample.state (np := np) 3) 0.016 tt
    = (Main.Done st', g')
    /\ Main.physics_model st' = Some model'
    /\ Main.energy_storage st' = Some store'
    /\ PhysicsModel.c_elec model'
       = PhysicsModel.max_c_elec (Sample.model (np := np))
         * (1 - EnergyStorage.state_of_charge Sample.store / 100.0) + 0.5
    /\ EnergyStorage.state_of_charge store'
       = EnergyStorage.stored_energy store'
         / EnergyStorage.capacity Sample.store * 100.
Proof.
  intros np.
  apply (simulation_step_feedback_is_delayed (np := np)
           Sample.running_visualizer (Sample.model (np := np)) Sample.generator
           Sample.store 3 0.0 true 0.016 tt);
    [reflexivity | reflexivity | discriminate | discriminate].
Defined.


Lemma simulation_step_that_fails_witness :
  let np := Stub.overshoot in
  exists (st' : Main.state) (g' : unit),
    Main.simulation_logic (np := np) (Sample.state (np := np) 30) 0.016 tt
    = (Main.Done st', g')
    /\ Visualizer.simulation_running (Main.visualizer st') = false
    /\ Main.wind_speed st' = 0.0.
Proof.
  intros np.
  destruct (simulation_step_that_fails (np := np)
              Sample.running_visualizer (Sample.model (np := np))
              Sample.generator Sample.store 30 0.0 true 0.016 tt)
    as (st' & g' & _ & _ & Hstep & Hrun & Hwind & _);
    [reflexivity | discriminate | discriminate | vm_compute; reflexivity |].
  exists st', g'. auto.
Defined.

End MainStepRuns.
